(** * Cyber-risk platform: risk scoring, scenario correlation and the
      ensemble confidence engine

    A shallow embedding of [engines/risk_engine.py],
    [engines/ultra_precise_risk_engine.py] and the data classes of
    [backend/models/risk_models.py].

    Numbers.  Python floats are modelled as rationals ([Q]) with exact
    arithmetic: every finite float is a rational, and the engines only
    add, multiply, divide, compare and clamp.  An operation that raises
    or yields NaN or an infinity in Python (division by zero, a statistic
    of an empty array, an index or key that is not there) fails with
    [None].  The square root behind [np.std] is a parameter of the
    ensemble engine.

    Effects.  Methods that write to [self], to an asset, or read the
    wall clock are computations in a state-and-error monad over the
    objects they can reach. *)

From Stdlib Require Import QArith Qminmax Qround Qabs Lqa Lia ZArith String List.
From Stdlib Require Import Sorted Permutation.
From stdpp Require Import base option list strings pretty.

Local Open Scope Q_scope.
Local Open Scope string_scope.

(** ** State-and-error monad *)

Definition M (S A : Type) : Type := S -> option (A * S).

Global Instance M_ret {S} : MRet (M S) := fun A a s => Some (a, s).

Global Instance M_bind {S} : MBind (M S) :=
  fun A B f m s => match m s with Some (a, s') => f a s' | None => None end.

Definition gets {S A} (f : S -> A) : M S A := fun s => Some (f s, s).

Definition modify {S} (f : S -> S) : M S unit := fun s => Some (tt, f s).

(** A failing pure step (an exception) aborts the computation. *)
Definition lift {S A} (o : option A) : M S A :=
  fun s => match o with Some a => Some (a, s) | None => None end.

(** ** Python and numpy primitives *)

Module Py.

(** [x / y]: [ZeroDivisionError], or numpy's NaN or infinity, is [None]. *)
Definition div (x y : Q) : option Q :=
  if Qeq_bool y 0 then None else Some (x / y).

Definition of_nat (n : nat) : Q := inject_Z (Z.of_nat n).

(** [len(l)] used as a number. *)
Definition len {A} (l : list A) : Q := of_nat (length l).

(** [sum(l)]: left to right from 0. *)
Definition sum (l : list Q) : Q := fold_left Qplus l 0.

(** Truth value of an [Optional[str]]: [None] and the empty string are false. *)
Definition truthy (s : option string) : bool :=
  match s with Some (String _ _) => true | _ => false end.

(** [s or d] on an [Optional[str]]. *)
Definition or_else (s : option string) (d : string) : string :=
  match s with Some (String c r) => String c r | _ => d end.

(** A dict with string keys.  It remembers insertion order, as Python's
    does: [d[k] = v] overwrites in place or appends at the end. *)
Abbreviation dict V := (list (string * V)).


Fixpoint dict_set {V} (k : string) (v : V) (d : dict V) : dict V :=
  match d with
  | [] => [(k, v)]
  | (k', v') :: d' => if String.eqb k' k then (k, v) :: d'
                      else (k', v') :: dict_set k v d'
  end.

Fixpoint dict_get {V} (k : string) (d : dict V) : option V :=
  match d with
  | [] => None
  | (k', v') :: d' => if String.eqb k' k then Some v' else dict_get k d'
  end.

(** Writing through a reference to the object stored under [k]. *)
Fixpoint dict_alter {V} (f : V -> V) (k : string) (d : dict V) : dict V :=
  match d with
  | [] => []
  | (k', v') :: d' => if String.eqb k' k then (k', f v') :: d'
                      else (k', v') :: dict_alter f k d'
  end.

(** [d.get(k, dflt)] *)
Definition get {V} (d : dict V) (k : string) (dflt : V) : V :=
  default dflt (dict_get k d).

(** [d.get(k, dflt)] where [k] is an [Optional[str]]: [None] is never a key here. *)
Definition get_opt {V} (d : dict V) (k : option string) (dflt : V) : V :=
  match k with Some s => get d s dflt | None => dflt end.

(** [sorted(l, key=key, reverse=True)]: stable, descending. *)
Fixpoint insert_desc {A} (key : A -> Q) (x : A) (l : list A) : list A :=
  match l with
  | [] => [x]
  | y :: l' => if Qle_bool (key y) (key x) then x :: y :: l'
               else y :: insert_desc key x l'
  end.

Definition sorted_desc {A} (key : A -> Q) (l : list A) : list A :=
  fold_right (insert_desc key) [] l.

(** [sorted(l)]: stable, ascending. *)
Fixpoint insert_asc (x : Q) (l : list Q) : list Q :=
  match l with
  | [] => [x]
  | y :: l' => if Qle_bool x y then x :: y :: l' else y :: insert_asc x l'
  end.

Definition sorted (l : list Q) : list Q := fold_right insert_asc [] l.

(** [max(l)] and [min(l)] of a non-empty list; [ValueError] on an empty one. *)
Definition max (l : list Q) : option Q :=
  match l with [] => None | x :: xs => Some (fold_left Qmax xs x) end.

Definition min (l : list Q) : option Q :=
  match l with [] => None | x :: xs => Some (fold_left Qmin xs x) end.

(** [round(x, ndigits)]: to the nearest multiple of [10^-ndigits], ties to even. *)
Definition round (x : Q) (ndigits : nat) : Q :=
  let p := inject_Z (10 ^ Z.of_nat ndigits) in
  let s := x * p in
  let f := Qfloor s in
  let n := match Qcompare (s - inject_Z f) (1 # 2) with
           | Lt => f
           | Gt => (f + 1)%Z
           | Eq => if Z.even f then f else (f + 1)%Z
           end in
  inject_Z n / p.

(** [datetime]: microseconds since the epoch. *)
Definition datetime : Type := Z.

(** [(a - b).days]: whole days, rounded towards minus infinity. *)
Definition days_between (a b : datetime) : Z := ((a - b) / 86400000000)%Z.

(** The wall clock: [readings n] is what the [n]-th call of
    [datetime.now()] returns; [reads] counts the calls made so far. *)
Record clock := { readings : nat -> datetime; reads : nat }.

Definition tick (c : clock) : clock :=
  {| readings := readings c; reads := S (reads c) |}.

Definition read (c : clock) : datetime := readings c (reads c).

(** [len(s) > 0 and ...] helpers on lists. *)
Definition nonempty {A} (l : list A) : bool :=
  match l with [] => false | _ => true end.

(** [sum(1 for x in l if p x)] and [len([x for x in l if p x])]. *)
Definition count {A} (p : A -> bool) (l : list A) : nat :=
  length (List.filter p l).

(** [l.append(x)] *)
Definition append {A} (l : list A) (x : A) : list A := (l ++ [x])%list.

Definition keys {V} (d : dict V) : list string := map fst d.
Definition values {V} (d : dict V) : list V := map snd d.

End Py.

(** ** [backend/models/risk_models.py] *)

Inductive RiskLevel := CRITICAL | HIGH | MEDIUM | LOW | INFORMATIONAL.

Module AssetCategory.
Inductive t := WORKSTATION | SERVER | CLOUD_INSTANCE | NETWORK_DEVICE
             | DATABASE | IOT_DEVICE | CONTAINER | SAAS_APPLICATION.
End AssetCategory.

Module AssetCriticality.
Inductive t := MISSION_CRITICAL | HIGH | MEDIUM | LOW.

(** [.value] *)
Definition value (c : t) : string :=
  match c with
  | MISSION_CRITICAL => "Mission Critical"
  | HIGH => "High"
  | MEDIUM => "Medium"
  | LOW => "Low"
  end.
End AssetCriticality.

Module VulnerabilitySource.
Inductive t := SYSLOG | WINDOWS_EVENT | WINDOWS_SECURITY | M365_DEFENDER
             | DEFENDER_SECURITY | VULNERABILITY_SCANNER | MANUAL.
End VulnerabilitySource.

Definition RiskLevel_eqb (a b : RiskLevel) : bool :=
  match a, b with
  | CRITICAL, CRITICAL | HIGH, HIGH | MEDIUM, MEDIUM | LOW, LOW
  | INFORMATIONAL, INFORMATIONAL => true
  | _, _ => false
  end.

Module Vulnerability.
Record t := mk {
  id : string;
  cve_id : option string;
  title : string;
  description : string;
  severity : RiskLevel;
  cvss_score : Q;
  cvss_vector : option string;
  published_date : Py.datetime;
  discovered_date : Py.datetime;
  source : VulnerabilitySource.t;
  affected_assets : list string;
  exploit_available : bool;
  exploit_public : bool;
  patch_available : bool;
  remediation_status : string;
  attack_vector : option string;
  attack_complexity : option string;
  privileges_required : option string;
  user_interaction : option string;
  tags : list string;
  references : list string
}.

(** The same record with another [cvss_score]. *)
Definition with_cvss_score (c : Q) (v : t) : t :=
  mk (id v) (cve_id v) (title v) (description v) (severity v) c
     (cvss_vector v) (published_date v) (discovered_date v) (source v)
     (affected_assets v) (exploit_available v) (exploit_public v)
     (patch_available v) (remediation_status v) (attack_vector v)
     (attack_complexity v) (privileges_required v) (user_interaction v)
     (tags v) (references v).
End Vulnerability.

Module Asset.
Record t := mk {
  id : string;
  name : string;
  category : AssetCategory.t;
  ip_address : string;
  os : string;
  os_version : option string;
  criticality : AssetCriticality.t;
  vulnerability_ids : list string;
  last_scan_date : Py.datetime;
  status : string;
  tags : list string;
  owner : option string;
  location : option string;
  exposed_to_internet : bool;
  contains_sensitive_data : bool;
  patch_level : string;
  antivirus_status : string;
  firewall_enabled : bool;
  _risk_score : option Q
}.

(** The [risk_score] property: the stored value, 0.0 before any was stored. *)
Definition risk_score (a : t) : Q := default 0 (_risk_score a).

(** The [risk_score] setter. *)
Definition set_risk_score (value : Q) (a : t) : t :=
  mk (id a) (name a) (category a) (ip_address a) (os a) (os_version a)
     (criticality a) (vulnerability_ids a) (last_scan_date a) (status a)
     (tags a) (owner a) (location a) (exposed_to_internet a)
     (contains_sensitive_data a) (patch_level a) (antivirus_status a)
     (firewall_enabled a) (Some value).
End Asset.

Module RiskScenario.
Record t := mk {
  id : string;
  title : string;
  description : string;
  category : string;
  severity : RiskLevel;
  likelihood : string;
  impact : string;
  affected_asset_ids : list string;
  correlated_vulnerability_ids : list string;
  mitre_tactics : list string;
  mitre_techniques : list string;
  business_risk_score : Q;
  detection_coverage : Q;
  remediation_plan : string;
  created_at : Py.datetime;
  updated_at : Py.datetime;
  log_evidence : list (list (string * string));
  indicators_of_compromise : list string
}.
End RiskScenario.

Module RiskCalculationResult.
Record t := mk {
  asset_id : string;
  total_risk_score : Q;
  vulnerability_risk : Q;
  exposure_risk : Q;
  criticality_multiplier : Q;
  threat_intelligence_factor : Q;
  contributing_vulnerabilities : list string;
  risk_factors : Py.dict Q;
  recommendations : list string;
  calculated_at : Py.datetime
}.

(** The same record stamped with another creation time. *)
Definition with_calculated_at (d : Py.datetime) (r : t) : t :=
  mk (asset_id r) (total_risk_score r) (vulnerability_risk r)
     (exposure_risk r) (criticality_multiplier r)
     (threat_intelligence_factor r) (contributing_vulnerabilities r)
     (risk_factors r) (recommendations r) d.
End RiskCalculationResult.


(** ** [engines/risk_engine.py] *)

Module RiskCalculationEngine.

Definition WEIGHTS : Py.dict Q :=
  [("vulnerability_severity", 0.35);
   ("exploitability", 0.25);
   ("asset_criticality", 0.20);
   ("exposure", 0.10);
   ("threat_intelligence", 0.10)].

(** [CVSS_MULTIPLIERS.get(severity, 0.5)]: every [RiskLevel] is a key of
    the table, so the default is never taken. *)
Definition CVSS_MULTIPLIERS (s : RiskLevel) : Q :=
  match s with
  | CRITICAL => 1.0
  | HIGH => 0.8
  | MEDIUM => 0.5
  | LOW => 0.2
  | INFORMATIONAL => 0.0
  end.

(** [CRITICALITY_MULTIPLIERS.get(criticality, 1.0)], likewise. *)
Definition CRITICALITY_MULTIPLIERS (c : AssetCriticality.t) : Q :=
  match c with
  | AssetCriticality.MISSION_CRITICAL => 2.0
  | AssetCriticality.HIGH => 1.5
  | AssetCriticality.MEDIUM => 1.0
  | AssetCriticality.LOW => 0.5
  end.

(** The fields of [self].  [assets] keeps insertion order, which is the
    order every loop over [self.assets.values()] follows. *)
Record t := mk {
  assets : Py.dict Asset.t;
  vulnerabilities : Py.dict Vulnerability.t;
  risk_scenarios : list RiskScenario.t;
  threat_intel : Py.dict Q
}.

Definition __init__ : t := mk [] [] [] [].

Definition with_assets (d : Py.dict Asset.t) (e : t) : t :=
  mk d (vulnerabilities e) (risk_scenarios e) (threat_intel e).

Definition with_risk_scenarios (l : list RiskScenario.t) (e : t) : t :=
  mk (assets e) (vulnerabilities e) l (threat_intel e).

Definition add_asset (asset : Asset.t) (e : t) : t :=
  with_assets (Py.dict_set (Asset.id asset) asset (assets e)) e.

Definition add_vulnerability (vulnerability : Vulnerability.t) (e : t) : t :=
  mk (assets e)
     (Py.dict_set (Vulnerability.id vulnerability) vulnerability
                  (vulnerabilities e))
     (risk_scenarios e) (threat_intel e).

Definition add_threat_intelligence (cve_id : string) (threat_score : Q) (e : t) : t :=
  mk (assets e) (vulnerabilities e) (risk_scenarios e)
     (Py.dict_set cve_id (Qmin (Qmax threat_score 0) 1) (threat_intel e)).

(** [self.threat_intel[vuln.cve_id]] under the guard
    [vuln.cve_id and vuln.cve_id in self.threat_intel]. *)
Definition known_threat (e : t) (vuln : Vulnerability.t) : option Q :=
  if Py.truthy (Vulnerability.cve_id vuln)
  then c ← Vulnerability.cve_id vuln; Py.dict_get c (threat_intel e)
  else None.

Definition vector_multipliers : Py.dict Q :=
  [("Network", 1.3);
   ("Adjacent", 1.1);
   ("Local", 0.9);
   ("Physical", 0.6)].

Definition calculate_vulnerability_risk (e : t) (vuln : Vulnerability.t) : Q :=
  let base_score := (Vulnerability.cvss_score vuln / 10) * 100 in
  let severity_mult := CVSS_MULTIPLIERS (Vulnerability.severity vuln) in
  let exploit_factor :=
    if Vulnerability.exploit_public vuln then 1.5
    else if Vulnerability.exploit_available vuln then 1.3
    else 1.0 in
  let patch_factor := if Vulnerability.patch_available vuln then 0.7 else 1.0 in
  let vector_mult :=
    Py.get_opt vector_multipliers (Vulnerability.attack_vector vuln) 1.0 in
  let threat_mult :=
    match known_threat e vuln with
    | Some ti => 1.0 + ti * 0.5
    | None => 1.0
    end in
  let risk_score :=
    base_score * severity_mult * exploit_factor * patch_factor
    * vector_mult * threat_mult in
  Qmin risk_score 100.

Definition patch_scores : Py.dict Q :=
  [("Current", 0.0);
   ("Outdated", 15.0);
   ("Critical", 30.0);
   ("Unknown", 20.0)].

Definition av_scores : Py.dict Q :=
  [("Active", 0.0);
   ("Outdated", 10.0);
   ("Inactive", 20.0);
   ("Unknown", 15.0)].

Definition _calculate_exposure_risk (asset : Asset.t) : Q :=
  let exposure_score := 0.0 in
  let exposure_score :=
    if Asset.exposed_to_internet asset then exposure_score + 30.0
    else exposure_score in
  let exposure_score :=
    if Asset.contains_sensitive_data asset then exposure_score + 25.0
    else exposure_score in
  let exposure_score :=
    exposure_score + Py.get patch_scores (Asset.patch_level asset) 20.0 in
  let exposure_score :=
    exposure_score + Py.get av_scores (Asset.antivirus_status asset) 15.0 in
  let exposure_score :=
    if negb (Asset.firewall_enabled asset) then exposure_score + 15.0
    else exposure_score in
  Qmin exposure_score 100.

Definition _calculate_threat_factor (e : t) (vulns : list Vulnerability.t) : Q :=
  match vulns with
  | [] => 1.0
  | _ :: _ =>
    let threat_scores := omap (known_threat e) vulns in
    match Py.max threat_scores with
    | None => 1.0
    | Some m => 1.0 + m
    end
  end.

Definition is_critical (v : Vulnerability.t) : bool :=
  RiskLevel_eqb (Vulnerability.severity v) CRITICAL.

Definition is_high (v : Vulnerability.t) : bool :=
  RiskLevel_eqb (Vulnerability.severity v) HIGH.

Definition _generate_recommendations
    (asset : Asset.t) (vulns : list Vulnerability.t) : list string :=
  let recommendations := [] in
  let critical_vulns := List.filter is_critical vulns in
  let recommendations :=
    if Py.nonempty critical_vulns
    then Py.append recommendations
         ("URGENT: Patch " +:+ pretty (length critical_vulns)
          +:+ " critical vulnerabilities immediately")
    else recommendations in
  let high_vulns := List.filter is_high vulns in
  let recommendations :=
    if Py.nonempty high_vulns
    then Py.append recommendations
         ("Prioritize patching " +:+ pretty (length high_vulns)
          +:+ " high-severity vulnerabilities")
    else recommendations in
  let exploit_vulns := List.filter Vulnerability.exploit_public vulns in
  let recommendations :=
    if Py.nonempty exploit_vulns
    then Py.append recommendations
         ("Address " +:+ pretty (length exploit_vulns)
          +:+ " vulnerabilities with public exploits")
    else recommendations in
  let recommendations :=
    if Asset.exposed_to_internet asset
    then Py.append recommendations
         ("Consider reducing internet exposure or implementing additional network controls")
    else recommendations in
  let recommendations :=
    if String.eqb (Asset.patch_level asset) "Outdated"
       || String.eqb (Asset.patch_level asset) "Critical"
    then Py.append recommendations
         ("Update system patches to current level")
    else recommendations in
  let recommendations :=
    if negb (String.eqb (Asset.antivirus_status asset) "Active")
    then Py.append recommendations
         ("Ensure antivirus is active and up-to-date")
    else recommendations in
  let recommendations :=
    if negb (Asset.firewall_enabled asset)
    then Py.append recommendations
         ("Enable host-based firewall")
    else recommendations in
  take 5 recommendations.

(** What a method can reach: the engine and the wall clock. *)
Record world := World { self : t; clock : Py.clock }.

(** [datetime.now()] *)
Definition datetime_now : M world Py.datetime :=
  fun w => Some (Py.read (clock w), World (self w) (Py.tick (clock w))).

(** Following the reference to the asset object registered under [k]. *)
Definition deref (k : string) : M world Asset.t :=
  fun w => lift (Py.dict_get k (assets (self w))) w.

(** [asset.risk_score = value] through that reference. *)
Definition set_asset_risk_score (k : string) (value : Q) : M world unit :=
  modify (fun w =>
    World (with_assets (Py.dict_alter (Asset.set_risk_score value) k
                                      (assets (self w))) (self w))
          (clock w)).

(** The asset's vulnerabilities that exist; dangling ids are dropped. *)
Definition resolve (e : t) (ids : list string) : list Vulnerability.t :=
  omap (fun vuln_id => Py.dict_get vuln_id (vulnerabilities e)) ids.

(** Lines 145-153: the worst score alone, or 60% of it plus the others
    sharing 40%. *)
Definition weighted_vulnerability_risk (vuln_scores_sorted : list Q) : option Q :=
  match vuln_scores_sorted with
  | [] => None
  | [s] => Some s
  | top :: rest =>
    let top_vuln_weight := 0.6 in
    let vulnerability_risk := top * top_vuln_weight in
    remaining_weight ← Py.div 0.4 (Py.len vuln_scores_sorted - 1);
    Some (vulnerability_risk
          + Py.sum (map (fun score => score * remaining_weight) rest))
  end.

(** Lines 168-178: the weighted sum over the sum of the four weights used. *)
Definition weighted_total
    (vulnerability_risk exposure_risk criticality_mult threat_factor : Q) : option Q :=
  w_vs ← Py.dict_get "vulnerability_severity" WEIGHTS;
  w_ex ← Py.dict_get "exposure" WEIGHTS;
  w_ac ← Py.dict_get "asset_criticality" WEIGHTS;
  w_ti ← Py.dict_get "threat_intelligence" WEIGHTS;
  Py.div (vulnerability_risk * w_vs
          + exposure_risk * w_ex
          + vulnerability_risk * criticality_mult * w_ac
          + vulnerability_risk * threat_factor * w_ti)
         (Py.sum [w_vs; w_ex; w_ac; w_ti]).

Definition calculate_asset_risk (k : string) : M world RiskCalculationResult.t :=
  asset ← deref k;
  e ← gets self;
  let asset_vulns := resolve e (Asset.vulnerability_ids asset) in
  match asset_vulns with
  | [] =>
    calculated_at ← datetime_now;
    mret (RiskCalculationResult.mk (Asset.id asset) 0.0 0.0 0.0 1.0 1.0 [] []
            ["No vulnerabilities detected. Continue regular scanning."]
            calculated_at)
  | _ :: _ =>
    let vuln_scores := map (calculate_vulnerability_risk e) asset_vulns in
    let vuln_scores_sorted := Py.sorted_desc (fun x => x) vuln_scores in
    vulnerability_risk ← lift (weighted_vulnerability_risk vuln_scores_sorted);
    let exposure_risk := _calculate_exposure_risk asset in
    let criticality_mult := CRITICALITY_MULTIPLIERS (Asset.criticality asset) in
    let threat_factor := _calculate_threat_factor e asset_vulns in
    total_risk ← lift (weighted_total vulnerability_risk exposure_risk
                                      criticality_mult threat_factor);
    let total_risk := Qmin (total_risk * criticality_mult) 100 in
    _ ← set_asset_risk_score k total_risk;
    let asset := Asset.set_risk_score total_risk asset in
    let recommendations := _generate_recommendations asset asset_vulns in
    let risk_factors : Py.dict Q :=
      [("vulnerability_base", Py.round vulnerability_risk 2);
       ("exposure", Py.round exposure_risk 2);
       ("criticality", Py.round criticality_mult 2);
       ("threat_intelligence", Py.round threat_factor 2);
       ("total_vulnerabilities", Py.len asset_vulns);
       ("critical_vulnerabilities", Py.of_nat (Py.count is_critical asset_vulns));
       ("high_vulnerabilities", Py.of_nat (Py.count is_high asset_vulns))] in
    calculated_at ← datetime_now;
    mret (RiskCalculationResult.mk (Asset.id asset) total_risk
            vulnerability_risk exposure_risk criticality_mult threat_factor
            (map Vulnerability.id asset_vulns) risk_factors recommendations
            calculated_at)
  end.

Definition calculate_all_assets : M world (list RiskCalculationResult.t) :=
  e ← gets self;
  results ← mapM calculate_asset_risk (Py.keys (assets e));
  mret (Py.sorted_desc RiskCalculationResult.total_risk_score results).

(** [', '.join([v.cve_id or v.id for v in vulns[:3]])] *)
Definition named_vulnerabilities (vulns : list Vulnerability.t) : string :=
  String.concat ", "
    (map (fun v => Py.or_else (Vulnerability.cve_id v) (Vulnerability.id v))
         (take 3 vulns)).

(** [asset] is the object registered under [k]. *)
Definition _create_exploitation_scenario
    (k : string) (vulns : list Vulnerability.t) : M world RiskScenario.t :=
  let vuln_ids := map Vulnerability.id vulns in
  risk_calc ← calculate_asset_risk k;
  let business_risk :=
    Qmin (RiskCalculationResult.total_risk_score risk_calc * 1.2) 100 in
  asset ← deref k;
  created_at ← datetime_now;
  updated_at ← datetime_now;
  mret (RiskScenario.mk
          ("rs_exploit_" +:+ Asset.id asset)
          ("Multi-Stage Exploitation of " +:+ Asset.name asset)
          ("Multiple critical vulnerabilities on " +:+ Asset.name asset
           +:+ " could be chained for privilege escalation and lateral movement")
          "Multi-Stage Attack"
          CRITICAL
          "Likely"
          "Catastrophic"
          [Asset.id asset]
          vuln_ids
          ["Initial Access"; "Privilege Escalation"; "Lateral Movement"]
          ["T1190"; "T1068"; "T1021"]
          business_risk
          60.0
          ("1. Immediately patch vulnerabilities " +:+ named_vulnerabilities vulns
           +:+ ". 2. Implement network segmentation. 3. Enable EDR monitoring.")
          created_at updated_at [] []).

Definition _create_internet_breach_scenario
    (k : string) (vulns : list Vulnerability.t) : M world RiskScenario.t :=
  asset ← deref k;
  created_at ← datetime_now;
  updated_at ← datetime_now;
  mret (RiskScenario.mk
          ("rs_breach_" +:+ Asset.id asset)
          ("Internet-Facing Asset Compromise: " +:+ Asset.name asset)
          (Asset.name asset
           +:+ " is exposed to the internet with critical vulnerabilities, creating immediate breach risk")
          "Data Breach & Exfiltration"
          CRITICAL
          "Certain"
          "Catastrophic"
          [Asset.id asset]
          (map Vulnerability.id vulns)
          ["Initial Access"; "Execution"; "Exfiltration"]
          ["T1190"; "T1059"; "T1041"]
          95.0
          45.0
          "1. Remove internet exposure or place behind WAF. 2. Emergency patch critical CVEs. 3. Implement IDS/IPS rules."
          created_at updated_at [] []).

(** Lines 410-415: assets grouped by [asset.location or "Unknown"], groups
    and members in order of first appearance. *)
Definition group_by_location (l : list Asset.t) : list (string * list Asset.t) :=
  fold_left
    (fun location_groups asset =>
       let location := Py.or_else (Asset.location asset) "Unknown" in
       match Py.dict_get location location_groups with
       | None => Py.dict_set location [asset] location_groups
       | Some members =>
         Py.dict_set location (Py.append members asset) location_groups
       end)
    l [].

Definition is_high_risk (a : Asset.t) : bool :=
  negb (Qle_bool (Asset.risk_score a) 70).

(** Lines 418-440: the body of the loop over the location groups. *)
Definition lateral_scenario_of
    (group : string * list Asset.t) : M world (list RiskScenario.t) :=
  let '(location, assets) := group in
  if (length assets <? 2)%nat then mret []
  else
    let high_risk_assets := List.filter is_high_risk assets in
    if (2 <=? length high_risk_assets)%nat then
      created_at ← datetime_now;
      updated_at ← datetime_now;
      mret [RiskScenario.mk
              ("rs_lateral_" +:+ location)
              ("Lateral Movement Risk in " +:+ location)
              ("Multiple high-risk assets in " +:+ location
               +:+ " create lateral movement opportunities")
              "Unauthorized Lateral Movement"
              HIGH
              "Possible"
              "Significant"
              (map Asset.id high_risk_assets)
              []
              ["Lateral Movement"; "Discovery"]
              ["T1021"; "T1018"]
              75.0
              55.0
              "1. Implement network segmentation. 2. Enable lateral movement detection. 3. Reduce attack surface."
              created_at updated_at [] []]
    else mret [].

Definition _identify_lateral_movement : M world (list RiskScenario.t) :=
  e ← gets self;
  let location_groups := group_by_location (Py.values (assets e)) in
  scenarios ← mapM lateral_scenario_of location_groups;
  mret (concat scenarios).

(** Lines 331-352: the body of the loop over the assets. *)
Definition scenarios_of_asset (k : string) : M world (list RiskScenario.t) :=
  asset ← deref k;
  e ← gets self;
  let asset_vulns := resolve e (Asset.vulnerability_ids asset) in
  match asset_vulns with
  | [] => mret []
  | _ :: _ =>
    let critical_vulns := List.filter is_critical asset_vulns in
    exploitation ←
      (if (2 <=? length critical_vulns)%nat
       then scenario ← _create_exploitation_scenario k critical_vulns;
            mret [scenario]
       else mret []);
    breach ←
      (if Asset.exposed_to_internet asset && Py.nonempty critical_vulns
       then scenario ← _create_internet_breach_scenario k critical_vulns;
            mret [scenario]
       else mret []);
    mret (exploitation ++ breach)%list
  end.

Definition generate_risk_scenarios : M world (list RiskScenario.t) :=
  e ← gets self;
  per_asset ← mapM scenarios_of_asset (Py.keys (assets e));
  let scenarios := concat per_asset in
  lateral_scenarios ← _identify_lateral_movement;
  let scenarios := (scenarios ++ lateral_scenarios)%list in
  _ ← modify (fun w => World (with_risk_scenarios scenarios (self w)) (clock w));
  mret scenarios.

(** [a.risk_score >= x], [a.risk_score < x] *)
Definition score_ge (x : Q) (a : Asset.t) : bool := Qle_bool x (Asset.risk_score a).
Definition score_lt (x : Q) (a : Asset.t) : bool := negb (Qle_bool x (Asset.risk_score a)).

Definition get_risk_summary (e : t) : option (Py.dict Q) :=
  match assets e with
  | [] =>
    Some [("total_assets", 0);
          ("total_vulnerabilities", 0);
          ("average_risk_score", 0);
          ("critical_assets", 0);
          ("high_risk_assets", 0)]
  | _ :: _ =>
    let values := Py.values (assets e) in
    let risk_scores := map Asset.risk_score values in
    average ← Py.div (Py.sum risk_scores) (Py.len risk_scores);
    Some [("total_assets", Py.len (assets e));
          ("total_vulnerabilities", Py.len (vulnerabilities e));
          ("average_risk_score", average);
          ("critical_assets", Py.of_nat (Py.count (score_ge 90) values));
          ("high_risk_assets", Py.of_nat (Py.count (score_ge 70) values));
          ("medium_risk_assets", Py.of_nat (Py.count (fun a => score_ge 40 a && score_lt 70 a) values));
          ("low_risk_assets", Py.of_nat (Py.count (score_lt 40) values));
          ("risk_scenarios", Py.len (risk_scenarios e))]
  end.

End RiskCalculationEngine.

(** ** numpy reductions over a list of numbers *)

Module Np.

(** [np.mean]: NaN on an empty array. *)
Definition mean (l : list Q) : option Q := Py.div (Py.sum l) (Py.len l).

(** [np.var]: the mean of the squared deviations from the mean. *)
Definition var (l : list Q) : option Q :=
  m ← mean l; mean (map (fun x => (x - m) * (x - m)) l).

(** [np.std]: the square root of [np.var]. *)
Definition std (sqrt : Q -> Q) (l : list Q) : option Q :=
  v ← var l; Some (sqrt v).

(** [np.median]: the middle element, or the mean of the two middle ones. *)
Definition median (l : list Q) : option Q :=
  let s := Py.sorted l in
  let n := length l in
  if Nat.even n
  then a ← s !! (Nat.div n 2 - 1)%nat; b ← s !! Nat.div n 2; Some ((a + b) / 2)
  else s !! Nat.div n 2.

(** [np.percentile(l, q)], linear interpolation between closest ranks. *)
Definition percentile (l : list Q) (q : Q) : option Q :=
  let s := Py.sorted l in
  match length l with
  | O => None
  | S m =>
    let rank := Py.of_nat m * q / 100 in
    let lo := Z.to_nat (Qfloor rank) in
    let hi := Nat.min (lo + 1) m in
    a ← s !! lo; b ← s !! hi;
    Some (a + (b - a) * (rank - inject_Z (Qfloor rank)))
  end.

End Np.

(** ** [engines/ultra_precise_risk_engine.py] *)

(** The engine never imports a vulnerability class: it reads these
    attributes from whatever objects it is handed.  [actively_exploited]
    is not a field of [models.risk_models.Vulnerability], and
    [published_date] may be missing ([None]). *)
Module ScoredVulnerability.
Record t := mk {
  cvss_score : Q;
  exploit_available : bool;
  exploit_public : bool;
  actively_exploited : bool;
  published_date : option Py.datetime;
  patch_available : bool;
  attack_vector : option string;
  attack_complexity : option string;
  privileges_required : option string
}.
End ScoredVulnerability.

Module UltraPreciseRiskScore.
Record t := mk {
  score : Q;
  confidence : Q;
  uncertainty : Q;
  confidence_interval : Q * Q;
  risk_level : string;
  contributing_factors : Py.dict Q;
  model_agreement : Q;
  validation_passed : bool;
  precision_level : string
}.
End UltraPreciseRiskScore.

Module UltraPreciseRiskEngine.

(** The [features] dict.  Its keys are fixed by
    [_extract_ultra_precise_features], so every later
    [features.get(key, default)] finds its key. *)
Record features := Features {
  vuln_count_total : Q;
  vuln_count_critical : Q;
  vuln_count_high : Q;
  vuln_count_medium : Q;
  vuln_count_low : Q;
  cvss_mean : Q;
  cvss_max : Q;
  cvss_std : Q;
  cvss_median : Q;
  cvss_75percentile : Q;
  cvss_95percentile : Q;
  exploit_available_count : Q;
  exploit_public_count : Q;
  actively_exploited_count : Q;
  exploit_ratio : Q;
  vuln_age_mean : Q;
  vuln_age_min : Q;
  vuln_age_max : Q;
  vuln_recent_count : Q;
  vuln_old_count : Q;
  patch_available_count : Q;
  patch_missing_count : Q;
  patch_coverage : Q;
  network_vector_count : Q;
  adjacent_vector_count : Q;
  local_vector_count : Q;
  low_complexity_count : Q;
  high_complexity_count : Q;
  no_privs_count : Q;
  low_privs_count : Q;
  high_privs_count : Q;
  asset_criticality : Q;
  asset_exposed : Q;
  asset_sensitive_data : Q;
  asset_patch_level : Q;
  asset_av_status : Q;
  asset_firewall : Q;
  risk_surface : Q;
  exploit_exposure : Q;
  critical_remote : Q;
  unpatched_critical : Q;
  vulnerability_density : Q;
  severity_variance : Q;
  severity_skewness : Q
}.

(** [x < y] and [x > y] on numbers. *)
Definition lt (x y : Q) : bool := negb (Qle_bool y x).
Definition gt (x y : Q) : bool := negb (Qle_bool x y).

Module BayesianRiskModel.
Definition predict (f : features) : Q :=
  let base := cvss_mean f * 10 in
  let exploit_factor := 1.0 + exploit_ratio f * 0.5 in
  let criticality := asset_criticality f / 10 in
  Qmin (base * exploit_factor * (0.5 + criticality)) 100.
End BayesianRiskModel.

Module GradientBoostingRiskModel.
Definition predict (f : features) : Q :=
  let score := 0.0 in
  let score := score + vuln_count_critical f * 28 in
  let score := score + vuln_count_high f * 16 in
  let score := score + actively_exploited_count f * 20 in
  let score := score * (0.5 + asset_criticality f / 10) in
  Qmin score 100.
End GradientBoostingRiskModel.

Module NeuralNetworkRiskModel.
Definition predict (f : features) : Q :=
  let inputs := [cvss_max f; exploit_ratio f * 10; asset_criticality f;
                 asset_exposed f * 10] in
  let score := Py.sum (zip_with Qmult inputs [8; 15; 7; 10]) in
  Qmin score 100.
End NeuralNetworkRiskModel.

Module MarkovChainRiskModel.
Definition predict (f : features) : Q :=
  let current_state := cvss_mean f * 10 in
  let transition_prob := exploit_ratio f in
  let next_state := current_state * (1.0 + transition_prob * 0.3) in
  Qmin next_state 100.
End MarkovChainRiskModel.

Module StackingEnsemble.
Definition predict (predictions : list Q) : Q :=
  let weights := [0.25; 0.25; 0.20; 0.15; 0.15] in
  Py.sum (zip_with Qmult predictions weights).
End StackingEnsemble.

Module ConformalPredictor.
Definition predict_interval (point_prediction : Q) (f : features) : Q * Q :=
  let uncertainty := severity_variance f in
  let margin := uncertainty * 2.576 in
  let lower := Qmax 0 (point_prediction - margin) in
  let upper := Qmin 100 (point_prediction + margin) in
  (lower, upper).
End ConformalPredictor.

Module ProbabilityCalibrator.
Definition calibrate (score : Q) (f : features) : Q :=
  let calibrated := score in
  calibrated.
End ProbabilityCalibrator.

(** Thresholds set once in [__init__]. *)
Definition min_confidence : Q := 0.95.
Definition min_model_agreement : Q := 0.90.
Definition max_uncertainty : Q := 0.05.

(** One entry of [self.prediction_history]. *)
Record history_entry := HistoryEntry {
  h_prediction : Q;
  h_confidence : Q;
  h_ground_truth : option Q;
  h_timestamp : Py.datetime
}.

(** The mutable part of [self] ([attack_history] is never touched). *)
Record t := mk { prediction_history : list history_entry }.

Definition __init__ : t := mk [].

Record world := World { self : t; clock : Py.clock }.

Definition datetime_now : M world Py.datetime :=
  fun w => Some (Py.read (clock w), World (self w) (Py.tick (clock w))).

Definition _rules_based_prediction (f : features) : Q :=
  let risk := 0.0 in
  let risk := risk + vuln_count_critical f * 30 in
  let risk := risk + vuln_count_high f * 15 in
  let risk := risk + vuln_count_medium f * 7 in
  let risk := risk + vuln_count_low f * 2 in
  let risk :=
    if gt (actively_exploited_count f) 0 then risk * 1.5
    else if gt (exploit_public_count f) 0 then risk * 1.3
    else if gt (exploit_available_count f) 0 then risk * 1.2
    else risk in
  let risk := if gt (asset_exposed f) 0 then risk * 1.3 else risk in
  let criticality_mult := 0.5 + (asset_criticality f / 10) * 1.5 in
  let risk := risk * criticality_mult in
  Qmin risk 100.

Definition _get_ensemble_predictions (f : features) : list Q :=
  let predictions := [] in
  let pred1 := BayesianRiskModel.predict f in
  let predictions := Py.append predictions pred1 in
  let pred2 := GradientBoostingRiskModel.predict f in
  let predictions := Py.append predictions pred2 in
  let pred3 := NeuralNetworkRiskModel.predict f in
  let predictions := Py.append predictions pred3 in
  let pred4 := MarkovChainRiskModel.predict f in
  let predictions := Py.append predictions pred4 in
  let pred5 := _rules_based_prediction f in
  let predictions := Py.append predictions pred5 in
  predictions.

Definition _categorize_risk_ultra_precise (score confidence uncertainty : Q) : string :=
  if Qle_bool 95 score && Qle_bool 0.95 confidence && Qle_bool uncertainty 0.05
  then "Critical"
  else if Qle_bool 85 score && Qle_bool 0.90 confidence then "High"
  else if Qle_bool 60 score then "Medium"
  else if Qle_bool 30 score then "Low"
  else "Informational".

Definition _zero_risk_score : UltraPreciseRiskScore.t :=
  UltraPreciseRiskScore.mk 0.0 1.0 0.0 (0.0, 0.0) "Informational" [] 1.0 true
    "ultra_high".

Definition _low_confidence_score
    (predictions : list Q) (agreement : Q) : option UltraPreciseRiskScore.t :=
  mean_score ← Np.mean predictions;
  Some (UltraPreciseRiskScore.mk mean_score agreement 0.5 (0.0, 100.0)
          "Uncertain" [("model_disagreement", 1.0 - agreement)]
          agreement false "low").

Definition _calculate_confidence
    (agreement uncertainty : Q) (vuln_count : nat) (f : features) : Q :=
  let confidence := agreement in
  let confidence := confidence * (1.0 - uncertainty) in
  let confidence :=
    if (vuln_count <? 3)%nat then confidence * 0.7
    else if (vuln_count <? 5)%nat then confidence * 0.85
    else if (10 <? vuln_count)%nat then confidence * 1.05
    else confidence in
  let confidence :=
    if gt (vuln_age_mean f) 0 then confidence * 1.02 else confidence in
  let confidence :=
    if gt (patch_coverage f) 0 then confidence * 1.02 else confidence in
  Qmin confidence 1.0.

Definition _explain_risk_factors
    (f : features) (predictions : list Q) (final_score : Q) : Py.dict Q :=
  let vuln_score :=
    vuln_count_critical f * 25 + vuln_count_high f * 15
    + vuln_count_medium f * 7 in
  let exploit_score :=
    actively_exploited_count f * 40 + exploit_public_count f * 25
    + exploit_available_count f * 15 in
  let exposure := asset_exposed f * 100 in
  let patch_score := (1.0 - patch_coverage f) * 100 in
  [("vulnerability_severity", Qmin vuln_score 100);
   ("exploitation_status", Qmin exploit_score 100);
   ("internet_exposure", exposure);
   ("asset_criticality", asset_criticality f * 10);
   ("missing_patches", patch_score)].

Definition _validate_against_ground_truth
    (prediction ground_truth : Q) (conf_interval : Q * Q) : bool :=
  Qle_bool (fst conf_interval) ground_truth
  && Qle_bool ground_truth (snd conf_interval).

Definition _correlate_with_history
    (score : Q) (asset : Asset.t) (historical_data : Py.dict Q) : Q :=
  let adjustment_factor :=
    if gt (Py.get historical_data "previous_compromises" 0) 0 then 1.1
    else 1.0 in
  Qmin (score * adjustment_factor) 100.

Definition _update_prediction_history
    (result : UltraPreciseRiskScore.t) (ground_truth : option Q) : M world unit :=
  timestamp ← datetime_now;
  modify (fun w =>
    let history :=
      Py.append (prediction_history (self w))
        (HistoryEntry (UltraPreciseRiskScore.score result)
           (UltraPreciseRiskScore.confidence result) ground_truth timestamp) in
    let history :=
      if (1000 <? length history)%nat
      then drop (length history - 1000) history
      else history in
    World (mk history) (clock w)).

(** [(datetime.now() - vuln.published_date).days], one clock reading per call. *)
Definition _get_vulnerability_age (published : Py.datetime) : M world Q :=
  now ← datetime_now;
  mret (inject_Z (Py.days_between now published)).

Section WithSqrt.

(** The square root [np.std] takes. *)
Variable np_sqrt : Q -> Q.

Definition _calculate_skewness (data : list Q) : option Q :=
  if (length data <? 3)%nat then Some 0.0
  else
    mean ← Np.mean data;
    std ← Np.std np_sqrt data;
    if Qeq_bool std 0 then Some 0.0
    else
      let n := Py.len data in
      c ← Py.div n ((n - 1) * (n - 2));
      cubes ← mapM (fun x => z ← Py.div (x - mean) std; Some (z * z * z)) data;
      Some (c * Py.sum cubes).

Definition _calculate_model_agreement (predictions : list Q) : option Q :=
  if (length predictions <? 2)%nat then Some 0.0
  else
    mean_pred ← Np.mean predictions;
    std_pred ← Np.std np_sqrt predictions;
    if Qeq_bool mean_pred 0 then Some 1.0
    else
      cv ← Py.div std_pred mean_pred;
      let agreement := 1.0 - Qmin cv 1.0 in
      Some agreement.

Definition _quantify_uncertainty (predictions : list Q) (f : features) : option Q :=
  std ← Np.std np_sqrt predictions;
  let pred_uncertainty := std / 100 in
  let feature_uncertainty := 0.0 in
  let feature_uncertainty :=
    if Qeq_bool (vuln_age_mean f) 0 then feature_uncertainty + 0.02
    else feature_uncertainty in
  let feature_uncertainty :=
    if gt (asset_patch_level f) 0.6 then feature_uncertainty + 0.01
    else feature_uncertainty in
  let feature_uncertainty :=
    if lt (vuln_count_total f) 3 then feature_uncertainty + 0.03
    else feature_uncertainty in
  let total_uncertainty := pred_uncertainty + feature_uncertainty in
  Some (Qmin total_uncertainty 1.0).

Definition crit_map : Py.dict Q :=
  [("Mission Critical", 10);
   ("High", 7);
   ("Medium", 4);
   ("Low", 1)].

Definition patch_encoding : Py.dict Q :=
  [("Current", 0.0);
   ("Outdated", 0.5);
   ("Critical", 1.0);
   ("Unknown", 0.7)].

Definition av_encoding : Py.dict Q :=
  [("Active", 0.0);
   ("Outdated", 0.5);
   ("Inactive", 1.0);
   ("Unknown", 0.7)].

(** [sum(1 for v in l if p v)] as a number. *)
Definition count_if {A} (p : A -> bool) (l : list A) : Q := Py.of_nat (Py.count p l).

(** [v.attr == s] for an optional string attribute. *)
Definition attr_is (s : string) (a : option string) : bool :=
  match a with Some x => String.eqb x s | None => false end.

(** Lines 199-211: the five age features; all zero without any
    published date. *)
Definition age_features (ages : list Q) : option (Q * Q * Q * Q * Q) :=
  match ages with
  | [] => Some (0, 0, 0, 0, 0)
  | _ :: _ =>
    age_mean ← Np.mean ages;
    age_min ← Py.min ages;
    age_max ← Py.max ages;
    Some (age_mean, age_min, age_max,
          count_if (fun age => lt age 30) ages,
          count_if (fun age => gt age 365) ages)
  end.

Definition _extract_ultra_precise_features
    (asset : Asset.t) (vulnerabilities : list ScoredVulnerability.t)
    : M world features :=
  let cvss := ScoredVulnerability.cvss_score in
  let n := Py.len vulnerabilities in
  let vuln_count_total := n in
  let vuln_count_critical :=
    count_if (fun v => Qle_bool 9.0 (cvss v)) vulnerabilities in
  let vuln_count_high :=
    count_if (fun v => Qle_bool 7.0 (cvss v) && lt (cvss v) 9.0) vulnerabilities in
  let vuln_count_medium :=
    count_if (fun v => Qle_bool 4.0 (cvss v) && lt (cvss v) 7.0) vulnerabilities in
  let vuln_count_low := count_if (fun v => lt (cvss v) 4.0) vulnerabilities in
  let cvss_scores := map cvss vulnerabilities in
  cvss_mean ← lift (Np.mean cvss_scores);
  cvss_max ← lift (Py.max cvss_scores);
  cvss_std ← lift (Np.std np_sqrt cvss_scores);
  cvss_median ← lift (Np.median cvss_scores);
  cvss_75percentile ← lift (Np.percentile cvss_scores 75);
  cvss_95percentile ← lift (Np.percentile cvss_scores 95);
  let exploit_available_count :=
    count_if ScoredVulnerability.exploit_available vulnerabilities in
  let exploit_public_count :=
    count_if ScoredVulnerability.exploit_public vulnerabilities in
  let actively_exploited_count :=
    count_if ScoredVulnerability.actively_exploited vulnerabilities in
  exploit_ratio ← lift (Py.div exploit_available_count n);
  ages ← mapM _get_vulnerability_age
            (omap ScoredVulnerability.published_date vulnerabilities);
  '(vuln_age_mean, vuln_age_min, vuln_age_max, vuln_recent_count, vuln_old_count)
    ← lift (age_features ages);
  let patch_available_count :=
    count_if ScoredVulnerability.patch_available vulnerabilities in
  let patch_missing_count := n - patch_available_count in
  patch_coverage ← lift (Py.div patch_available_count n);
  let vector v := ScoredVulnerability.attack_vector v in
  let network_vector_count :=
    count_if (fun v => attr_is "Network" (vector v)) vulnerabilities in
  let adjacent_vector_count :=
    count_if (fun v => attr_is "Adjacent" (vector v)) vulnerabilities in
  let local_vector_count :=
    count_if (fun v => attr_is "Local" (vector v)) vulnerabilities in
  let complexity v := ScoredVulnerability.attack_complexity v in
  let low_complexity_count :=
    count_if (fun v => attr_is "Low" (complexity v)) vulnerabilities in
  let high_complexity_count :=
    count_if (fun v => attr_is "High" (complexity v)) vulnerabilities in
  let privs v := ScoredVulnerability.privileges_required v in
  let no_privs_count :=
    count_if (fun v => attr_is "None" (privs v)) vulnerabilities in
  let low_privs_count :=
    count_if (fun v => attr_is "Low" (privs v)) vulnerabilities in
  let high_privs_count :=
    count_if (fun v => attr_is "High" (privs v)) vulnerabilities in
  let crit_val :=
    Py.get crit_map (AssetCriticality.value (Asset.criticality asset)) 4 in
  let asset_criticality := crit_val in
  let asset_exposed := if Asset.exposed_to_internet asset then 1.0 else 0.0 in
  let asset_sensitive_data :=
    if Asset.contains_sensitive_data asset then 1.0 else 0.0 in
  let asset_patch_level := Py.get patch_encoding (Asset.patch_level asset) 0.7 in
  let asset_av_status := Py.get av_encoding (Asset.antivirus_status asset) 0.7 in
  let asset_firewall := if Asset.firewall_enabled asset then 0.0 else 1.0 in
  risk_surface ← lift (Py.div (asset_exposed * network_vector_count) (Qmax n 1));
  let exploit_exposure := exploit_ratio * asset_exposed in
  critical_remote ←
    lift (Py.div (vuln_count_critical * network_vector_count) (Qmax n 1));
  let unpatched_critical :=
    vuln_count_critical - Qmin patch_available_count vuln_count_critical in
  vulnerability_density ← lift (Py.div n (Qmax crit_val 1));
  severity_variance ← lift (Np.var cvss_scores);
  severity_skewness ← lift (_calculate_skewness cvss_scores);
  mret (Features vuln_count_total vuln_count_critical vuln_count_high
          vuln_count_medium vuln_count_low cvss_mean cvss_max cvss_std
          cvss_median cvss_75percentile cvss_95percentile
          exploit_available_count exploit_public_count
          actively_exploited_count exploit_ratio vuln_age_mean vuln_age_min
          vuln_age_max vuln_recent_count vuln_old_count patch_available_count
          patch_missing_count patch_coverage network_vector_count
          adjacent_vector_count local_vector_count low_complexity_count
          high_complexity_count no_privs_count low_privs_count
          high_privs_count asset_criticality asset_exposed
          asset_sensitive_data asset_patch_level asset_av_status
          asset_firewall risk_surface exploit_exposure critical_remote
          unpatched_critical vulnerability_density severity_variance
          severity_skewness).

Definition calculate_ultra_precise_risk
    (asset : Asset.t) (vulnerabilities : list ScoredVulnerability.t)
    (historical_data : option (Py.dict Q)) (ground_truth : option Q)
    : M world UltraPreciseRiskScore.t :=
  match vulnerabilities with
  | [] => mret _zero_risk_score
  | _ :: _ =>
    f ← _extract_ultra_precise_features asset vulnerabilities;
    let predictions := _get_ensemble_predictions f in
    agreement ← lift (_calculate_model_agreement predictions);
    if lt agreement min_model_agreement
    then lift (_low_confidence_score predictions agreement)
    else
      let base_score := StackingEnsemble.predict predictions in
      let calibrated_score := ProbabilityCalibrator.calibrate base_score f in
      let conf_interval := ConformalPredictor.predict_interval base_score f in
      uncertainty ← lift (_quantify_uncertainty predictions f);
      let confidence :=
        _calculate_confidence agreement uncertainty (length vulnerabilities) f in
      let validation_passed :=
        match ground_truth with
        | Some truth =>
          _validate_against_ground_truth calibrated_score truth conf_interval
        | None => true
        end in
      let calibrated_score :=
        match historical_data with
        | Some data =>
          if Py.nonempty data
          then _correlate_with_history calibrated_score asset data
          else calibrated_score
        | None => calibrated_score
        end in
      let precision_level :=
        if Qle_bool min_confidence confidence
           && Qle_bool min_model_agreement agreement
           && Qle_bool uncertainty max_uncertainty
        then "ultra_high" else "standard" in
      let risk_level :=
        _categorize_risk_ultra_precise calibrated_score confidence uncertainty in
      let contributing_factors :=
        _explain_risk_factors f predictions calibrated_score in
      let result :=
        UltraPreciseRiskScore.mk calibrated_score confidence uncertainty
          conf_interval risk_level contributing_factors agreement
          validation_passed precision_level in
      _ ← _update_prediction_history result ground_truth;
      mret result
  end.

End WithSqrt.

End UltraPreciseRiskEngine.


(** * The callers: report, full cycle and serialisation *)

(** ** String building *)

Module PyStr.
(** [s * n] *)
Fixpoint repeat (s : string) (n : nat) : string :=
  match n with O => EmptyString | S n' => s +:+ repeat s n' end.

(** The newline character. *)
Definition nl : string :=
  String (Ascii.Ascii false true false true false false false false) EmptyString.

(** [str(n)] of a number that is an [int]. *)
Definition of_int (n : Q) : string := pretty (Qfloor n).
End PyStr.

(** [RiskLevel.value] *)
Definition RiskLevel_value (l : RiskLevel) : string :=
  match l with
  | CRITICAL => "Critical"
  | HIGH => "High"
  | MEDIUM => "Medium"
  | LOW => "Low"
  | INFORMATIONAL => "Informational"
  end.

(** ** [RiskCalculationResult.to_dict] *)

Module RiskCalculationResultDict.


Section ToDict.

(** [d.isoformat()] *)
Variable isoformat : Py.datetime -> string.

End ToDict.

End RiskCalculationResultDict.

(** ** [backend/core/orchestrator.py]: the methods that drive the engine *)

Module RiskPlatformOrchestrator.
Import RiskCalculationEngine.

(** The dict [calculate_all_risks] returns. *)
Record all_risks := AllRisks {
  summary : Py.dict Q;
  risk_results : list RiskCalculationResult.t;
  scenarios : list RiskScenario.t
}.

(** What the method prints is left out. *)
Definition calculate_all_risks : M world all_risks :=
  risk_results ← calculate_all_assets;
  scenarios ← generate_risk_scenarios;
  e ← gets self;
  summary ← lift (get_risk_summary e);
  mret (AllRisks summary risk_results scenarios).

Section Report.

(** [d.strftime('%Y-%m-%d %H:%M:%S')] and [format(x, '.1f')]. *)
Variable strftime : Py.datetime -> string.
Variable format_1f : Q -> string.

(** The four lines of one scenario, numbered from 1. *)
Definition scenario_lines (i : nat) (scenario : RiskScenario.t) : list string :=
  [PyStr.nl +:+ pretty i +:+ ". " +:+ RiskScenario.title scenario;
   "   Severity: " +:+ RiskLevel_value (RiskScenario.severity scenario);
   "   Business Risk Score: "
     +:+ format_1f (RiskScenario.business_risk_score scenario);
   "   Affected Assets: "
     +:+ pretty (length (RiskScenario.affected_asset_ids scenario))].

Definition generate_report : M world string :=
  e ← gets self;
  summary ← lift (get_risk_summary e);
  let report := [] in
  let report := Py.append report (PyStr.repeat "=" 70) in
  let report := Py.append report "CYBER RISK ASSESSMENT REPORT" in
  let report := Py.append report (PyStr.repeat "=" 70) in
  now ← datetime_now;
  let report := Py.append report ("Generated: " +:+ strftime now) in
  let report := Py.append report EmptyString in
  let report := Py.append report "EXECUTIVE SUMMARY" in
  let report := Py.append report (PyStr.repeat "-" 70) in
  total_assets ← lift (Py.dict_get "total_assets" summary);
  let report := Py.append report ("Total Assets: " +:+ PyStr.of_int total_assets) in
  total_vulnerabilities ← lift (Py.dict_get "total_vulnerabilities" summary);
  let report :=
    Py.append report
      ("Total Vulnerabilities: " +:+ PyStr.of_int total_vulnerabilities) in
  average_risk_score ← lift (Py.dict_get "average_risk_score" summary);
  let report :=
    Py.append report
      ("Average Risk Score: " +:+ format_1f average_risk_score +:+ "/100") in
  let report := Py.append report EmptyString in
  let report := Py.append report "RISK DISTRIBUTION" in
  let report := Py.append report (PyStr.repeat "-" 70) in
  critical_assets ← lift (Py.dict_get "critical_assets" summary);
  let report :=
    Py.append report
      ("Critical Risk Assets (90-100): " +:+ PyStr.of_int critical_assets) in
  high_risk_assets ← lift (Py.dict_get "high_risk_assets" summary);
  let report :=
    Py.append report
      ("High Risk Assets (70-89): " +:+ PyStr.of_int high_risk_assets) in
  medium_risk_assets ← lift (Py.dict_get "medium_risk_assets" summary);
  let report :=
    Py.append report
      ("Medium Risk Assets (40-69): " +:+ PyStr.of_int medium_risk_assets) in
  low_risk_assets ← lift (Py.dict_get "low_risk_assets" summary);
  let report :=
    Py.append report
      ("Low Risk Assets (0-39): " +:+ PyStr.of_int low_risk_assets) in
  let report := Py.append report EmptyString in
  let report := Py.append report "RISK SCENARIOS" in
  let report := Py.append report (PyStr.repeat "-" 70) in
  risk_scenarios_count ← lift (Py.dict_get "risk_scenarios" summary);
  let report :=
    Py.append report
      ("Total Risk Scenarios Identified: " +:+ PyStr.of_int risk_scenarios_count) in
  let report :=
    if Py.nonempty (risk_scenarios e)
    then
      let report := Py.append report (PyStr.nl +:+ "Top Risk Scenarios:") in
      (report ++ concat (imap (fun i => scenario_lines (S i))
                              (take 5 (risk_scenarios e))))%list
    else report in
  let report := Py.append report (PyStr.nl +:+ PyStr.repeat "=" 70) in
  mret (String.concat PyStr.nl report).

End Report.

End RiskPlatformOrchestrator.

(** * Specification vocabulary *)

Module RiskEngineSpec.
Import RiskCalculationEngine.

Definition threat_intel_valid (e : t) : Prop :=
  forall c x, Py.dict_get c (threat_intel e) = Some x -> 0 <= x <= 1.

Definition cvss_valid (v : Vulnerability.t) : Prop :=
  0 <= Vulnerability.cvss_score v <= 10.

(** Everything [calculate_vulnerability_risk] multiplies the base score by. *)
Definition modifiers (e : t) (vuln : Vulnerability.t) : Q :=
  CVSS_MULTIPLIERS (Vulnerability.severity vuln)
  * (if Vulnerability.exploit_public vuln then 1.5
     else if Vulnerability.exploit_available vuln then 1.3 else 1.0)
  * (if Vulnerability.patch_available vuln then 0.7 else 1.0)
  * Py.get_opt vector_multipliers (Vulnerability.attack_vector vuln) 1.0
  * match known_threat e vuln with Some ti => 1.0 + ti * 0.5 | None => 1.0 end.


(** The sorted scores of an asset's resolvable vulnerabilities. *)
Definition sorted_scores (e : t) (asset : Asset.t) : list Q :=
  Py.sorted_desc (fun x => x)
    (map (calculate_vulnerability_risk e)
         (resolve e (Asset.vulnerability_ids asset))).

(** What [calculate_asset_risk] returns for an asset with a resolvable
    vulnerability, given its vulnerability component and the clock reading. *)
Definition result_of (e : t) (asset : Asset.t) (vulnerability_risk : Q)
    (calculated_at : Py.datetime) : RiskCalculationResult.t :=
  let asset_vulns := resolve e (Asset.vulnerability_ids asset) in
  let exposure_risk := _calculate_exposure_risk asset in
  let criticality_mult := CRITICALITY_MULTIPLIERS (Asset.criticality asset) in
  let threat_factor := _calculate_threat_factor e asset_vulns in
  let total_risk :=
    Qmin ((vulnerability_risk * 0.35 + exposure_risk * 0.10
           + vulnerability_risk * criticality_mult * 0.20
           + vulnerability_risk * threat_factor * 0.10)
          / Py.sum [0.35; 0.10; 0.20; 0.10] * criticality_mult) 100 in
  RiskCalculationResult.mk (Asset.id asset) total_risk vulnerability_risk
    exposure_risk criticality_mult threat_factor
    (map Vulnerability.id asset_vulns)
    [("vulnerability_base", Py.round vulnerability_risk 2);
     ("exposure", Py.round exposure_risk 2);
     ("criticality", Py.round criticality_mult 2);
     ("threat_intelligence", Py.round threat_factor 2);
     ("total_vulnerabilities", Py.len asset_vulns);
     ("critical_vulnerabilities", Py.of_nat (Py.count is_critical asset_vulns));
     ("high_vulnerabilities", Py.of_nat (Py.count is_high asset_vulns))]
    (_generate_recommendations
       (Asset.set_risk_score total_risk asset) asset_vulns)
    calculated_at.

(** Two asset records that differ at most in the stored risk score. *)
Definition same_except_risk_score (a b : Asset.t) : Prop :=
  Asset.id a = Asset.id b /\ Asset.name a = Asset.name b
  /\ Asset.category a = Asset.category b
  /\ Asset.ip_address a = Asset.ip_address b /\ Asset.os a = Asset.os b
  /\ Asset.os_version a = Asset.os_version b
  /\ Asset.criticality a = Asset.criticality b
  /\ Asset.vulnerability_ids a = Asset.vulnerability_ids b
  /\ Asset.last_scan_date a = Asset.last_scan_date b
  /\ Asset.status a = Asset.status b /\ Asset.tags a = Asset.tags b
  /\ Asset.owner a = Asset.owner b /\ Asset.location a = Asset.location b
  /\ Asset.exposed_to_internet a = Asset.exposed_to_internet b
  /\ Asset.contains_sensitive_data a = Asset.contains_sensitive_data b
  /\ Asset.patch_level a = Asset.patch_level b
  /\ Asset.antivirus_status a = Asset.antivirus_status b
  /\ Asset.firewall_enabled a = Asset.firewall_enabled b.

(** [k] is the key of an asset of the engine. *)
Definition registered (w : world) (k : string) (asset : Asset.t) : Prop :=
  Py.dict_get k (assets (self w)) = Some asset.

(** The asset has a vulnerability id that the engine knows. *)
Definition has_resolvable (w : world) (asset : Asset.t) : Prop :=
  resolve (self w) (Asset.vulnerability_ids asset) <> [].


(** The asset record with its stored risk score cleared. *)
Definition unscored (a : Asset.t) : Asset.t :=
  Asset.mk (Asset.id a) (Asset.name a) (Asset.category a) (Asset.ip_address a)
    (Asset.os a) (Asset.os_version a) (Asset.criticality a)
    (Asset.vulnerability_ids a) (Asset.last_scan_date a) (Asset.status a)
    (Asset.tags a) (Asset.owner a) (Asset.location a)
    (Asset.exposed_to_internet a) (Asset.contains_sensitive_data a)
    (Asset.patch_level a) (Asset.antivirus_status a)
    (Asset.firewall_enabled a) None.

(** [w'] is [w] after some risk scores were stored and the clock was read. *)
Definition same_inputs (w w' : world) : Prop :=
  vulnerabilities (self w') = vulnerabilities (self w) /\
  threat_intel (self w') = threat_intel (self w) /\
  Py.keys (assets (self w')) = Py.keys (assets (self w)) /\
  forall k a, Py.dict_get k (assets (self w)) = Some a ->
    exists a', Py.dict_get k (assets (self w')) = Some a' /\ unscored a' = unscored a.

(** The total risk score [calculate_asset_risk] computes for an asset. *)
Definition total_risk_of (e : t) (asset : Asset.t) : option Q :=
  vr ← weighted_vulnerability_risk (sorted_scores e asset);
  Some (RiskCalculationResult.total_risk_score (result_of e asset vr 0%Z)).

Definition is_multi_stage_for (aid : string) (sc : RiskScenario.t) : bool :=
  String.eqb (RiskScenario.category sc) "Multi-Stage Attack"
  && bool_decide (RiskScenario.affected_asset_ids sc = [aid]).

(** The asset's resolvable vulnerabilities of severity Critical. *)
Definition critical_vulnerabilities (e : t) (asset : Asset.t) : list Vulnerability.t :=
  List.filter is_critical (resolve e (Asset.vulnerability_ids asset)).

(** The multi-stage-exploitation scenario of an asset. *)
Definition multi_stage_post (e : t) (a : Asset.t) (sc : RiskScenario.t) : Prop :=
  RiskScenario.category sc = "Multi-Stage Attack" /\
  RiskScenario.severity sc = CRITICAL /\
  RiskScenario.likelihood sc = "Likely" /\
  RiskScenario.impact sc = "Catastrophic" /\
  RiskScenario.affected_asset_ids sc = [Asset.id a] /\
  RiskScenario.correlated_vulnerability_ids sc
  = map Vulnerability.id (critical_vulnerabilities e a) /\
  (exists total, total_risk_of e a = Some total /\
     RiskScenario.business_risk_score sc = Qmin (total * 1.2) 100) /\
  RiskScenario.detection_coverage sc = 60.0.

(** What the loop body yields for one asset. *)
Definition asset_scenarios_post (e : t) (a : Asset.t) (scs : list RiskScenario.t) : Prop :=
  Forall (fun sc => RiskScenario.affected_asset_ids sc = [Asset.id a]) scs /\
  ((2 <= length (critical_vulnerabilities e a))%nat ->
   exists sc, List.filter (is_multi_stage_for (Asset.id a)) scs = [sc]
              /\ multi_stage_post e a sc).

(** The representation invariant [add_asset] and [add_vulnerability]
    maintain: keys are unique and are the ids of what they map to. *)
Definition wf_engine (e : t) : Prop :=
  NoDup (Py.keys (assets e)) /\
  (forall k a, Py.dict_get k (assets e) = Some a -> Asset.id a = k) /\
  (forall k v, Py.dict_get k (vulnerabilities e) = Some v -> Vulnerability.id v = k).

(** ** A small estate, after the platform's integration test *)

Definition epoch : Py.datetime := 1700000000000000%Z.

Definition vuln_001 : Vulnerability.t :=
  Vulnerability.mk "VULN-001" (Some "CVE-2024-1234")
    "Remote Code Execution in Web Server"
    "A critical RCE vulnerability in the production web server."
    CRITICAL 9.8 None epoch epoch VulnerabilitySource.MANUAL
    ["srv-prod-db-01"] true false false "Pending" None None None None [] [].

Definition vuln_002 : Vulnerability.t :=
  Vulnerability.mk "VULN-002" (Some "CVE-2024-5678")
    "Local Privilege Escalation" "A medium severity LPE vulnerability."
    MEDIUM 6.5 None epoch epoch VulnerabilitySource.MANUAL
    ["wkst-exec-01"] false false true "Pending" None None None None [] [].

Definition vuln_003 : Vulnerability.t :=
  Vulnerability.mk "VULN-003" None
    "SQL Injection in Reporting Service" "Unauthenticated SQL injection."
    CRITICAL 9.1 None epoch epoch VulnerabilitySource.VULNERABILITY_SCANNER
    ["srv-prod-db-01"] true true false "Pending" (Some "Network") (Some "Low")
    (Some "None") (Some "None") [] [].

(** Its third vulnerability id is dangling. *)
Definition srv_prod_db_01 : Asset.t :=
  Asset.mk "srv-prod-db-01" "Production Database" AssetCategory.DATABASE
    "10.0.1.50" "Ubuntu 22.04" None AssetCriticality.MISSION_CRITICAL
    ["VULN-001"; "VULN-003"; "VULN-404"] epoch "Active" [] None None
    false true "Unknown" "Unknown" true None.

Definition wkst_exec_01 : Asset.t :=
  Asset.mk "wkst-exec-01" "Executive Workstation" AssetCategory.WORKSTATION
    "10.0.5.12" "Windows 11" None AssetCriticality.HIGH
    ["VULN-002"] epoch "Active" [] None None
    true false "Unknown" "Unknown" true None.

(** No vulnerability of this asset is known to the engine. *)
Definition printer_01 : Asset.t :=
  Asset.mk "printer-01" "Office Printer" AssetCategory.IOT_DEVICE
    "10.0.9.7" "Embedded" None AssetCriticality.LOW
    ["VULN-404"] epoch "Active" [] None None
    false false "Current" "Active" true None.

Definition example_engine : t :=
  add_threat_intelligence "CVE-2024-1234" 0.9
    (add_asset printer_01
       (add_asset wkst_exec_01
          (add_asset srv_prod_db_01
             (add_vulnerability vuln_003
                (add_vulnerability vuln_002
                   (add_vulnerability vuln_001 __init__)))))).

(** A clock that advances by a millisecond between two readings. *)
Definition example_clock : Py.clock :=
  Py.Build_clock (fun n => (epoch + Z.of_nat n * 1000)%Z) 0.

Definition example_world : world := World example_engine example_clock.

(** The portfolio summary of a full cycle: score every asset, then summarise. *)
Definition summary_after_scoring (w : world) : option (Py.dict Q) :=
  match calculate_all_assets w with
  | Some (_, w') => get_risk_summary (self w')
  | None => None
  end.

(** The asset count and the four bucket counts of a summary. *)
Definition bucket_counts (summary : Py.dict Q) : option (Q * (Q * Q * Q * Q)) :=
  total ← Py.dict_get "total_assets" summary;
  critical ← Py.dict_get "critical_assets" summary;
  high ← Py.dict_get "high_risk_assets" summary;
  medium ← Py.dict_get "medium_risk_assets" summary;
  low ← Py.dict_get "low_risk_assets" summary;
  Some (total, (critical, high, medium, low)).

(** ** Vocabulary of the further properties *)

(** The same record with other exploit and patch flags. *)
Definition with_flags (exploit_available exploit_public patch_available : bool)
    (v : Vulnerability.t) : Vulnerability.t :=
  Vulnerability.mk (Vulnerability.id v) (Vulnerability.cve_id v)
    (Vulnerability.title v) (Vulnerability.description v)
    (Vulnerability.severity v) (Vulnerability.cvss_score v)
    (Vulnerability.cvss_vector v) (Vulnerability.published_date v)
    (Vulnerability.discovered_date v) (Vulnerability.source v)
    (Vulnerability.affected_assets v) exploit_available exploit_public
    patch_available (Vulnerability.remediation_status v)
    (Vulnerability.attack_vector v) (Vulnerability.attack_complexity v)
    (Vulnerability.privileges_required v) (Vulnerability.user_interaction v)
    (Vulnerability.tags v) (Vulnerability.references v).

(** What the score is made of, flag by flag. *)
Definition flag_free (e : t) (v : Vulnerability.t) : Q :=
  Vulnerability.cvss_score v * 10
  * CVSS_MULTIPLIERS (Vulnerability.severity v)
  * Py.get_opt vector_multipliers (Vulnerability.attack_vector v) 1.0
  * match known_threat e v with Some ti => 1.0 + ti * 0.5 | None => 1.0 end.

(** The engine with its threat intelligence emptied. *)
Definition without_threat_intel (e : t) : t :=
  mk (assets e) (vulnerabilities e) (risk_scenarios e) [].

(** An asset with nothing that [_calculate_exposure_risk] counts. *)
Definition hardened (a : Asset.t) : Prop :=
  Asset.exposed_to_internet a = false /\
  Asset.contains_sensitive_data a = false /\
  Asset.patch_level a = "Current" /\
  Asset.antivirus_status a = "Active" /\
  Asset.firewall_enabled a = true.

(** The scenario names this asset and no other. *)
Definition only_affects (aid : string) (sc : RiskScenario.t) : bool :=
  bool_decide (RiskScenario.affected_asset_ids sc = [aid]).

(** The internet-breach scenario of an asset. *)
Definition breach_post (e : t) (a : Asset.t) (sc : RiskScenario.t) : Prop :=
  RiskScenario.id sc = "rs_breach_" +:+ Asset.id a /\
  RiskScenario.category sc = "Data Breach & Exfiltration" /\
  RiskScenario.severity sc = CRITICAL /\
  RiskScenario.likelihood sc = "Certain" /\
  RiskScenario.impact sc = "Catastrophic" /\
  RiskScenario.affected_asset_ids sc = [Asset.id a] /\
  RiskScenario.correlated_vulnerability_ids sc
  = map Vulnerability.id (critical_vulnerabilities e a) /\
  RiskScenario.business_risk_score sc = 95.0 /\
  RiskScenario.detection_coverage sc = 45.0.

(** What one round of the loop over the assets yields, scenario by scenario. *)
Definition asset_scenarios_shape (e : t) (a : Asset.t) (scs : list RiskScenario.t) : Prop :=
  exists exploitation breach,
    scs = (exploitation ++ breach)%list /\
    (if (2 <=? length (critical_vulnerabilities e a))%nat
     then exists sc, exploitation = [sc] /\ multi_stage_post e a sc
     else exploitation = []) /\
    (if Asset.exposed_to_internet a && Py.nonempty (critical_vulnerabilities e a)
     then exists sc, breach = [sc] /\ breach_post e a sc
     else breach = []).

(** [asset.location or "Unknown"] *)
Definition location_of (a : Asset.t) : string :=
  Py.or_else (Asset.location a) "Unknown".

(** The assets of a location whose stored score exceeds 70, in the
    engine's order. *)
Definition high_risk_at (location : string) (l : list Asset.t) : list Asset.t :=
  List.filter is_high_risk
    (List.filter (fun a => String.eqb (location_of a) location) l).

(** The lateral-movement scenario of a location. *)
Definition lateral_post (location : string) (high_risk_assets : list Asset.t)
    (sc : RiskScenario.t) : Prop :=
  RiskScenario.id sc = "rs_lateral_" +:+ location /\
  RiskScenario.category sc = "Unauthorized Lateral Movement" /\
  RiskScenario.severity sc = HIGH /\
  RiskScenario.likelihood sc = "Possible" /\
  RiskScenario.impact sc = "Significant" /\
  RiskScenario.affected_asset_ids sc = map Asset.id high_risk_assets /\
  RiskScenario.correlated_vulnerability_ids sc = [] /\
  RiskScenario.business_risk_score sc = 75.0 /\
  RiskScenario.detection_coverage sc = 55.0.


(** ** Two more assets for the example estate *)

(** An internet-facing gateway with one of the Critical vulnerabilities. *)
Definition web_gw_01 : Asset.t :=
  Asset.mk "web-gw-01" "Web Gateway" AssetCategory.SERVER
    "203.0.113.10" "Debian 12" None AssetCriticality.HIGH
    ["VULN-003"] epoch "Active" [] None (Some "dmz")
    true false "Outdated" "Inactive" false None.

Definition gateway_world : world :=
  World (add_asset web_gw_01 example_engine) example_clock.




End RiskEngineSpec.

Module EnsembleSpec.
Import UltraPreciseRiskEngine.

Definition cvss_scores (vulnerabilities : list ScoredVulnerability.t) : list Q :=
  map ScoredVulnerability.cvss_score vulnerabilities.

(** The asset-derived encodings. *)
Definition crit_val (asset : Asset.t) : Q :=
  Py.get crit_map (AssetCriticality.value (Asset.criticality asset)) 4.







Definition cvss_in_range (vulnerabilities : list ScoredVulnerability.t) : Prop :=
  Forall (fun v => 0 <= ScoredVulnerability.cvss_score v <= 10) vulnerabilities.





(** ** Example inputs of the ensemble engine *)

(** The square root rounded down to six decimals. *)
Definition sqrt_6dp (x : Q) : Q :=
  inject_Z (Z.sqrt (Qfloor (x * 1000000000000))) / 1000000.

(** A vulnerability reachable over the network, published at [published]. *)
Definition scored (cvss : Q) (exploit_available exploit_public actively_exploited : bool)
    (published : option Py.datetime) : ScoredVulnerability.t :=
  ScoredVulnerability.mk cvss exploit_available exploit_public actively_exploited
    published false (Some "Network") (Some "Low") (Some "None").

(** Two findings on which the five estimators disagree. *)
Definition disputed_vulnerabilities : list ScoredVulnerability.t :=
  [scored 9.8 true false false (Some RiskEngineSpec.epoch);
   scored 6.5 false false false None].

(** Three exploited maximal findings: every estimator saturates at 100. *)
Definition agreed_vulnerabilities : list ScoredVulnerability.t :=
  [scored 10 true true true (Some RiskEngineSpec.epoch);
   scored 10 true true true (Some RiskEngineSpec.epoch);
   scored 10 true true true (Some RiskEngineSpec.epoch)].

(** A fresh engine, forty days after [epoch]. *)
Definition example_world : world :=
  World __init__
    (Py.Build_clock
       (fun n => (RiskEngineSpec.epoch + 40 * 86400000000 + Z.of_nat n * 1000)%Z) 0).


(** ** Vocabulary of the further properties *)



End EnsembleSpec.

(** * Arithmetic of the Python primitives *)

Section PyFacts.

Lemma of_nat_nonneg n : 0 <= Py.of_nat n.
Proof.
  unfold Py.of_nat. change 0 with (inject_Z 0). rewrite <- Zle_Qle. lia.
Qed.

Lemma of_nat_S n : Py.of_nat (S n) == Py.of_nat n + 1.
Proof.
  unfold Py.of_nat. rewrite Nat2Z.inj_succ, <- Z.add_1_r, inject_Z_plus. reflexivity.
Qed.

Lemma of_nat_le n m : (n <= m)%nat -> Py.of_nat n <= Py.of_nat m.
Proof. intros H. unfold Py.of_nat. rewrite <- Zle_Qle. lia. Qed.




Lemma div_Some x y : ~ y == 0 -> Py.div x y = Some (x / y).
Proof.
  intros H. unfold Py.div. destruct (Qeq_bool y 0) eqn:E; [|reflexivity].
  apply Qeq_bool_eq in E. contradiction.
Qed.



End PyFacts.

(** Splits a lookup in a literal dict into one case per key, then the default. *)
Ltac dict_cases :=
  cbn [Py.dict_get];
  repeat match goal with
         | |- context [String.eqb ?a ?k] => destruct (String.eqb a k)
         end;
  cbn [from_option id].


Lemma bind_run {S A B} (m : M S A) (f : A -> M S B) (s : S) :
  (m ≫= f) s = match m s with Some (a, s') => f a s' | None => None end.
Proof. reflexivity. Qed.

Lemma mret_run {S A} (a : A) (s : S) : (mret a : M S A) s = Some (a, s).
Proof. reflexivity. Qed.

Lemma mapM_cons_run {S A B} (f : A -> M S B) x l :
  mapM f (x :: l) = (y ← f x; k ← mapM f l; mret (y :: k)).
Proof. reflexivity. Qed.



(** * More arithmetic and list facts *)

Lemma Qle_bool_false x y : Qle_bool x y = false -> y < x.
Proof.
  intros H. apply Qnot_le_lt. intros Hle. apply Qle_bool_iff in Hle. congruence.
Qed.

Lemma of_nat_plus n m : Py.of_nat (n + m) == Py.of_nat n + Py.of_nat m.
Proof. unfold Py.of_nat. rewrite Nat2Z.inj_add, inject_Z_plus. reflexivity. Qed.

Lemma nonempty_true {A} (l : list A) : l <> [] -> Py.nonempty l = true.
Proof. now destruct l. Qed.

Lemma filter_andb {A} (p q : A -> bool) l :
  List.filter (fun x => p x && q x) l = List.filter q (List.filter p l).
Proof.
  induction l as [|x l IH]; simpl; [reflexivity|].
  destruct (p x); simpl; [destruct (q x)|]; now rewrite IH.
Qed.

Lemma filter_all {A} (p : A -> bool) l :
  Forall (fun x => p x = true) l -> List.filter p l = l.
Proof. induction 1 as [|x l Hx _ IH]; simpl; [reflexivity|]. now rewrite Hx, IH. Qed.

Lemma filter_snoc {A} (p : A -> bool) l x :
  List.filter p (l ++ [x]) = (List.filter p l ++ if p x then [x] else [])%list.
Proof. rewrite List.filter_app. reflexivity. Qed.

Lemma Forall2_impl_in {A B} (P Q : A -> B -> Prop) l k :
  Forall2 P l k -> (forall x y, x ∈ l -> P x y -> Q x y) -> Forall2 Q l k.
Proof.
  induction 1 as [|x y l k Hxy _ IH]; intros H; constructor.
  - apply H; [apply elem_of_cons; now left|assumption].
  - apply IH. intros x' y' Hin. apply H. apply elem_of_cons. now right.
Qed.

Lemma Forall2_elem_of_l {A B} (P : A -> B -> Prop) l k x :
  Forall2 P l k -> x ∈ l -> exists y, y ∈ k /\ P x y.
Proof.
  induction 1 as [|x' y l k Hxy _ IH]; intros Hin; [now apply elem_of_nil in Hin|].
  apply elem_of_cons in Hin as [->|Hin].
  - exists y. split; [apply elem_of_cons; now left|assumption].
  - destruct (IH Hin) as (y' & Hy' & HP). exists y'.
    split; [apply elem_of_cons; now right|assumption].
Qed.

Lemma Forall2_elem_of_r {A B} (P : A -> B -> Prop) l k y :
  Forall2 P l k -> y ∈ k -> exists x, x ∈ l /\ P x y.
Proof.
  induction 1 as [|x y' l k Hxy _ IH]; intros Hin; [now apply elem_of_nil in Hin|].
  apply elem_of_cons in Hin as [->|Hin].
  - exists x. split; [apply elem_of_cons; now left|assumption].
  - destruct (IH Hin) as (x' & Hx' & HP). exists x'.
    split; [apply elem_of_cons; now right|assumption].
Qed.

Lemma elem_of_concat {A} (x : A) ls :
  x ∈ concat ls <-> exists l, l ∈ ls /\ x ∈ l.
Proof.
  rewrite list_elem_of_In, in_concat. split; intros (l & H1 & H2); exists l.
  - now rewrite !list_elem_of_In.
  - now rewrite <- !list_elem_of_In.
Qed.

Lemma dict_get_elem_of {V} k (v : V) d :
  Py.dict_get k d = Some v -> (k, v) ∈ d.
Proof.
  induction d as [|[k' v'] d IH]; simpl; [discriminate|].
  destruct (String.eqb k' k) eqn:E.
  - apply String.eqb_eq in E. subst. intros [= ->]. apply elem_of_cons. now left.
  - intros H. apply elem_of_cons. right. auto.
Qed.

Lemma elem_of_dict_get {V} k (v : V) d :
  NoDup (Py.keys d) -> (k, v) ∈ d -> Py.dict_get k d = Some v.
Proof.
  unfold Py.keys. induction d as [|[k' v'] d IH]; cbn [map fst]; intros Hnd Hin.
  - now apply elem_of_nil in Hin.
  - apply NoDup_cons in Hnd as [Hnin Hnd]. cbn [Py.dict_get].
    apply elem_of_cons in Hin as [[= -> ->]|Hin].
    + now rewrite String.eqb_refl.
    + destruct (String.eqb k' k) eqn:E; [|auto].
      apply String.eqb_eq in E. subst k'. exfalso. apply Hnin.
      apply list_elem_of_fmap. exists (k, v). split; [reflexivity|assumption].
Qed.

Lemma omap_ext_Forall {A B} (f g : A -> option B) l :
  Forall (fun x => f x = g x) l -> omap f l = omap g l.
Proof.
  induction 1 as [|x l Hx _ IH]; [reflexivity|].
  cbn [omap list_omap]. rewrite Hx. fold (omap f l) (omap g l). now rewrite IH.
Qed.

Lemma map_ext_Forall_eq {A B} (f g : A -> B) l :
  Forall (fun x => f x = g x) l -> map f l = map g l.
Proof. induction 1 as [|x l Hx _ IH]; [reflexivity|]. cbn [map]. now rewrite Hx, IH. Qed.

Lemma min_100_le a b : a <= b -> Qmin a 100 <= Qmin b 100.
Proof. intros H. now apply Q.min_le_compat_r. Qed.

Lemma min_100_scale p q :
  0 <= p -> q <= 1.5 * p -> Qmin q 100 <= 1.5 * Qmin p 100.
Proof.
  intros Hp Hq.
  destruct (Q.min_spec p 100) as [[H1 H2]|[H1 H2]]; rewrite H2.
  - eapply Qle_trans; [apply Q.le_min_l|]. exact Hq.
  - eapply Qle_trans; [apply Q.le_min_r|]. lra.
Qed.

Lemma fold_left_Qmax_ge l x : x <= fold_left Qmax l x /\ Forall (fun y => y <= fold_left Qmax l x) l.
Proof.
  revert x. induction l as [|y l IH]; intros x; simpl; [split; [lra|constructor]|].
  destruct (IH (Qmax x y)) as [H1 H2]. split.
  - eapply Qle_trans; [apply Q.le_max_l|exact H1].
  - constructor; [|assumption]. eapply Qle_trans; [apply Q.le_max_r|exact H1].
Qed.

Lemma Qmax_cases x y : Qmax x y = x \/ Qmax x y = y.
Proof.
  unfold Qmax, GenericMinMax.gmax. destruct (x ?= y)%Q; auto.
Qed.

Lemma fold_left_Qmax_In l x : In (fold_left Qmax l x) (x :: l).
Proof.
  revert x. induction l as [|y l IH]; intros x; simpl; [now left|].
  destruct (IH (Qmax x y)) as [H|H].
  - rewrite <- H. destruct (Qmax_cases x y) as [E|E]; rewrite E; auto.
  - right; right. exact H.
Qed.

(** [round] *)









(** * The risk calculation engine *)

Module RiskEngineTheory.
Import RiskCalculationEngine RiskEngineSpec.

Lemma vector_mult_pos a : 0 < Py.get_opt vector_multipliers a 1.0.
Proof.
  destruct a as [s|]; cbn [Py.get_opt]; [|lra].
  unfold Py.get, vector_multipliers. dict_cases; lra.
Qed.

Lemma known_threat_valid e v x :
  threat_intel_valid e -> known_threat e v = Some x -> 0 <= x <= 1.
Proof.
  unfold known_threat. intros He H.
  destruct (Py.truthy _); [|discriminate].
  destruct (Vulnerability.cve_id v) as [c|]; simpl in H; [|discriminate].
  eauto.
Qed.

Lemma modifiers_nonneg e v : threat_intel_valid e -> 0 <= modifiers e v.
Proof.
  intros He. unfold modifiers.
  assert (0 <= CVSS_MULTIPLIERS (Vulnerability.severity v))
    by (destruct (Vulnerability.severity v); simpl; lra).
  pose proof (vector_mult_pos (Vulnerability.attack_vector v)).
  assert (0 <= match known_threat e v with Some ti => 1.0 + ti * 0.5 | None => 1.0 end).
  { destruct (known_threat e v) as [x|] eqn:E; [|lra].
    pose proof (known_threat_valid e v x He E). lra. }
  repeat apply Qmult_le_0_compat; try assumption; try lra.
  - destruct (Vulnerability.exploit_public v), (Vulnerability.exploit_available v); lra.
  - destruct (Vulnerability.patch_available v); lra.
Qed.

Lemma calculate_vulnerability_risk_eq e v :
  calculate_vulnerability_risk e v
  == Qmin (Vulnerability.cvss_score v * 10 * modifiers e v) 100.
Proof.
  unfold calculate_vulnerability_risk, modifiers. cbv zeta.
  apply Q.min_compat; [|reflexivity]. field.
Qed.

Lemma modifiers_with_cvss_score e c v :
  modifiers e (Vulnerability.with_cvss_score c v) = modifiers e v.
Proof. reflexivity. Qed.

Lemma calculate_vulnerability_risk_range e v :
  threat_intel_valid e -> cvss_valid v ->
  0 <= calculate_vulnerability_risk e v <= 100.
Proof.
  intros He [Hlo Hhi]. rewrite calculate_vulnerability_risk_eq. split.
  - apply Q.min_glb; [|lra].
    apply Qmult_le_0_compat; [lra|]. now apply modifiers_nonneg.
  - apply Q.le_min_r.
Qed.

(** C3.  With threat intelligence in [0,1], for a vulnerability with
    any severity, exploit flags, patch flag and attack vector, and for
    CVSS scores c1 <= c2 in [0,10], [calculate_vulnerability_risk]
    returns a value in [0,100] at both scores, and its value at c1 is
    at most its value at c2: the score is monotone in the CVSS score,
    everything else held fixed. *)
Theorem vulnerability_risk_range_and_monotone e v (c1 c2 : Q) :
  threat_intel_valid e ->
  0 <= c1 -> c1 <= c2 -> c2 <= 10 ->
  let score c := calculate_vulnerability_risk e (Vulnerability.with_cvss_score c v) in
  0 <= score c1 <= 100 /\ 0 <= score c2 <= 100 /\ score c1 <= score c2.
Proof.
  intros He H0 H12 H10 score. subst score. cbv beta.
  split; [|split].
  - apply calculate_vulnerability_risk_range; [assumption|]. unfold cvss_valid. simpl. lra.
  - apply calculate_vulnerability_risk_range; [assumption|]. unfold cvss_valid. simpl. lra.
  - rewrite !calculate_vulnerability_risk_eq, !modifiers_with_cvss_score. simpl.
    apply Q.min_le_compat_r.
    apply Qmult_le_compat_r; [lra|]. now apply modifiers_nonneg.
Qed.

(** * Sorting keeps the elements *)

Lemma insert_desc_Permutation {A} (key : A -> Q) x l :
  Permutation (Py.insert_desc key x l) (x :: l).
Proof.
  induction l as [|y l IH]; simpl; [reflexivity|].
  destruct (Qle_bool (key y) (key x)); [reflexivity|].
  rewrite IH. apply perm_swap.
Qed.

Lemma sorted_desc_Permutation {A} (key : A -> Q) l :
  Permutation (Py.sorted_desc key l) l.
Proof.
  induction l as [|x l IH]; simpl; [reflexivity|].
  rewrite insert_desc_Permutation. now constructor.
Qed.

Lemma sorted_desc_length {A} (key : A -> Q) l :
  length (Py.sorted_desc key l) = length l.
Proof. apply Permutation_length, sorted_desc_Permutation. Qed.



(** * The vulnerability component of an asset's risk *)

Lemma len_cons_cons_minus_1 {A} (x y : A) l :
  Py.len (x :: y :: l) - 1 == Py.len (y :: l) /\ 0 < Py.len (y :: l).
Proof.
  unfold Py.len. simpl length. rewrite !of_nat_S.
  pose proof (of_nat_nonneg (length l)). split; lra.
Qed.


(** * Exposure, criticality and threat factors *)





(** * The weighted total *)


Lemma weighted_total_eq vr er cm tf :
  weighted_total vr er cm tf
  = Some ((vr * 0.35 + er * 0.10 + vr * cm * 0.20 + vr * tf * 0.10)
          / Py.sum [0.35; 0.10; 0.20; 0.10]).
Proof. reflexivity. Qed.

(** * Running [calculate_asset_risk] *)


Lemma calculate_asset_risk_scored k w asset vr :
  Py.dict_get k (assets (self w)) = Some asset ->
  resolve (self w) (Asset.vulnerability_ids asset) <> [] ->
  weighted_vulnerability_risk (sorted_scores (self w) asset) = Some vr ->
  let r := result_of (self w) asset vr (Py.read (clock w)) in
  calculate_asset_risk k w
  = Some (r,
          World (with_assets
                   (Py.dict_alter
                      (Asset.set_risk_score (RiskCalculationResult.total_risk_score r))
                      k (assets (self w)))
                   (self w))
                (Py.tick (clock w))).
Proof.
  intros Hget Hne Hvr r. subst r.
  unfold calculate_asset_risk, deref.
  unfold mbind, M_bind, lift at 1. rewrite Hget. unfold gets.
  destruct (resolve (self w) (Asset.vulnerability_ids asset)) as [|v0 vs] eqn:Hres;
    [congruence|].
  cbv zeta. unfold sorted_scores in Hvr. rewrite Hres in Hvr.
  unfold lift. rewrite Hvr, weighted_total_eq.
  unfold result_of. rewrite Hres. reflexivity.
Qed.

Lemma weighted_vulnerability_risk_total l :
  l <> [] -> is_Some (weighted_vulnerability_risk l).
Proof.
  intros Hne. destruct l as [|top [|y rest]]; [congruence|eexists; reflexivity|].
  destruct (len_cons_cons_minus_1 top y rest) as [Hlen Hpos].
  unfold weighted_vulnerability_risk.
  rewrite div_Some by (rewrite Hlen; lra). eexists. reflexivity.
Qed.

Lemma sorted_scores_nonempty e asset :
  resolve e (Asset.vulnerability_ids asset) <> [] -> sorted_scores e asset <> [].
Proof.
  intros Hne Hs. apply Hne.
  apply (f_equal (@length Q)) in Hs. unfold sorted_scores in Hs.
  rewrite sorted_desc_length, length_map in Hs.
  now destruct (resolve e (Asset.vulnerability_ids asset)).
Qed.

Lemma calculate_asset_risk_unscored k w asset :
  Py.dict_get k (assets (self w)) = Some asset ->
  resolve (self w) (Asset.vulnerability_ids asset) = [] ->
  calculate_asset_risk k w
  = Some (RiskCalculationResult.mk (Asset.id asset) 0.0 0.0 0.0 1.0 1.0 [] []
            ["No vulnerabilities detected. Continue regular scanning."]
            (Py.read (clock w)),
          World (self w) (Py.tick (clock w))).
Proof.
  intros Hget Hres. unfold calculate_asset_risk, deref.
  unfold mbind, M_bind, lift at 1. rewrite Hget. unfold gets.
  rewrite Hres. reflexivity.
Qed.


(** * Insertion-ordered dicts *)

Lemma dict_get_alter_eq {V} (f : V -> V) k d v :
  Py.dict_get k d = Some v -> Py.dict_get k (Py.dict_alter f k d) = Some (f v).
Proof.
  induction d as [|[k' v'] d IH]; simpl; [discriminate|].
  destruct (String.eqb k' k) eqn:E; simpl; rewrite E.
  - now intros [= ->].
  - exact IH.
Qed.

Lemma dict_get_alter_ne {V} (f : V -> V) k k' d :
  k' <> k -> Py.dict_get k' (Py.dict_alter f k d) = Py.dict_get k' d.
Proof.
  intros Hne. induction d as [|[k0 v0] d IH]; simpl; [reflexivity|].
  destruct (String.eqb k0 k) eqn:E; simpl.
  - apply String.eqb_eq in E. subst k0.
    destruct (String.eqb k k') eqn:E'; [|reflexivity].
    apply String.eqb_eq in E'. congruence.
  - now rewrite IH.
Qed.

Lemma keys_dict_alter {V} (f : V -> V) k d :
  Py.keys (Py.dict_alter f k d) = Py.keys d.
Proof.
  unfold Py.keys. induction d as [|[k0 v0] d IH]; simpl; [reflexivity|].
  destruct (String.eqb k0 k); simpl; [reflexivity|]. now rewrite IH.
Qed.

Lemma set_risk_score_same x a : same_except_risk_score a (Asset.set_risk_score x a).
Proof. repeat split. Qed.

Lemma calculate_asset_risk_nonempty k w asset :
  registered w k asset -> has_resolvable w asset ->
  exists vr,
    weighted_vulnerability_risk (sorted_scores (self w) asset) = Some vr /\
    let r := result_of (self w) asset vr (Py.read (clock w)) in
    calculate_asset_risk k w
    = Some (r,
            World (with_assets
                     (Py.dict_alter
                        (Asset.set_risk_score (RiskCalculationResult.total_risk_score r))
                        k (assets (self w)))
                     (self w))
                  (Py.tick (clock w))).
Proof.
  intros Hget Hne.
  destruct (weighted_vulnerability_risk_total (sorted_scores (self w) asset))
    as [vr Hvr]; [now apply sorted_scores_nonempty|].
  exists vr. split; [assumption|]. now apply calculate_asset_risk_scored.
Qed.


(** C4.  For a registered asset none of whose vulnerability ids are
    known to the engine (an empty id list included),
    [calculate_asset_risk] returns a result, not an error: total risk
    score 0, an empty risk-factor breakdown, and the single
    recommendation that no vulnerabilities were detected. *)
Theorem no_resolvable_vulnerability_gives_zero_result k w asset :
  registered w k asset ->
  resolve (self w) (Asset.vulnerability_ids asset) = [] ->
  exists r w',
    calculate_asset_risk k w = Some (r, w') /\
    RiskCalculationResult.total_risk_score r == 0 /\
    RiskCalculationResult.risk_factors r = [] /\
    RiskCalculationResult.recommendations r
    = ["No vulnerabilities detected. Continue regular scanning."].
Proof.
  intros Hget Hres. eexists _, _.
  split; [apply calculate_asset_risk_unscored; eassumption|].
  repeat split.
Qed.

(** C9.  For a registered asset with at least one resolvable
    vulnerability, all [calculate_asset_risk] changes in the engine is
    that asset's [risk_score], which becomes the total risk score of
    the result: the asset's other fields, every other asset, the order
    of the assets, the vulnerability records, the threat intelligence
    and the stored scenarios are as before the call. *)
Theorem asset_risk_only_writes_risk_score k w asset :
  registered w k asset -> has_resolvable w asset ->
  exists r w' asset',
    calculate_asset_risk k w = Some (r, w') /\
    registered w' k asset' /\
    Asset.risk_score asset' = RiskCalculationResult.total_risk_score r /\
    same_except_risk_score asset asset' /\
    (forall k', k' <> k ->
       Py.dict_get k' (assets (self w')) = Py.dict_get k' (assets (self w))) /\
    Py.keys (assets (self w')) = Py.keys (assets (self w)) /\
    vulnerabilities (self w') = vulnerabilities (self w) /\
    threat_intel (self w') = threat_intel (self w) /\
    risk_scenarios (self w') = risk_scenarios (self w).
Proof.
  intros Hget Hne.
  destruct (calculate_asset_risk_nonempty k w asset Hget Hne) as (vr & _ & Hrun).
  cbv zeta in Hrun.
  eexists _, _, _. split; [exact Hrun|].
  unfold registered. cbn [self assets vulnerabilities threat_intel risk_scenarios with_assets].
  split; [apply dict_get_alter_eq; exact Hget|].
  split; [reflexivity|].
  split; [apply set_risk_score_same|].
  split; [intros k' Hk'; now apply dict_get_alter_ne|].
  split; [apply keys_dict_alter|].
  repeat split.
Qed.

Lemma calculate_asset_risk_twice k w asset :
  registered w k asset ->
  exists r1 w1 r2 w2,
    calculate_asset_risk k w = Some (r1, w1) /\
    calculate_asset_risk k w1 = Some (r2, w2) /\
    r2 = RiskCalculationResult.with_calculated_at (Py.read (clock w1)) r1 /\
    RiskCalculationResult.calculated_at r1 = Py.read (clock w) /\
    clock w1 = Py.tick (clock w).
Proof.
  intros Hget.
  destruct (resolve (self w) (Asset.vulnerability_ids asset)) as [|v0 vs] eqn:Hres.
  - eexists _, _, _, _.
    split; [apply calculate_asset_risk_unscored; eassumption|].
    split; [apply calculate_asset_risk_unscored; eassumption|].
    repeat split.
  - assert (Hne : has_resolvable w asset) by (unfold has_resolvable; congruence).
    destruct (calculate_asset_risk_nonempty k w asset Hget Hne) as (vr & Hvr & Hrun).
    cbv zeta in Hrun.
    eexists _, _, _, _. split; [exact Hrun|].
    split.
    + apply calculate_asset_risk_scored.
      * cbn [self assets with_assets]. apply dict_get_alter_eq. exact Hget.
      * exact Hne.
      * exact Hvr.
    + repeat split.
Qed.




(** * Scenario correlation *)

Lemma same_inputs_refl w : same_inputs w w.
Proof. repeat split. eauto. Qed.

Lemma unscored_set_risk_score x a : unscored (Asset.set_risk_score x a) = unscored a.
Proof. reflexivity. Qed.

Lemma same_inputs_store w w' k x c :
  same_inputs w w' ->
  same_inputs w
    (World (with_assets (Py.dict_alter (Asset.set_risk_score x) k (assets (self w')))
                        (self w')) c).
Proof.
  intros (Hv & Hti & Hk & Ha). split; [exact Hv|]. split; [exact Hti|].
  cbn [self assets with_assets]. split; [now rewrite keys_dict_alter|].
  intros k0 a Hget. destruct (Ha k0 a Hget) as (a' & Hget' & Hu).
  destruct (String.eqb k0 k) eqn:E.
  - apply String.eqb_eq in E. subst k0.
    exists (Asset.set_risk_score x a'). split; [now apply dict_get_alter_eq|].
    now rewrite unscored_set_risk_score.
  - apply String.eqb_neq in E. exists a'. split; [|assumption].
    now rewrite dict_get_alter_ne.
Qed.

Lemma same_inputs_clock w w' c :
  same_inputs w w' -> same_inputs w (World (self w') c).
Proof. intros H. exact H. Qed.

(** What the engine computes from an asset does not read its stored score. *)
Lemma resolve_same w w' a a' :
  same_inputs w w' -> unscored a' = unscored a ->
  resolve (self w') (Asset.vulnerability_ids a')
  = resolve (self w) (Asset.vulnerability_ids a).
Proof.
  intros (Hv & _) Hu. unfold resolve. rewrite Hv.
  change (Asset.vulnerability_ids a') with (Asset.vulnerability_ids (unscored a')).
  now rewrite Hu.
Qed.

Lemma calculate_vulnerability_risk_same w w' v :
  same_inputs w w' ->
  calculate_vulnerability_risk (self w') v = calculate_vulnerability_risk (self w) v.
Proof.
  intros (_ & Hti & _). unfold calculate_vulnerability_risk, known_threat.
  now rewrite Hti.
Qed.

Lemma sorted_scores_same w w' a a' :
  same_inputs w w' -> unscored a' = unscored a ->
  sorted_scores (self w') a' = sorted_scores (self w) a.
Proof.
  intros Hs Hu. unfold sorted_scores. rewrite (resolve_same w w' a a' Hs Hu).
  f_equal. apply map_ext. intros v. now apply calculate_vulnerability_risk_same.
Qed.

Lemma total_risk_score_result_of_same w w' a a' vr c c' :
  same_inputs w w' -> unscored a' = unscored a ->
  RiskCalculationResult.total_risk_score (result_of (self w') a' vr c')
  = RiskCalculationResult.total_risk_score (result_of (self w) a vr c).
Proof.
  intros Hs Hu. unfold result_of. cbv zeta.
  cbn [RiskCalculationResult.total_risk_score].
  rewrite (resolve_same w w' a a' Hs Hu).
  change (_calculate_exposure_risk a') with (_calculate_exposure_risk (unscored a')).
  change (Asset.criticality a') with (Asset.criticality (unscored a')).
  rewrite Hu.
  destruct Hs as (_ & Hti & _). unfold _calculate_threat_factor, known_threat.
  rewrite Hti. reflexivity.
Qed.

Lemma same_inputs_registered w w' k a :
  registered w k a -> same_inputs w w' ->
  exists a', registered w' k a' /\ unscored a' = unscored a.
Proof. intros Hreg (_ & _ & _ & Ha). exact (Ha k a Hreg). Qed.

Lemma unscored_id a a' : unscored a' = unscored a -> Asset.id a' = Asset.id a.
Proof. intros H. apply (f_equal Asset.id) in H. exact H. Qed.

Lemma has_resolvable_same w w' a a' :
  same_inputs w w' -> unscored a' = unscored a ->
  has_resolvable w a -> has_resolvable w' a'.
Proof. unfold has_resolvable. intros Hs Hu H. now rewrite (resolve_same w w' a a' Hs Hu). Qed.

Lemma create_exploitation_run w w' k a vulns :
  registered w k a -> same_inputs w w' -> has_resolvable w a ->
  exists sc w'',
    _create_exploitation_scenario k vulns w' = Some (sc, w'') /\
    same_inputs w w'' /\
    RiskScenario.category sc = "Multi-Stage Attack" /\
    RiskScenario.severity sc = CRITICAL /\
    RiskScenario.likelihood sc = "Likely" /\
    RiskScenario.impact sc = "Catastrophic" /\
    RiskScenario.affected_asset_ids sc = [Asset.id a] /\
    RiskScenario.correlated_vulnerability_ids sc = map Vulnerability.id vulns /\
    (exists total, total_risk_of (self w) a = Some total /\
       RiskScenario.business_risk_score sc = Qmin (total * 1.2) 100) /\
    RiskScenario.detection_coverage sc = 60.0.
Proof.
  intros Hreg Hs Hne.
  destruct (same_inputs_registered w w' k a Hreg Hs) as (a' & Hreg' & Hu).
  pose proof (has_resolvable_same w w' a a' Hs Hu Hne) as Hne'.
  destruct (calculate_asset_risk_nonempty k w' a' Hreg' Hne') as (vr & Hvr & Hrun).
  cbv zeta in Hrun.
  unfold _create_exploitation_scenario. cbv zeta.
  rewrite bind_run, Hrun. rewrite bind_run.
  unfold deref, lift. cbn [self assets with_assets].
  rewrite (dict_get_alter_eq _ k _ a' Hreg').
  rewrite bind_run. unfold datetime_now at 1. cbn [self clock].
  rewrite bind_run. unfold datetime_now at 1. cbn [self clock].
  rewrite mret_run.
  eexists _, _. split; [reflexivity|].
  split; [apply same_inputs_store; exact Hs|].
  cbn [RiskScenario.category RiskScenario.severity RiskScenario.likelihood
       RiskScenario.impact RiskScenario.affected_asset_ids
       RiskScenario.correlated_vulnerability_ids
       RiskScenario.business_risk_score RiskScenario.detection_coverage].
  repeat split.
  - cbn [Asset.id Asset.set_risk_score]. now rewrite (unscored_id a a' Hu).
  - exists (RiskCalculationResult.total_risk_score
              (result_of (self w') a' vr (Py.read (clock w')))).
    split; [|reflexivity].
    unfold total_risk_of. rewrite <- (sorted_scores_same w w' a a' Hs Hu), Hvr.
    cbn [mbind option_bind]. f_equal. symmetry.
    now apply total_risk_score_result_of_same.
Qed.

Lemma create_breach_run w w' k a vulns :
  registered w k a -> same_inputs w w' ->
  exists sc w'',
    _create_internet_breach_scenario k vulns w' = Some (sc, w'') /\
    same_inputs w w'' /\
    RiskScenario.category sc = "Data Breach & Exfiltration" /\
    RiskScenario.affected_asset_ids sc = [Asset.id a].
Proof.
  intros Hreg Hs.
  destruct (same_inputs_registered w w' k a Hreg Hs) as (a' & Hreg' & Hu).
  unfold _create_internet_breach_scenario.
  rewrite bind_run. unfold deref, lift. rewrite Hreg'.
  rewrite bind_run. unfold datetime_now at 1.
  rewrite bind_run. unfold datetime_now at 1. cbn [self clock].
  rewrite mret_run.
  eexists _, _. split; [reflexivity|].
  split; [exact Hs|].
  cbn [RiskScenario.category RiskScenario.affected_asset_ids].
  split; [reflexivity|]. now rewrite (unscored_id a a' Hu).
Qed.

Lemma is_multi_stage_for_true aid sc :
  RiskScenario.category sc = "Multi-Stage Attack" ->
  RiskScenario.affected_asset_ids sc = [aid] ->
  is_multi_stage_for aid sc = true.
Proof.
  intros Hc Ha. unfold is_multi_stage_for. rewrite Hc, Ha.
  rewrite bool_decide_eq_true_2 by reflexivity. reflexivity.
Qed.

Lemma is_multi_stage_for_breach aid sc :
  RiskScenario.category sc = "Data Breach & Exfiltration" ->
  is_multi_stage_for aid sc = false.
Proof. intros Hc. unfold is_multi_stage_for. now rewrite Hc. Qed.

Lemma scenarios_of_asset_spec w w' k a :
  registered w k a -> same_inputs w w' ->
  exists scs w'',
    scenarios_of_asset k w' = Some (scs, w'') /\ same_inputs w w'' /\
    asset_scenarios_post (self w) a scs.
Proof.
  intros Hreg Hs.
  destruct (same_inputs_registered w w' k a Hreg Hs) as (a' & Hreg' & Hu).
  unfold scenarios_of_asset.
  rewrite bind_run. unfold deref, lift. rewrite Hreg'.
  rewrite bind_run. unfold gets.
  rewrite (resolve_same w w' a a' Hs Hu).
  unfold asset_scenarios_post, critical_vulnerabilities.
  destruct (resolve (self w) (Asset.vulnerability_ids a)) as [|v0 vs] eqn:Hres.
  - rewrite mret_run. eexists _, _. split; [reflexivity|]. split; [exact Hs|].
    split; [constructor|]. simpl. lia.
  - assert (Hne : has_resolvable w a) by (unfold has_resolvable; congruence).
    cbv zeta. set (crit := List.filter is_critical (v0 :: vs)).
    rewrite bind_run.
    destruct (2 <=? length crit)%nat eqn:E2.
    + destruct (create_exploitation_run w w' k a crit Hreg Hs Hne)
        as (sc & w1 & Hrun & Hs1 & Hcat & Hsev & Hlik & Himp & Haff & Hcor & Hbus & Hdet).
      rewrite bind_run, Hrun, mret_run. rewrite bind_run.
      destruct (Asset.exposed_to_internet a' && Py.nonempty crit).
      * destruct (create_breach_run w w1 k a crit Hreg Hs1)
          as (sb & w2 & Hrunb & Hs2 & Hcatb & Haffb).
        rewrite bind_run, Hrunb, !mret_run.
        eexists _, _. split; [reflexivity|]. split; [exact Hs2|].
        split; [repeat constructor; assumption|].
        intros _. exists sc. split.
        -- simpl. rewrite (is_multi_stage_for_true _ _ Hcat Haff).
           now rewrite (is_multi_stage_for_breach _ _ Hcatb).
        -- unfold multi_stage_post, critical_vulnerabilities. rewrite Hres.
           repeat split; assumption.
      * rewrite !mret_run.
        eexists _, _. split; [reflexivity|]. split; [exact Hs1|].
        split; [repeat constructor; assumption|].
        intros _. exists sc. split.
        -- simpl. now rewrite (is_multi_stage_for_true _ _ Hcat Haff).
        -- unfold multi_stage_post, critical_vulnerabilities. rewrite Hres.
           repeat split; assumption.
    + apply Nat.leb_gt in E2. rewrite mret_run, bind_run.
      destruct (Asset.exposed_to_internet a' && Py.nonempty crit).
      * destruct (create_breach_run w w' k a crit Hreg Hs)
          as (sb & w2 & Hrunb & Hs2 & Hcatb & Haffb).
        rewrite bind_run, Hrunb, !mret_run.
        eexists _, _. split; [reflexivity|]. split; [exact Hs2|].
        split; [repeat constructor; assumption|]. intros H. lia.
      * rewrite !mret_run.
        eexists _, _. split; [reflexivity|]. split; [exact Hs|].
        split; [constructor|]. intros H. lia.
Qed.

Lemma dict_get_of_key {V} k (d : list (string * V)) :
  k ∈ Py.keys d -> exists v, Py.dict_get k d = Some v.
Proof.
  unfold Py.keys. induction d as [|[k' v'] d IH]; simpl; intros Hin.
  - now apply elem_of_nil in Hin.
  - destruct (String.eqb k' k) eqn:E; [eauto|].
    apply elem_of_cons in Hin as [->|Hin]; [|auto].
    rewrite String.eqb_refl in E. discriminate.
Qed.

Lemma dict_get_key {V} k (d : list (string * V)) v :
  Py.dict_get k d = Some v -> k ∈ Py.keys d.
Proof.
  unfold Py.keys. induction d as [|[k' v'] d IH]; simpl; [discriminate|].
  destruct (String.eqb k' k) eqn:E.
  - apply String.eqb_eq in E. subst. intros _. apply elem_of_cons. now left.
  - intros H. apply elem_of_cons. right. auto.
Qed.

Lemma mapM_scenarios_spec w l :
  Forall (fun k => exists a, registered w k a) l ->
  forall w', same_inputs w w' ->
  exists per w'',
    mapM scenarios_of_asset l w' = Some (per, w'') /\ same_inputs w w'' /\
    Forall2 (fun k scs => exists a, registered w k a
                                    /\ asset_scenarios_post (self w) a scs) l per.
Proof.
  induction 1 as [|k l [a Hreg] _ IH]; intros w' Hs.
  - eexists _, _. split; [reflexivity|]. split; [exact Hs|constructor].
  - destruct (scenarios_of_asset_spec w w' k a Hreg Hs) as (scs & w1 & Hrun & Hs1 & Hpost).
    destruct (IH w1 Hs1) as (per & w2 & Hrun2 & Hs2 & Hall).
    rewrite mapM_cons_run, bind_run, Hrun, bind_run, Hrun2, mret_run.
    eexists _, _. split; [reflexivity|]. split; [exact Hs2|].
    constructor; [eauto|assumption].
Qed.

Lemma is_multi_stage_for_other aid aid' sc :
  RiskScenario.affected_asset_ids sc = [aid'] -> aid' <> aid ->
  is_multi_stage_for aid sc = false.
Proof.
  intros Ha Hne. unfold is_multi_stage_for. rewrite Ha.
  rewrite bool_decide_eq_false_2 by congruence. apply andb_false_r.
Qed.

Lemma filter_none {A} (p : A -> bool) l :
  Forall (fun x => p x = false) l -> List.filter p l = [].
Proof. induction 1 as [|x l Hx _ IH]; simpl; [reflexivity|]. now rewrite Hx. Qed.

Lemma filter_concat_others e k l per :
  (forall k' a, Py.dict_get k' (assets e) = Some a -> Asset.id a = k') ->
  k ∉ l ->
  Forall2 (fun k' scs => exists a, Py.dict_get k' (assets e) = Some a
                                   /\ asset_scenarios_post e a scs) l per ->
  List.filter (is_multi_stage_for k) (concat per) = [].
Proof.
  intros Hid Hnin Hall. induction Hall as [|k' scs l per (a & Hget & Hpost & _) _ IH];
    [reflexivity|].
  simpl. rewrite List.filter_app, IH.
  - rewrite app_nil_r. apply filter_none.
    eapply Forall_impl; [exact Hpost|]. intros sc Hsc. cbv beta in Hsc.
    apply (is_multi_stage_for_other k (Asset.id a) sc Hsc).
    rewrite (Hid k' a Hget). intros ->. apply Hnin. apply elem_of_cons. now left.
  - intros Hin. apply Hnin. apply elem_of_cons. now right.
Qed.

Lemma filter_concat_unique e k a l per :
  (forall k' a, Py.dict_get k' (assets e) = Some a -> Asset.id a = k') ->
  NoDup l -> k ∈ l -> Py.dict_get k (assets e) = Some a ->
  (2 <= length (critical_vulnerabilities e a))%nat ->
  Forall2 (fun k' scs => exists a, Py.dict_get k' (assets e) = Some a
                                   /\ asset_scenarios_post e a scs) l per ->
  exists sc, List.filter (is_multi_stage_for k) (concat per) = [sc]
             /\ multi_stage_post e a sc.
Proof.
  intros Hid Hnd Hin Hget Hcrit Hall.
  induction Hall as [|k' scs l per (a' & Hget' & Hpost) Hrest IH];
    [now apply elem_of_nil in Hin|].
  apply NoDup_cons in Hnd as [Hnin Hnd].
  simpl. rewrite List.filter_app.
  destruct (decide (k' = k)) as [->|Hne].
  - assert (a' = a) by congruence. subst a'.
    destruct Hpost as [_ Hex]. destruct (Hex Hcrit) as (sc & Hf & Hms).
    rewrite (Hid k a Hget) in Hf. rewrite Hf.
    rewrite (filter_concat_others e k l per Hid Hnin Hrest).
    exists sc. split; [reflexivity|assumption].
  - apply elem_of_cons in Hin as [->|Hin]; [congruence|].
    destruct (IH Hnd Hin) as (sc & Hf & Hms). rewrite Hf.
    destruct Hpost as [Haff _].
    rewrite filter_none; [exists sc; split; [reflexivity|assumption]|].
    eapply Forall_impl; [exact Haff|]. intros s Hs. cbv beta in Hs.
    apply (is_multi_stage_for_other k (Asset.id a') s Hs).
    rewrite (Hid k' a' Hget'). exact Hne.
Qed.

(** Lateral-movement scenarios: the pass always completes, leaves the
    engine alone, and labels what it emits. *)
Lemma lateral_scenario_of_spec g w :
  exists scs w',
    lateral_scenario_of g w = Some (scs, w') /\ self w' = self w /\
    Forall (fun sc => RiskScenario.category sc = "Unauthorized Lateral Movement") scs.
Proof.
  destruct g as [location members]. unfold lateral_scenario_of.
  destruct (length members <? 2)%nat.
  { eexists _, _. split; [reflexivity|]. split; [reflexivity|constructor]. }
  cbv zeta. destruct (2 <=? length (List.filter is_high_risk members))%nat.
  - eexists _, _. split; [reflexivity|]. split; [reflexivity|].
    repeat constructor.
  - eexists _, _. split; [reflexivity|]. split; [reflexivity|constructor].
Qed.

Lemma mapM_lateral_spec gs w :
  exists per w',
    mapM lateral_scenario_of gs w = Some (per, w') /\ self w' = self w /\
    Forall (fun sc => RiskScenario.category sc = "Unauthorized Lateral Movement")
           (concat per).
Proof.
  revert w. induction gs as [|g gs IH]; intros w.
  - eexists _, _. split; [reflexivity|]. split; [reflexivity|constructor].
  - destruct (lateral_scenario_of_spec g w) as (scs & w1 & Hrun & Hself & Hcat).
    destruct (IH w1) as (per & w2 & Hrun2 & Hself2 & Hcat2).
    rewrite mapM_cons_run, bind_run, Hrun, bind_run, Hrun2, mret_run.
    eexists _, _. split; [reflexivity|]. split; [congruence|].
    simpl. apply Forall_app. now split.
Qed.

Lemma identify_lateral_movement_spec w :
  exists scs w',
    _identify_lateral_movement w = Some (scs, w') /\ self w' = self w /\
    Forall (fun sc => RiskScenario.category sc = "Unauthorized Lateral Movement") scs.
Proof.
  unfold _identify_lateral_movement. rewrite bind_run. unfold gets. cbv zeta.
  destruct (mapM_lateral_spec (group_by_location (Py.values (assets (self w)))) w)
    as (per & w' & Hrun & Hself & Hcat).
  rewrite bind_run, Hrun, mret_run. eauto 6.
Qed.

Lemma is_multi_stage_for_lateral aid sc :
  RiskScenario.category sc = "Unauthorized Lateral Movement" ->
  is_multi_stage_for aid sc = false.
Proof. intros Hc. unfold is_multi_stage_for. now rewrite Hc. Qed.

Lemma total_risk_of_run k w asset total :
  registered w k asset -> total_risk_of (self w) asset = Some total ->
  has_resolvable w asset ->
  exists r w', calculate_asset_risk k w = Some (r, w')
               /\ RiskCalculationResult.total_risk_score r = total.
Proof.
  intros Hreg Ht Hne. unfold total_risk_of in Ht.
  destruct (weighted_vulnerability_risk (sorted_scores (self w) asset)) as [vr|] eqn:Hvr;
    [|discriminate].
  cbn [mbind option_bind] in Ht. injection Ht as <-.
  eexists _, _. split; [apply (calculate_asset_risk_scored k w asset vr Hreg Hne Hvr)|].
  reflexivity.
Qed.

Lemma resolve_In e ids vid v :
  In vid ids -> Py.dict_get vid (vulnerabilities e) = Some v -> In v (resolve e ids).
Proof.
  unfold resolve. induction ids as [|i l IH]; simpl; [tauto|].
  intros [->|Hin] Hlook.
  - rewrite Hlook. now left.
  - destruct (Py.dict_get i (vulnerabilities e)); [right|]; auto.
Qed.

Lemma critical_implies_resolvable w a :
  (2 <= length (critical_vulnerabilities (self w) a))%nat -> has_resolvable w a.
Proof.
  unfold critical_vulnerabilities, has_resolvable. intros H Hnil.
  rewrite Hnil in H. simpl in H. lia.
Qed.

(** C5.  In an engine filled through [add_asset] and
    [add_vulnerability], for a registered asset with at least two
    resolvable vulnerabilities of severity Critical, one run of
    [generate_risk_scenarios] yields exactly one multi-stage scenario
    for that asset.  Its severity is Critical, its likelihood Likely,
    its impact Catastrophic, its business risk score the asset's total
    risk score times 1.2 capped at 100, its detection coverage 60, and
    its correlated vulnerability ids include every Critical
    vulnerability id of the asset. *)
Theorem multi_stage_scenario_emitted k w asset :
  wf_engine (self w) -> registered w k asset ->
  (2 <= length (critical_vulnerabilities (self w) asset))%nat ->
  exists scenarios w' sc r w1,
    generate_risk_scenarios w = Some (scenarios, w') /\
    risk_scenarios (self w') = scenarios /\
    List.filter (is_multi_stage_for (Asset.id asset)) scenarios = [sc] /\
    RiskScenario.severity sc = CRITICAL /\
    RiskScenario.likelihood sc = "Likely" /\
    RiskScenario.impact sc = "Catastrophic" /\
    calculate_asset_risk k w = Some (r, w1) /\
    RiskScenario.business_risk_score sc
    = Qmin (RiskCalculationResult.total_risk_score r * 1.2) 100 /\
    RiskScenario.detection_coverage sc == 60 /\
    forall vid v,
      vid ∈ Asset.vulnerability_ids asset ->
      Py.dict_get vid (vulnerabilities (self w)) = Some v ->
      Vulnerability.severity v = CRITICAL ->
      vid ∈ RiskScenario.correlated_vulnerability_ids sc.
Proof.
  intros (Hnd & Hid & Hvid) Hreg Hcrit.
  assert (Hkeys : Forall (fun k => exists a, registered w k a)
                         (Py.keys (assets (self w)))).
  { apply Forall_forall. intros k' Hin. now apply dict_get_of_key. }
  destruct (mapM_scenarios_spec w _ Hkeys w (same_inputs_refl w))
    as (per & w1 & Hrun & Hs1 & Hall).
  destruct (identify_lateral_movement_spec w1) as (lat & w2 & Hlat & Hself & Hcat).
  destruct (filter_concat_unique (self w) k asset _ per Hid Hnd
              (dict_get_key _ _ _ Hreg) Hreg Hcrit Hall) as (sc & Hf & Hms).
  destruct Hms as (Hc & Hsev & Hlik & Himp & Haff & Hcor & (total & Htot & Hbus) & Hdet).
  destruct (total_risk_of_run k w asset total Hreg Htot
              (critical_implies_resolvable w asset Hcrit)) as (r & wr & Hr & Hrt).
  unfold generate_risk_scenarios.
  rewrite bind_run. unfold gets. rewrite bind_run, Hrun. cbv zeta.
  rewrite bind_run, Hlat, bind_run. unfold modify. rewrite mret_run.
  exists (concat per ++ lat)%list. eexists. exists sc, r, wr.
  split; [reflexivity|]. split; [reflexivity|].
  split.
  { rewrite List.filter_app, (Hid k asset Hreg), Hf.
    rewrite filter_none; [reflexivity|].
    eapply Forall_impl; [exact Hcat|]. intros s Hs. cbv beta in Hs.
    now apply is_multi_stage_for_lateral. }
  repeat (split; [assumption|]).
  split; [now rewrite Hrt|].
  split; [now rewrite Hdet|].
  intros vid v Hin Hlook Hsevv. rewrite Hcor.
  rewrite <- (Hvid vid v Hlook). apply list_elem_of_In, in_map.
  unfold critical_vulnerabilities. apply filter_In. split.
  - apply (resolve_In _ _ vid); [now apply list_elem_of_In|assumption].
  - unfold is_critical. now rewrite Hsevv.
Qed.

(** * The invariant of engines built through the public methods *)

Lemma dict_get_set {V} k k' (v : V) d :
  Py.dict_get k' (Py.dict_set k v d)
  = if String.eqb k k' then Some v else Py.dict_get k' d.
Proof.
  induction d as [|[k0 v0] d IH]; simpl.
  - reflexivity.
  - destruct (String.eqb k0 k) eqn:E; simpl.
    + apply String.eqb_eq in E. subst k0. now destruct (String.eqb k k').
    + rewrite IH. destruct (String.eqb k0 k') eqn:E'; [|reflexivity].
      apply String.eqb_eq in E'. subst k0.
      rewrite String.eqb_sym in E. now rewrite E.
Qed.

Lemma keys_dict_set {V} k (v : V) d :
  Py.keys (Py.dict_set k v d)
  = if bool_decide (k ∈ Py.keys d) then Py.keys d else (Py.keys d ++ [k])%list.
Proof.
  unfold Py.keys. induction d as [|[k0 v0] d IH].
  - cbn [Py.dict_set map fst app].
    rewrite bool_decide_eq_false_2; [reflexivity|]. apply not_elem_of_nil.
  - cbn [Py.dict_set]. destruct (String.eqb k0 k) eqn:E; cbn [map fst].
    + apply String.eqb_eq in E. subst k0.
      rewrite bool_decide_eq_true_2; [reflexivity|]. apply elem_of_cons. now left.
    + apply String.eqb_neq in E. rewrite IH.
      destruct (decide (k ∈ map fst d)) as [Hin|Hnin].
      * rewrite !bool_decide_eq_true_2; [reflexivity| |assumption].
        apply elem_of_cons. now right.
      * rewrite !bool_decide_eq_false_2; [reflexivity| |assumption].
        intros [?|?]%elem_of_cons; congruence.
Qed.

Lemma wf_init : wf_engine __init__.
Proof.
  split; [constructor|]. split; discriminate.
Qed.

Lemma wf_add_asset a e : wf_engine e -> wf_engine (add_asset a e).
Proof.
  intros (Hnd & Hid & Hv). unfold add_asset, wf_engine. cbn [assets vulnerabilities with_assets].
  split; [|split; [|exact Hv]].
  - rewrite keys_dict_set. case_bool_decide; [assumption|].
    apply NoDup_app. split; [assumption|]. split; [|apply NoDup_singleton].
    intros x Hx Hx'. apply list_elem_of_singleton in Hx'. congruence.
  - intros k a'. rewrite dict_get_set.
    destruct (String.eqb (Asset.id a) k) eqn:E; [|apply Hid].
    apply String.eqb_eq in E. congruence.
Qed.

Lemma wf_add_vulnerability v e : wf_engine e -> wf_engine (add_vulnerability v e).
Proof.
  intros (Hnd & Hid & Hv). unfold add_vulnerability, wf_engine. cbn [assets vulnerabilities].
  split; [assumption|]. split; [assumption|].
  intros k v'. rewrite dict_get_set.
  destruct (String.eqb (Vulnerability.id v) k) eqn:E; [|apply Hv].
  apply String.eqb_eq in E. congruence.
Qed.

Lemma wf_add_threat_intelligence c x e :
  wf_engine e -> wf_engine (add_threat_intelligence c x e).
Proof. intros H. exact H. Qed.

Lemma threat_intel_valid_init : threat_intel_valid __init__.
Proof. intros c x H. discriminate. Qed.

Lemma threat_intel_valid_add_asset a e :
  threat_intel_valid e -> threat_intel_valid (add_asset a e).
Proof. intros H. exact H. Qed.

Lemma threat_intel_valid_add_vulnerability v e :
  threat_intel_valid e -> threat_intel_valid (add_vulnerability v e).
Proof. intros H. exact H. Qed.

(** [add_threat_intelligence] clamps what it stores. *)
Lemma threat_intel_valid_add_threat_intelligence c x e :
  threat_intel_valid e -> threat_intel_valid (add_threat_intelligence c x e).
Proof.
  intros H c' x'. unfold add_threat_intelligence. cbn [threat_intel].
  rewrite dict_get_set. destruct (String.eqb c c'); [|apply H].
  intros [= <-]. split.
  - apply Q.min_glb; [apply Q.le_max_r|lra].
  - apply Q.le_min_r.
Qed.





(** * The example estate *)

Lemma example_wf : wf_engine example_engine.
Proof.
  unfold example_engine.
  apply wf_add_threat_intelligence.
  repeat apply wf_add_asset. repeat apply wf_add_vulnerability. apply wf_init.
Qed.

Lemma example_threat_intel_valid : threat_intel_valid example_engine.
Proof.
  unfold example_engine.
  apply threat_intel_valid_add_threat_intelligence.
  repeat apply threat_intel_valid_add_asset.
  repeat apply threat_intel_valid_add_vulnerability. apply threat_intel_valid_init.
Qed.


Lemma example_registered : registered example_world "srv-prod-db-01" srv_prod_db_01.
Proof. reflexivity. Qed.

Lemma example_registered_printer : registered example_world "printer-01" printer_01.
Proof. reflexivity. Qed.

Lemma example_has_resolvable : has_resolvable example_world srv_prod_db_01.
Proof. unfold has_resolvable. vm_compute. discriminate. Qed.

Lemma example_two_critical :
  (2 <= length (critical_vulnerabilities (self example_world) srv_prod_db_01))%nat.
Proof. vm_compute. constructor. Qed.

(** * The claims at the example estate *)

(** C1 (the code departs from the claim).  The claim: the four risk
    buckets of the portfolio summary partition the assets, so their
    counts add up to the number of assets.  [get_risk_summary] counts
    every asset scoring 70 or more as high, the critical ones included:
    after a scoring cycle over the three example assets the counts are
    critical 1, high 1, medium 1 and low 1, four in all, and the one
    critical asset is the one counted as high. *)
Theorem risk_summary_counts_critical_asset_twice :
  summary_after_scoring example_world ≫= bucket_counts = Some (3, (1, 1, 1, 1)).
Proof. vm_compute. reflexivity. Qed.


Lemma vulnerability_risk_range_and_monotone_witness :
  threat_intel_valid example_engine /\
  let score c :=
    calculate_vulnerability_risk example_engine
      (Vulnerability.with_cvss_score c vuln_001) in
  0 <= score 5 <= 100 /\ 0 <= score 9.8 <= 100 /\ score 5 <= score 9.8.
Proof.
  split; [exact example_threat_intel_valid|].
  apply (vulnerability_risk_range_and_monotone example_engine vuln_001 5 9.8
           example_threat_intel_valid); lra.
Defined.

Lemma no_resolvable_vulnerability_gives_zero_result_witness :
  registered example_world "printer-01" printer_01 /\
  resolve (self example_world) (Asset.vulnerability_ids printer_01) = [] /\
  exists r w',
    calculate_asset_risk "printer-01" example_world = Some (r, w') /\
    RiskCalculationResult.total_risk_score r == 0 /\
    RiskCalculationResult.risk_factors r = [] /\
    RiskCalculationResult.recommendations r
    = ["No vulnerabilities detected. Continue regular scanning."].
Proof.
  split; [exact example_registered_printer|]. split; [reflexivity|].
  apply (no_resolvable_vulnerability_gives_zero_result "printer-01" example_world
           printer_01 example_registered_printer).
  reflexivity.
Defined.

Lemma multi_stage_scenario_emitted_witness :
  wf_engine (self example_world) /\
  registered example_world "srv-prod-db-01" srv_prod_db_01 /\
  (2 <= length (critical_vulnerabilities (self example_world) srv_prod_db_01))%nat /\
  exists scenarios w' sc,
    generate_risk_scenarios example_world = Some (scenarios, w') /\
    List.filter (is_multi_stage_for "srv-prod-db-01") scenarios = [sc] /\
    RiskScenario.severity sc = CRITICAL /\
    RiskScenario.detection_coverage sc == 60 /\
    "VULN-001" ∈ RiskScenario.correlated_vulnerability_ids sc /\
    "VULN-003" ∈ RiskScenario.correlated_vulnerability_ids sc.
Proof.
  split; [exact example_wf|]. split; [exact example_registered|].
  split; [exact example_two_critical|].
  destruct (multi_stage_scenario_emitted "srv-prod-db-01" example_world
              srv_prod_db_01 example_wf example_registered example_two_critical)
    as (scenarios & w' & sc & r & w1 & Hrun & _ & Hone & Hsev & _ & _ & _ & _
        & Hdet & Hsup).
  exists scenarios, w', sc.
  split; [exact Hrun|]. split; [exact Hone|]. split; [exact Hsev|].
  split; [exact Hdet|].
  split.
  - apply (Hsup "VULN-001" vuln_001); [|reflexivity|reflexivity].
    apply list_elem_of_In. simpl. tauto.
  - apply (Hsup "VULN-003" vuln_003); [|reflexivity|reflexivity].
    apply list_elem_of_In. simpl. tauto.
Defined.

(** C8 (amended).  Computing the risk of a registered asset twice in
    succession succeeds both times, and the second result is the first
    one in every field except [calculated_at], the creation timestamp,
    which holds the clock reading of its own call: the score written to
    the asset by the first call does not change the second result. *)
Theorem recomputation_identical_up_to_timestamp k w asset :
  registered w k asset ->
  exists r1 w1 r2 w2,
    calculate_asset_risk k w = Some (r1, w1) /\
    calculate_asset_risk k w1 = Some (r2, w2) /\
    r2 = RiskCalculationResult.with_calculated_at
           (RiskCalculationResult.calculated_at r2) r1.
Proof.
  intros Hreg.
  destruct (calculate_asset_risk_twice k w asset Hreg)
    as (r1 & w1 & r2 & w2 & H1 & H2 & Heq & _).
  exists r1, w1, r2, w2. split; [exact H1|]. split; [exact H2|].
  subst r2. reflexivity.
Qed.

Lemma recomputation_identical_up_to_timestamp_witness :
  registered example_world "srv-prod-db-01" srv_prod_db_01 /\
  exists r1 w1 r2 w2,
    calculate_asset_risk "srv-prod-db-01" example_world = Some (r1, w1) /\
    calculate_asset_risk "srv-prod-db-01" w1 = Some (r2, w2) /\
    r2 = RiskCalculationResult.with_calculated_at
           (RiskCalculationResult.calculated_at r2) r1.
Proof.
  split; [exact example_registered|].
  exact (recomputation_identical_up_to_timestamp "srv-prod-db-01" example_world
           srv_prod_db_01 example_registered).
Defined.

(** C8 as stated fails: on the example estate, whose clock advances
    between two readings, the two results of computing the production
    database's risk twice are different records. *)
Lemma recomputed_result_differs :
  exists r1 w1 r2 w2,
    calculate_asset_risk "srv-prod-db-01" example_world = Some (r1, w1) /\
    calculate_asset_risk "srv-prod-db-01" w1 = Some (r2, w2) /\
    r1 <> r2.
Proof.
  destruct (calculate_asset_risk_twice "srv-prod-db-01" example_world
              srv_prod_db_01 example_registered)
    as (r1 & w1 & r2 & w2 & H1 & H2 & Heq & Hat & Hclock).
  exists r1, w1, r2, w2. split; [exact H1|]. split; [exact H2|].
  intros Hsame. rewrite <- Hsame in Heq.
  apply (f_equal RiskCalculationResult.calculated_at) in Heq.
  cbn [RiskCalculationResult.calculated_at RiskCalculationResult.with_calculated_at] in Heq.
  rewrite Hat, Hclock in Heq. vm_compute in Heq. discriminate.
Qed.

Lemma asset_risk_only_writes_risk_score_witness :
  registered example_world "srv-prod-db-01" srv_prod_db_01 /\
  has_resolvable example_world srv_prod_db_01 /\
  exists r w' asset',
    calculate_asset_risk "srv-prod-db-01" example_world = Some (r, w') /\
    registered w' "srv-prod-db-01" asset' /\
    Asset.risk_score asset' = RiskCalculationResult.total_risk_score r /\
    same_except_risk_score srv_prod_db_01 asset' /\
    vulnerabilities (self w') = vulnerabilities (self example_world) /\
    threat_intel (self w') = threat_intel (self example_world).
Proof.
  split; [exact example_registered|]. split; [exact example_has_resolvable|].
  destruct (asset_risk_only_writes_risk_score "srv-prod-db-01" example_world
              srv_prod_db_01 example_registered example_has_resolvable)
    as (r & w' & asset' & Hrun & Hreg & Hscore & Hsame & _ & _ & Hv & Hti & _).
  exists r, w', asset'.
  split; [exact Hrun|]. split; [exact Hreg|]. split; [exact Hscore|].
  split; [exact Hsame|]. split; [exact Hv|exact Hti].
Defined.

(** * Further properties of the risk engine *)

(** ** Registering assets, vulnerabilities and threat intelligence *)

(** X1.  [add_asset] files the asset under its id: looking the id up gives
    the asset back and every other id is as before.  A known id keeps
    its place in the engine's order (the asset is replaced), a new one
    goes to the end; vulnerabilities, threat intelligence and scenarios
    are untouched. *)
Theorem add_asset_then_lookup asset e :
  let e' := add_asset asset e in
  Py.dict_get (Asset.id asset) (assets e') = Some asset /\
  (forall k, k <> Asset.id asset ->
     Py.dict_get k (assets e') = Py.dict_get k (assets e)) /\
  (Asset.id asset ∈ Py.keys (assets e) ->
     Py.keys (assets e') = Py.keys (assets e)) /\
  (Asset.id asset ∉ Py.keys (assets e) ->
     Py.keys (assets e') = (Py.keys (assets e) ++ [Asset.id asset])%list) /\
  vulnerabilities e' = vulnerabilities e /\
  threat_intel e' = threat_intel e /\
  risk_scenarios e' = risk_scenarios e.
Proof.
  cbv zeta. unfold add_asset. cbn [assets vulnerabilities threat_intel risk_scenarios with_assets].
  split; [rewrite dict_get_set, String.eqb_refl; reflexivity|].
  split.
  { intros k Hk. rewrite dict_get_set.
    destruct (String.eqb (Asset.id asset) k) eqn:E; [|reflexivity].
    apply String.eqb_eq in E. congruence. }
  split; [intros Hin; rewrite keys_dict_set, bool_decide_eq_true_2 by assumption; reflexivity|].
  split; [intros Hin; rewrite keys_dict_set, bool_decide_eq_false_2 by assumption; reflexivity|].
  repeat split.
Qed.

(** X2.  [add_vulnerability] files the vulnerability under its id: an asset
    listing that id now resolves it to this record, lists without the
    id resolve as before, and assets and threat intelligence are
    untouched. *)
Theorem add_vulnerability_then_resolve vulnerability e ids :
  let e' := add_vulnerability vulnerability e in
  resolve e' [Vulnerability.id vulnerability] = [vulnerability] /\
  (Vulnerability.id vulnerability ∉ ids -> resolve e' ids = resolve e ids) /\
  assets e' = assets e /\ threat_intel e' = threat_intel e.
Proof.
  cbv zeta. unfold add_vulnerability, resolve. cbn [assets vulnerabilities threat_intel].
  split; [cbn [omap list_omap]; rewrite dict_get_set, String.eqb_refl; reflexivity|].
  split; [|split; reflexivity].
  induction ids as [|i l IH]; intros Hnin; [reflexivity|].
  apply not_elem_of_cons in Hnin as [Hne Hnin].
  cbn [omap list_omap]. rewrite dict_get_set.
  destruct (String.eqb (Vulnerability.id vulnerability) i) eqn:E.
  { apply String.eqb_eq in E. congruence. }
  fold (omap (fun vuln_id => Py.dict_get vuln_id
          (Py.dict_set (Vulnerability.id vulnerability) vulnerability (vulnerabilities e))) l).
  fold (omap (fun vuln_id => Py.dict_get vuln_id (vulnerabilities e)) l).
  now rewrite (IH Hnin).
Qed.


(** ** What moves a vulnerability score *)

Lemma flag_free_nonneg e v :
  threat_intel_valid e -> 0 <= Vulnerability.cvss_score v -> 0 <= flag_free e v.
Proof.
  intros He Hc. unfold flag_free.
  assert (0 <= CVSS_MULTIPLIERS (Vulnerability.severity v))
    by (destruct (Vulnerability.severity v); simpl; lra).
  pose proof (vector_mult_pos (Vulnerability.attack_vector v)).
  assert (0 <= match known_threat e v with Some ti => 1.0 + ti * 0.5 | None => 1.0 end).
  { destruct (known_threat e v) as [x|] eqn:E; [|lra].
    pose proof (known_threat_valid e v x He E). lra. }
  repeat apply Qmult_le_0_compat; lra.
Qed.

Lemma score_with_flags e v ea ep pa :
  calculate_vulnerability_risk e (with_flags ea ep pa v)
  == Qmin (flag_free e v
           * (if ep then 1.5 else if ea then 1.3 else 1.0)
           * (if pa then 0.7 else 1.0)) 100.
Proof.
  unfold calculate_vulnerability_risk, flag_free, known_threat, with_flags. cbv zeta.
  cbn [Vulnerability.cvss_score Vulnerability.severity Vulnerability.exploit_public
       Vulnerability.exploit_available Vulnerability.patch_available
       Vulnerability.attack_vector Vulnerability.cve_id].
  apply Q.min_compat; [|reflexivity]. field.
Qed.

(** X4.  An available patch never raises a vulnerability's score; a known
    exploit never lowers it, and a public exploit counts at least as
    much as an available one. *)
Theorem patch_lowers_and_exploit_raises e v :
  threat_intel_valid e -> 0 <= Vulnerability.cvss_score v ->
  let score ea ep pa := calculate_vulnerability_risk e (with_flags ea ep pa v) in
  (forall ea ep, score ea ep true <= score ea ep false) /\
  (forall pa, score false false pa <= score true false pa) /\
  (forall ea pa, score true false pa <= score ea true pa).
Proof.
  intros He Hc score. subst score. cbv beta.
  pose proof (flag_free_nonneg e v He Hc) as Hf.
  split; [|split].
  - intros ea ep. rewrite !score_with_flags. apply min_100_le.
    assert (0 <= flag_free e v * (if ep then 1.5 else if ea then 1.3 else 1.0))
      by (apply Qmult_le_0_compat; [assumption|destruct ep, ea; lra]).
    lra.
  - intros pa. rewrite !score_with_flags. apply min_100_le.
    destruct pa; lra.
  - intros ea pa. rewrite !score_with_flags. apply min_100_le.
    destruct pa; lra.
Qed.

Lemma known_threat_without e v : known_threat (without_threat_intel e) v = None.
Proof.
  unfold known_threat, without_threat_intel. cbn [threat_intel].
  destruct (Py.truthy _); [|reflexivity].
  now destruct (Vulnerability.cve_id v).
Qed.

Lemma modifiers_without e v :
  modifiers e v
  == modifiers (without_threat_intel e) v
     * match known_threat e v with Some ti => 1.0 + ti * 0.5 | None => 1.0 end.
Proof. unfold modifiers. rewrite known_threat_without. field. Qed.

(** X5.  Threat intelligence never lowers a vulnerability's score and raises
    it by half at most; without a CVE id it is not consulted. *)
Theorem threat_intelligence_raises_score e v :
  threat_intel_valid e -> 0 <= Vulnerability.cvss_score v ->
  let plain := calculate_vulnerability_risk (without_threat_intel e) v in
  let informed := calculate_vulnerability_risk e v in
  plain <= informed /\ informed <= 1.5 * plain /\
  (Py.truthy (Vulnerability.cve_id v) = false -> informed = plain).
Proof.
  intros He Hc. cbv zeta.
  assert (He0 : threat_intel_valid (without_threat_intel e))
    by (intros c x H; discriminate).
  pose proof (modifiers_nonneg (without_threat_intel e) v He0) as Hm.
  assert (Hb : 0 <= Vulnerability.cvss_score v * 10 * modifiers (without_threat_intel e) v)
    by (apply Qmult_le_0_compat; lra).
  assert (Ht : 1 <= match known_threat e v with Some ti => 1.0 + ti * 0.5 | None => 1.0 end
               <= 1.5).
  { destruct (known_threat e v) as [x|] eqn:E; [|lra].
    pose proof (known_threat_valid e v x He E). lra. }
  split; [|split].
  - rewrite !calculate_vulnerability_risk_eq. apply Q.min_le_compat_r.
    rewrite (modifiers_without e v). nra.
  - rewrite !calculate_vulnerability_risk_eq. apply min_100_scale; [assumption|].
    rewrite (modifiers_without e v). nra.
  - intros Hnone. unfold calculate_vulnerability_risk, known_threat. cbv zeta.
    cbn [without_threat_intel threat_intel]. rewrite Hnone. reflexivity.
Qed.

(** ** Exposure and threat factor *)

Lemma patch_score_cases s :
  (s = "Current" /\ Py.get patch_scores s 20.0 = 0.0) \/
  (s <> "Current" /\ 15 <= Py.get patch_scores s 20.0 <= 30).
Proof.
  unfold Py.get, patch_scores. cbn [Py.dict_get].
  destruct (String.eqb_spec "Current" s) as [<-|Hne]; [left; split; reflexivity|].
  right. split; [congruence|].
  repeat match goal with
         | |- context [String.eqb ?a ?k] => destruct (String.eqb a k)
         end; cbn [from_option id]; lra.
Qed.

Lemma av_score_cases s :
  (s = "Active" /\ Py.get av_scores s 15.0 = 0.0) \/
  (s <> "Active" /\ 10 <= Py.get av_scores s 15.0 <= 20).
Proof.
  unfold Py.get, av_scores. cbn [Py.dict_get].
  destruct (String.eqb_spec "Active" s) as [<-|Hne]; [left; split; reflexivity|].
  right. split; [congruence|].
  repeat match goal with
         | |- context [String.eqb ?a ?k] => destruct (String.eqb a k)
         end; cbn [from_option id]; lra.
Qed.

(** X6.  The exposure risk is 0 exactly for an asset that is not exposed,
    holds no sensitive data, is patched to Current, runs an Active
    antivirus and has its firewall on; any other asset scores at least
    10. *)
Theorem exposure_risk_zero_iff_hardened asset :
  (_calculate_exposure_risk asset == 0 <-> hardened asset) /\
  (~ hardened asset -> 10 <= _calculate_exposure_risk asset).
Proof.
  assert (Hcases :
    (hardened asset /\ _calculate_exposure_risk asset == 0) \/
    (~ hardened asset /\ 10 <= _calculate_exposure_risk asset)).
  { unfold hardened, _calculate_exposure_risk. cbv zeta.
    destruct (patch_score_cases (Asset.patch_level asset)) as [[Hp ->]|[Hp Hpr]],
             (av_score_cases (Asset.antivirus_status asset)) as [[Ha ->]|[Ha Har]],
             (Asset.exposed_to_internet asset), (Asset.contains_sensitive_data asset),
             (Asset.firewall_enabled asset); cbn [negb];
      first [ left; split; [repeat split; assumption | reflexivity]
            | right; split; [intros (? & ? & ? & ? & ?); congruence
                            | apply Q.min_glb; lra] ]. }
  split.
  - destruct Hcases as [[Hh Hz]|[Hh Hz]]; split; intros H; try assumption.
    + exfalso. rewrite H in Hz. lra.
    + contradiction.
  - destruct Hcases as [[Hh Hz]|[Hh Hz]]; intros H; [contradiction|assumption].
Qed.

(** X7.  The threat factor is 1 plus the highest threat score known for a
    vulnerability of the list, and 1 when none is known. *)
Theorem threat_factor_is_highest_known_threat e vulns :
  ((forall v, v ∈ vulns -> known_threat e v = None) ->
   _calculate_threat_factor e vulns = 1.0) /\
  (forall v x, v ∈ vulns -> known_threat e v = Some x ->
     1.0 + x <= _calculate_threat_factor e vulns /\
     exists v' x', v' ∈ vulns /\ known_threat e v' = Some x' /\
                   _calculate_threat_factor e vulns = 1.0 + x').
Proof.
  unfold _calculate_threat_factor. split.
  - intros Hnone. destruct vulns as [|v0 vs]; [reflexivity|]. cbv zeta.
    assert (E : omap (known_threat e) (v0 :: vs) = []).
    { apply elem_of_nil_inv. intros x Hx.
      apply list_elem_of_omap in Hx as (v & Hv & Hk). rewrite (Hnone v Hv) in Hk.
      discriminate. }
    now rewrite E.
  - intros v x Hv Hk. destruct vulns as [|v0 vs]; [now apply elem_of_nil in Hv|].
    cbv zeta.
    assert (Hx : x ∈ omap (known_threat e) (v0 :: vs))
      by (apply list_elem_of_omap; eauto).
    destruct (omap (known_threat e) (v0 :: vs)) as [|y ys] eqn:E;
      [now apply elem_of_nil in Hx|].
    cbn [Py.max].
    destruct (fold_left_Qmax_ge ys y) as [Hy Hys]. split.
    + apply elem_of_cons in Hx as [->|Hx]; [lra|].
      rewrite Forall_forall in Hys. specialize (Hys x Hx). lra.
    + pose proof (fold_left_Qmax_In ys y) as Hin.
      apply list_elem_of_In in Hin. rewrite <- E in Hin.
      apply list_elem_of_omap in Hin as (v' & Hv' & Hk').
      exists v', (fold_left Qmax ys y). repeat split; assumption.
Qed.

(** ** The vulnerability component *)

Lemma insert_desc_sorted {A} (key : A -> Q) x l :
  StronglySorted (fun a b => key b <= key a) l ->
  StronglySorted (fun a b => key b <= key a) (Py.insert_desc key x l).
Proof.
  induction 1 as [|y l Hs IH Hy]; simpl; [repeat constructor|].
  destruct (Qle_bool (key y) (key x)) eqn:E.
  - apply Qle_bool_iff in E. constructor; [constructor; assumption|].
    constructor; [assumption|].
    eapply Forall_impl; [exact Hy|]. intros z Hz. cbv beta in Hz. lra.
  - apply Qle_bool_false in E. constructor; [assumption|].
    rewrite insert_desc_Permutation. constructor; [lra|assumption].
Qed.

Lemma sorted_desc_sorted {A} (key : A -> Q) l :
  StronglySorted (fun a b => key b <= key a) (Py.sorted_desc key l).
Proof.
  induction l as [|x l IH]; simpl; [constructor|]. now apply insert_desc_sorted.
Qed.





Lemma known_threat_add_other c x e v :
  Vulnerability.cve_id v <> Some c ->
  known_threat (add_threat_intelligence c x e) v = known_threat e v.
Proof.
  intros Hne. unfold known_threat, add_threat_intelligence. cbn [threat_intel].
  destruct (Py.truthy _); [|reflexivity].
  destruct (Vulnerability.cve_id v) as [c'|]; [|reflexivity].
  cbn [mbind option_bind]. rewrite dict_get_set.
  destruct (String.eqb c c') eqn:E; [|reflexivity].
  apply String.eqb_eq in E. congruence.
Qed.

(** X10.  Threat intelligence about a CVE that none of an asset's resolvable
    vulnerabilities carries does not change the asset's result. *)
Theorem unrelated_threat_intelligence_changes_nothing
    k w asset cve_id threat_score :
  registered w k asset ->
  Forall (fun v => Vulnerability.cve_id v <> Some cve_id)
         (resolve (self w) (Asset.vulnerability_ids asset)) ->
  exists r w1 w2,
    calculate_asset_risk k w = Some (r, w1) /\
    calculate_asset_risk k
      (World (add_threat_intelligence cve_id threat_score (self w)) (clock w))
    = Some (r, w2).
Proof.
  intros Hreg Hall.
  set (e2 := add_threat_intelligence cve_id threat_score (self w)).
  assert (Hkt : Forall (fun v => known_threat e2 v = known_threat (self w) v)
                       (resolve (self w) (Asset.vulnerability_ids asset))).
  { eapply Forall_impl; [exact Hall|]. intros v Hv. now apply known_threat_add_other. }
  assert (Hres : resolve e2 (Asset.vulnerability_ids asset)
                 = resolve (self w) (Asset.vulnerability_ids asset)) by reflexivity.
  destruct (resolve (self w) (Asset.vulnerability_ids asset)) as [|v0 vs] eqn:Hr.
  - eexists _, _, _.
    split; [apply calculate_asset_risk_unscored; eassumption|].
    rewrite (calculate_asset_risk_unscored k _ asset); [reflexivity|exact Hreg|exact Hres].
  - assert (Hne : has_resolvable w asset) by (unfold has_resolvable; congruence).
    destruct (calculate_asset_risk_nonempty k w asset Hreg Hne) as (vr & Hvr & Hrun).
    cbv zeta in Hrun.
    assert (Hscores : sorted_scores e2 asset = sorted_scores (self w) asset).
    { unfold sorted_scores. rewrite Hres, Hr. f_equal. apply map_ext_Forall_eq.
      eapply Forall_impl; [exact Hkt|]. intros v Hv. cbv beta in Hv.
      unfold calculate_vulnerability_risk. now rewrite Hv. }
    assert (Hsame : result_of e2 asset vr (Py.read (clock w))
                    = result_of (self w) asset vr (Py.read (clock w))).
    { unfold result_of. rewrite Hres, Hr. cbv zeta.
      assert (Htf : _calculate_threat_factor e2 (v0 :: vs)
                    = _calculate_threat_factor (self w) (v0 :: vs)).
      { unfold _calculate_threat_factor. now rewrite (omap_ext_Forall _ _ _ Hkt). }
      rewrite Htf. reflexivity. }
    eexists _, _, _. split; [exact Hrun|].
    rewrite (calculate_asset_risk_scored k (World e2 (clock w)) asset vr).
    + cbn [self clock]. rewrite Hsame. reflexivity.
    + exact Hreg.
    + cbn [self]. rewrite Hres. discriminate.
    + cbn [self]. rewrite Hscores. exact Hvr.
Qed.

(** ** Recommendations *)

(** X11.  The list of recommendations is capped at five.  Whenever the asset
    has a Critical vulnerability the urgent advice comes first; and when
    the five advices on Critical, High and publicly exploited
    vulnerabilities, internet exposure and patch level all apply, they
    are the whole answer: the antivirus and firewall advices are cut
    off, even for an asset without antivirus or firewall. *)
Theorem recommendations_capped_at_five asset vulns :
  (length (_generate_recommendations asset vulns) <= 5)%nat /\
  (List.filter is_critical vulns <> [] ->
   head (_generate_recommendations asset vulns)
   = Some ("URGENT: Patch " +:+ pretty (length (List.filter is_critical vulns))
           +:+ " critical vulnerabilities immediately")) /\
  (List.filter is_critical vulns <> [] ->
   List.filter is_high vulns <> [] ->
   List.filter Vulnerability.exploit_public vulns <> [] ->
   Asset.exposed_to_internet asset = true ->
   Asset.patch_level asset = "Outdated" \/ Asset.patch_level asset = "Critical" ->
   _generate_recommendations asset vulns
   = ["URGENT: Patch " +:+ pretty (length (List.filter is_critical vulns))
        +:+ " critical vulnerabilities immediately";
      "Prioritize patching " +:+ pretty (length (List.filter is_high vulns))
        +:+ " high-severity vulnerabilities";
      "Address " +:+ pretty (length (List.filter Vulnerability.exploit_public vulns))
        +:+ " vulnerabilities with public exploits";
      "Consider reducing internet exposure or implementing additional network controls";
      "Update system patches to current level"]).
Proof.
  split; [|split].
  - unfold _generate_recommendations. cbv zeta. rewrite length_take. apply Nat.le_min_l.
  - intros Hc. unfold _generate_recommendations. cbv zeta.
    rewrite (nonempty_true _ Hc). unfold Py.append. cbn [app].
    generalize ("URGENT: Patch " +:+ pretty (length (List.filter is_critical vulns))
                +:+ " critical vulnerabilities immediately").
    generalize ("Prioritize patching " +:+ pretty (length (List.filter is_high vulns))
                +:+ " high-severity vulnerabilities").
    generalize ("Address " +:+ pretty (length (List.filter Vulnerability.exploit_public vulns))
                +:+ " vulnerabilities with public exploits").
    intros s3 s2 s1.
    destruct (Py.nonempty (List.filter is_high vulns)),
      (Py.nonempty (List.filter Vulnerability.exploit_public vulns)),
      (Asset.exposed_to_internet asset),
      (String.eqb (Asset.patch_level asset) "Outdated"
       || String.eqb (Asset.patch_level asset) "Critical"),
      (negb (String.eqb (Asset.antivirus_status asset) "Active")),
      (negb (Asset.firewall_enabled asset)); reflexivity.
  - intros Hc Hh Hp He Hl. unfold _generate_recommendations. cbv zeta.
    rewrite (nonempty_true _ Hc), (nonempty_true _ Hh), (nonempty_true _ Hp), He.
    assert (Hpl : String.eqb (Asset.patch_level asset) "Outdated"
                  || String.eqb (Asset.patch_level asset) "Critical" = true).
    { destruct Hl as [-> | ->]; reflexivity. }
    rewrite Hpl. unfold Py.append. cbn [app].
    generalize ("URGENT: Patch " +:+ pretty (length (List.filter is_critical vulns))
                +:+ " critical vulnerabilities immediately").
    generalize ("Prioritize patching " +:+ pretty (length (List.filter is_high vulns))
                +:+ " high-severity vulnerabilities").
    generalize ("Address " +:+ pretty (length (List.filter Vulnerability.exploit_public vulns))
                +:+ " vulnerabilities with public exploits").
    intros s3 s2 s1.
    destruct (negb (String.eqb (Asset.antivirus_status asset) "Active")),
      (negb (Asset.firewall_enabled asset)); reflexivity.
Qed.

(** ** Scoring the whole estate *)

(** One call in a world that differs from [w] in stored scores and clock. *)
Lemma calculate_asset_risk_spec w w' k a :
  registered w k a -> same_inputs w w' ->
  exists r w'',
    calculate_asset_risk k w' = Some (r, w'') /\ same_inputs w w'' /\
    RiskCalculationResult.asset_id r = Asset.id a.
Proof.
  intros Hreg Hs.
  destruct (same_inputs_registered w w' k a Hreg Hs) as (a' & Hreg' & Hu).
  destruct (resolve (self w') (Asset.vulnerability_ids a')) as [|v0 vs] eqn:Hres.
  - eexists _, _.
    split; [apply calculate_asset_risk_unscored; eassumption|].
    split; [exact Hs|]. cbn [RiskCalculationResult.asset_id]. now apply unscored_id.
  - assert (Hne : has_resolvable w' a') by (unfold has_resolvable; congruence).
    destruct (calculate_asset_risk_nonempty k w' a' Hreg' Hne) as (vr & Hvr & Hrun).
    cbv zeta in Hrun. eexists _, _. split; [exact Hrun|].
    split; [apply same_inputs_store; exact Hs|].
    unfold result_of. cbn [RiskCalculationResult.asset_id]. now apply unscored_id.
Qed.

Lemma mapM_calculate_spec w l :
  Forall (fun k => exists a, registered w k a) l ->
  forall w', same_inputs w w' ->
  exists rs w'',
    mapM calculate_asset_risk l w' = Some (rs, w'') /\ same_inputs w w'' /\
    Forall2 (fun k r => exists a, registered w k a
                                  /\ RiskCalculationResult.asset_id r = Asset.id a) l rs.
Proof.
  induction 1 as [|k l [a Hreg] _ IH]; intros w' Hs.
  - eexists _, _. split; [reflexivity|]. split; [exact Hs|constructor].
  - destruct (calculate_asset_risk_spec w w' k a Hreg Hs) as (r & w1 & Hrun & Hs1 & Hid).
    destruct (IH w1 Hs1) as (rs & w2 & Hrun2 & Hs2 & Hall).
    rewrite mapM_cons_run, bind_run, Hrun, bind_run, Hrun2, mret_run.
    eexists _, _. split; [reflexivity|]. split; [exact Hs2|].
    constructor; [eauto|assumption].
Qed.

Lemma registered_keys w :
  Forall (fun k => exists a, registered w k a) (Py.keys (assets (self w))).
Proof. apply Forall_forall. intros k Hin. now apply dict_get_of_key. Qed.

(** X12.  Scoring the whole estate always completes.  It returns one result
    per asset, the riskiest first, and changes nothing in the engine
    but the scores stored on the assets. *)
Theorem calculate_all_assets_sorted_by_risk w :
  wf_engine (self w) ->
  exists results w',
    calculate_all_assets w = Some (results, w') /\
    Permutation (map RiskCalculationResult.asset_id results)
                (Py.keys (assets (self w))) /\
    StronglySorted
      (fun r1 r2 => RiskCalculationResult.total_risk_score r2
                    <= RiskCalculationResult.total_risk_score r1) results /\
    same_inputs w w'.
Proof.
  intros (Hnd & Hid & _).
  destruct (mapM_calculate_spec w _ (registered_keys w) w (same_inputs_refl w))
    as (rs & w' & Hrun & Hs & Hall).
  unfold calculate_all_assets. rewrite bind_run. unfold gets.
  rewrite bind_run, Hrun, mret_run.
  eexists _, _. split; [reflexivity|].
  split; [|split; [apply sorted_desc_sorted|exact Hs]].
  rewrite sorted_desc_Permutation.
  assert (E : map RiskCalculationResult.asset_id rs = Py.keys (assets (self w))).
  { clear Hrun Hnd. induction Hall as [|k r l rs' (a & Hreg & Hr) _ IH]; [reflexivity|].
    cbn [map]. rewrite IH, Hr, (Hid k a Hreg). reflexivity. }
  now rewrite E.
Qed.

Lemma calculate_asset_risk_step w w' k a :
  registered w k a -> same_inputs w w' ->
  exists r w'',
    calculate_asset_risk k w' = Some (r, w'') /\ same_inputs w w'' /\
    RiskCalculationResult.asset_id r = Asset.id a /\
    (forall k', k' <> k ->
       Py.dict_get k' (assets (self w'')) = Py.dict_get k' (assets (self w'))) /\
    (has_resolvable w a ->
     exists a'', registered w'' k a''
       /\ Asset._risk_score a'' = Some (RiskCalculationResult.total_risk_score r)) /\
    (~ has_resolvable w a ->
     RiskCalculationResult.total_risk_score r == 0 /\ self w'' = self w').
Proof.
  intros Hreg Hs.
  destruct (same_inputs_registered w w' k a Hreg Hs) as (a' & Hreg' & Hu).
  pose proof (resolve_same w w' a a' Hs Hu) as Hsame.
  destruct (resolve (self w') (Asset.vulnerability_ids a')) as [|v0 vs] eqn:Hres.
  - eexists _, _.
    split; [apply calculate_asset_risk_unscored; eassumption|].
    split; [exact Hs|]. cbn [RiskCalculationResult.asset_id self].
    split; [now apply unscored_id|]. split; [reflexivity|].
    split.
    + intros Hne. exfalso. apply Hne. now symmetry.
    + intros _. split; reflexivity.
  - assert (Hne : has_resolvable w' a') by (unfold has_resolvable; congruence).
    destruct (calculate_asset_risk_nonempty k w' a' Hreg' Hne) as (vr & Hvr & Hrun).
    cbv zeta in Hrun. eexists _, _. split; [exact Hrun|].
    split; [apply same_inputs_store; exact Hs|].
    unfold result_of at 1. cbn [RiskCalculationResult.asset_id].
    split; [now apply unscored_id|].
    cbn [self assets with_assets].
    split; [intros k' Hk'; now apply dict_get_alter_ne|].
    split.
    + intros _. eexists. split; [apply dict_get_alter_eq; exact Hreg'|]. reflexivity.
    + intros Hno. exfalso. apply Hno. unfold has_resolvable. rewrite <- Hsame. discriminate.
Qed.

Lemma mapM_calculate_stores w l :
  NoDup l -> Forall (fun k => exists a, registered w k a) l ->
  forall w', same_inputs w w' ->
  exists rs w'',
    mapM calculate_asset_risk l w' = Some (rs, w'') /\ same_inputs w w'' /\
    (forall k', k' ∉ l ->
       Py.dict_get k' (assets (self w'')) = Py.dict_get k' (assets (self w'))) /\
    Forall2 (fun k r => exists a,
               registered w k a /\
               RiskCalculationResult.asset_id r = Asset.id a /\
               (has_resolvable w a ->
                exists a'', registered w'' k a''
                  /\ Asset._risk_score a''
                     = Some (RiskCalculationResult.total_risk_score r)) /\
               (~ has_resolvable w a ->
                RiskCalculationResult.total_risk_score r == 0 /\
                Py.dict_get k (assets (self w'')) = Py.dict_get k (assets (self w'))))
            l rs.
Proof.
  intros Hnd Hall. revert Hnd.
  induction Hall as [|k l [a Hreg] _ IH]; intros Hnd w' Hs.
  - eexists _, _. split; [reflexivity|]. split; [exact Hs|].
    split; [reflexivity|constructor].
  - apply NoDup_cons in Hnd as [Hnin Hnd].
    destruct (calculate_asset_risk_step w w' k a Hreg Hs)
      as (r & w1 & Hrun & Hs1 & Hid & Hframe & Hyes & Hno).
    destruct (IH Hnd w1 Hs1) as (rs & w2 & Hrun2 & Hs2 & Hframe2 & Hall2).
    rewrite mapM_cons_run, bind_run, Hrun, bind_run, Hrun2, mret_run.
    eexists _, _. split; [reflexivity|]. split; [exact Hs2|].
    split.
    { intros k' Hk'. apply not_elem_of_cons in Hk' as [Hk1 Hk2].
      rewrite (Hframe2 k' Hk2). now apply Hframe. }
    constructor.
    + exists a. split; [exact Hreg|]. split; [exact Hid|]. split.
      * intros Hne. destruct (Hyes Hne) as (a'' & Hreg'' & Hsc).
        exists a''. split; [|exact Hsc]. unfold registered.
        rewrite (Hframe2 k Hnin). exact Hreg''.
      * intros Hne. destruct (Hno Hne) as [Hz Hself]. split; [exact Hz|].
        rewrite (Hframe2 k Hnin). now rewrite Hself.
    + apply (Forall2_impl_in _ _ _ _ Hall2).
      intros k0 r0 Hk0 (a0 & Hreg0 & Hid0 & Hyes0 & Hno0).
      exists a0. split; [exact Hreg0|]. split; [exact Hid0|]. split; [exact Hyes0|].
      intros Hne. destruct (Hno0 Hne) as [Hz Hsame]. split; [exact Hz|].
      rewrite Hsame. apply Hframe. intros ->. contradiction.
Qed.

(** X13.  After the whole estate is scored, every asset with a resolvable
    vulnerability carries the total of its result as stored score.  An
    asset without one gets a result of 0 but is left as it was: a score
    stored earlier is not reset. *)
Theorem calculate_all_assets_stores_scores k w asset :
  wf_engine (self w) -> registered w k asset ->
  exists results w' r,
    calculate_all_assets w = Some (results, w') /\
    r ∈ results /\
    RiskCalculationResult.asset_id r = Asset.id asset /\
    (has_resolvable w asset ->
     exists asset', registered w' k asset' /\
       Asset.risk_score asset' = RiskCalculationResult.total_risk_score r) /\
    (~ has_resolvable w asset ->
     RiskCalculationResult.total_risk_score r == 0 /\ registered w' k asset).
Proof.
  intros (Hnd & _ & _) Hreg.
  destruct (mapM_calculate_stores w _ Hnd (registered_keys w) w (same_inputs_refl w))
    as (rs & w' & Hrun & Hs & _ & Hall).
  destruct (Forall2_elem_of_l _ _ _ k Hall) as (r & Hr & a & Hreg' & Hid & Hyes & Hno).
  { eapply dict_get_key. exact Hreg. }
  assert (a = asset) by (unfold registered in *; congruence). subst a.
  unfold calculate_all_assets. rewrite bind_run. unfold gets.
  rewrite bind_run, Hrun, mret_run.
  exists (Py.sorted_desc RiskCalculationResult.total_risk_score rs), w', r.
  split; [reflexivity|].
  split; [now rewrite sorted_desc_Permutation|].
  split; [exact Hid|]. split.
  - intros Hne. destruct (Hyes Hne) as (a'' & Hreg'' & Hsc).
    exists a''. split; [exact Hreg''|]. unfold Asset.risk_score. now rewrite Hsc.
  - intros Hne. destruct (Hno Hne) as [Hz Hsame]. split; [exact Hz|].
    unfold registered. now rewrite Hsame.
Qed.

Lemma bucket_counts_partition (l : list Asset.t) :
  (Py.count (score_ge 70) l
   + Py.count (fun a => score_ge 40 a && score_lt 70 a) l
   + Py.count (score_lt 40) l = length l)%nat /\
  (Py.count (score_ge 90) l <= Py.count (score_ge 70) l)%nat.
Proof.
  unfold Py.count. induction l as [|a l [IH1 IH2]]; [split; reflexivity|].
  cbn [List.filter].
  change (score_lt 70 a) with (negb (score_ge 70 a)).
  change (score_lt 40 a) with (negb (score_ge 40 a)).
  destruct (score_ge 70 a) eqn:E70, (score_ge 40 a) eqn:E40, (score_ge 90 a) eqn:E90;
    cbn [negb andb length]; try (split; lia);
    exfalso; unfold score_ge in *;
    repeat match goal with
           | H : Qle_bool _ _ = true |- _ => apply Qle_bool_iff in H
           | H : Qle_bool ?x ?y = false |- _ =>
             assert (~ x <= y) by (intros Hle; apply Qle_bool_iff in Hle; congruence);
             clear H
           end; lra.
Qed.

(** X14.  The summary of an engine with at least one asset counts every
    asset in exactly one of high (70 and above), medium and low, so
    these three counts add up to the number of assets; the critical
    count is part of the high count. *)
Theorem risk_summary_high_medium_low_partition e :
  assets e <> [] ->
  exists summary total critical high medium low,
    get_risk_summary e = Some summary /\
    Py.dict_get "total_assets" summary = Some total /\
    Py.dict_get "critical_assets" summary = Some critical /\
    Py.dict_get "high_risk_assets" summary = Some high /\
    Py.dict_get "medium_risk_assets" summary = Some medium /\
    Py.dict_get "low_risk_assets" summary = Some low /\
    total = Py.len (assets e) /\
    high + medium + low == total /\
    critical <= high.
Proof.
  intros Hne. unfold get_risk_summary.
  destruct (assets e) as [|kv d] eqn:Ha; [congruence|]. cbv zeta.
  rewrite div_Some.
  2:{ unfold Py.len. rewrite length_map. simpl length. rewrite of_nat_S.
      pose proof (of_nat_nonneg (length (Py.values d))). lra. }
  cbn [mbind option_bind].
  eexists _, _, _, _, _, _. split; [reflexivity|].
  do 5 (split; [reflexivity|]). split; [reflexivity|].
  destruct (bucket_counts_partition (Py.values (kv :: d))) as [H1 H2].
  split.
  - rewrite <- !of_nat_plus, H1. unfold Py.len, Py.values. now rewrite length_map.
  - now apply of_nat_le.
Qed.

(** ** Scenarios *)

Lemma create_breach_run_full w w' k a :
  registered w k a -> same_inputs w w' ->
  exists sc w'',
    _create_internet_breach_scenario k (critical_vulnerabilities (self w) a) w'
    = Some (sc, w'') /\
    same_inputs w w'' /\ breach_post (self w) a sc.
Proof.
  intros Hreg Hs.
  destruct (same_inputs_registered w w' k a Hreg Hs) as (a' & Hreg' & Hu).
  unfold _create_internet_breach_scenario.
  rewrite bind_run. unfold deref, lift. rewrite Hreg'.
  rewrite bind_run. unfold datetime_now at 1.
  rewrite bind_run. unfold datetime_now at 1. cbn [self clock].
  rewrite mret_run.
  eexists _, _. split; [reflexivity|].
  split; [exact Hs|].
  unfold breach_post.
  cbn [RiskScenario.id RiskScenario.category RiskScenario.severity
       RiskScenario.likelihood RiskScenario.impact RiskScenario.affected_asset_ids
       RiskScenario.correlated_vulnerability_ids RiskScenario.business_risk_score
       RiskScenario.detection_coverage].
  rewrite (unscored_id a a' Hu). repeat split.
Qed.

Lemma scenarios_of_asset_shape w w' k a :
  registered w k a -> same_inputs w w' ->
  exists scs w'',
    scenarios_of_asset k w' = Some (scs, w'') /\ same_inputs w w'' /\
    asset_scenarios_shape (self w) a scs.
Proof.
  intros Hreg Hs.
  destruct (same_inputs_registered w w' k a Hreg Hs) as (a' & Hreg' & Hu).
  assert (Hexp : Asset.exposed_to_internet a' = Asset.exposed_to_internet a).
  { change (Asset.exposed_to_internet (unscored a') = Asset.exposed_to_internet (unscored a)).
    now rewrite Hu. }
  unfold scenarios_of_asset.
  rewrite bind_run. unfold deref, lift. rewrite Hreg'.
  rewrite bind_run. unfold gets.
  rewrite (resolve_same w w' a a' Hs Hu), Hexp.
  unfold asset_scenarios_shape.
  pose proof (fun w1 => create_breach_run_full w w1 k a Hreg) as Hbreach.
  unfold critical_vulnerabilities in *.
  destruct (resolve (self w) (Asset.vulnerability_ids a)) as [|v0 vs] eqn:Hres.
  - rewrite mret_run. eexists _, _. split; [reflexivity|]. split; [exact Hs|].
    exists [], []. cbn [List.filter length Py.nonempty]. rewrite andb_false_r.
    repeat split.
  - assert (Hne : has_resolvable w a) by (unfold has_resolvable; congruence).
    cbv zeta. set (crit := List.filter is_critical (v0 :: vs)) in *.
    rewrite bind_run.
    destruct (2 <=? length crit)%nat eqn:E2.
    + destruct (create_exploitation_run w w' k a crit Hreg Hs Hne)
        as (sc & w1 & Hrun & Hs1 & Hcat & Hsev & Hlik & Himp & Haff & Hcor & Hbus & Hdet).
      rewrite bind_run, Hrun, mret_run. rewrite bind_run.
      assert (Hms : multi_stage_post (self w) a sc).
      { unfold multi_stage_post, critical_vulnerabilities. rewrite Hres.
        repeat split; assumption. }
      destruct (Asset.exposed_to_internet a && Py.nonempty crit) eqn:Eb.
      * destruct (Hbreach w1 Hs1) as (sb & w2 & Hrunb & Hs2 & Hpost).
        rewrite bind_run, Hrunb, !mret_run.
        eexists _, _. split; [reflexivity|]. split; [exact Hs2|].
        exists [sc], [sb]. split; [reflexivity|]. split; eauto.
      * rewrite !mret_run.
        eexists _, _. split; [reflexivity|]. split; [exact Hs1|].
        exists [sc], []. split; [reflexivity|]. split; eauto.
    + rewrite mret_run, bind_run.
      destruct (Asset.exposed_to_internet a && Py.nonempty crit) eqn:Eb.
      * destruct (Hbreach w' Hs) as (sb & w2 & Hrunb & Hs2 & Hpost).
        rewrite bind_run, Hrunb, !mret_run.
        eexists _, _. split; [reflexivity|]. split; [exact Hs2|].
        exists [], [sb]. split; [reflexivity|]. split; eauto.
      * rewrite !mret_run.
        eexists _, _. split; [reflexivity|]. split; [exact Hs|].
        exists [], []. repeat split.
Qed.

(** [group_by_location] files every asset under its location, keeping
    the order. *)
Lemma group_by_location_step l : forall groups seen,
  NoDup (Py.keys groups) ->
  (forall loc, Py.dict_get loc groups
     = match List.filter (fun a => String.eqb (location_of a) loc) seen with
       | [] => None
       | ms => Some ms
       end) ->
  let groups' :=
    fold_left
      (fun location_groups asset =>
         let location := Py.or_else (Asset.location asset) "Unknown" in
         match Py.dict_get location location_groups with
         | None => Py.dict_set location [asset] location_groups
         | Some members =>
           Py.dict_set location (Py.append members asset) location_groups
         end) l groups in
  NoDup (Py.keys groups') /\
  forall loc, Py.dict_get loc groups'
    = match List.filter (fun a => String.eqb (location_of a) loc) (seen ++ l) with
      | [] => None
      | ms => Some ms
      end.
Proof.
  induction l as [|a l IH]; intros groups seen Hnd Hget; cbv zeta.
  - rewrite app_nil_r. split; assumption.
  - cbn [fold_left]. cbv zeta.
    replace (seen ++ a :: l)%list with ((seen ++ [a]) ++ l)%list
      by (rewrite <- app_assoc; reflexivity).
    apply IH.
    + destruct (Py.dict_get _ groups) eqn:E; rewrite keys_dict_set;
        case_bool_decide; try assumption;
        (apply NoDup_app; split; [assumption|]; split; [|apply NoDup_singleton];
         intros x Hx Hx'; apply list_elem_of_singleton in Hx'; congruence).
    + intros loc. rewrite filter_snoc. fold (location_of a).
      pose proof (Hget (location_of a)) as Ha. pose proof (Hget loc) as Hl.
      destruct (String.eqb (location_of a) loc) eqn:E.
      * apply String.eqb_eq in E. subst loc.
        destruct (Py.dict_get (location_of a) groups) as [ms|] eqn:Eg;
          rewrite dict_get_set, String.eqb_refl;
          destruct (List.filter _ seen) as [|m ms']; try discriminate.
        -- injection Ha as ->. reflexivity.
        -- reflexivity.
      * rewrite app_nil_r.
        destruct (Py.dict_get (location_of a) groups) as [ms|] eqn:Eg;
          rewrite dict_get_set, E; exact Hl.
Qed.

Lemma group_by_location_spec l :
  NoDup (Py.keys (group_by_location l)) /\
  forall loc, Py.dict_get loc (group_by_location l)
    = match List.filter (fun a => String.eqb (location_of a) loc) l with
      | [] => None
      | ms => Some ms
      end.
Proof.
  apply (group_by_location_step l [] []); [constructor|].
  intros loc. reflexivity.
Qed.

Lemma lateral_scenario_of_full location members w :
  exists scs w',
    lateral_scenario_of (location, members) w = Some (scs, w') /\ self w' = self w /\
    (if (2 <=? length (List.filter is_high_risk members))%nat
     then exists sc, scs = [sc]
                     /\ lateral_post location (List.filter is_high_risk members) sc
     else scs = []).
Proof.
  unfold lateral_scenario_of.
  pose proof (List.filter_length_le is_high_risk members) as Hle.
  destruct (length members <? 2)%nat eqn:E.
  { apply Nat.ltb_lt in E.
    eexists _, _. split; [reflexivity|]. split; [reflexivity|].
    rewrite (proj2 (Nat.leb_gt _ _)) by lia. reflexivity. }
  cbv zeta. destruct (2 <=? length (List.filter is_high_risk members))%nat.
  - eexists _, _. split; [reflexivity|]. split; [reflexivity|].
    eexists. split; [reflexivity|]. repeat split.
  - eexists _, _. split; [reflexivity|]. split; [reflexivity|reflexivity].
Qed.

Lemma mapM_lateral_full gs w :
  exists per w',
    mapM lateral_scenario_of gs w = Some (per, w') /\ self w' = self w /\
    Forall2 (fun g scs =>
               if (2 <=? length (List.filter is_high_risk (snd g)))%nat
               then exists sc, scs = [sc]
                    /\ lateral_post (fst g) (List.filter is_high_risk (snd g)) sc
               else scs = []) gs per.
Proof.
  revert w. induction gs as [|[location members] gs IH]; intros w.
  - eexists _, _. split; [reflexivity|]. split; [reflexivity|constructor].
  - destruct (lateral_scenario_of_full location members w) as (scs & w1 & Hrun & Hself & Hpost).
    destruct (IH w1) as (per & w2 & Hrun2 & Hself2 & Hall).
    rewrite mapM_cons_run, bind_run, Hrun, bind_run, Hrun2, mret_run.
    eexists _, _. split; [reflexivity|]. split; [congruence|].
    constructor; assumption.
Qed.

Lemma lateral_id_inj a b : "rs_lateral_" +:+ a = "rs_lateral_" +:+ b -> a = b.
Proof. cbn. intros H. now injection H. Qed.

(** The ids of what the groups yield are as distinct as the locations. *)
Lemma lateral_ids_NoDup gs per :
  NoDup (map fst gs) ->
  Forall2 (fun g scs =>
             if (2 <=? length (List.filter is_high_risk (snd g)))%nat
             then exists sc, scs = [sc]
                  /\ lateral_post (fst g) (List.filter is_high_risk (snd g)) sc
             else scs = []) gs per ->
  NoDup (map RiskScenario.id (concat per)) /\
  forall i, i ∈ map RiskScenario.id (concat per) ->
            exists loc, loc ∈ map fst gs /\ i = "rs_lateral_" +:+ loc.
Proof.
  intros Hnd Hall. induction Hall as [|[loc ms] scs gs per Hg _ IH].
  - split; [constructor|]. intros i Hi. now apply elem_of_nil in Hi.
  - cbn [map fst] in Hnd. apply NoDup_cons in Hnd as [Hnin Hnd].
    destruct (IH Hnd) as [IH1 IH2]. cbn [fst snd] in Hg.
    cbn [concat map fst].
    destruct (2 <=? length (List.filter is_high_risk ms))%nat.
    + destruct Hg as (sc & -> & Hid & _). cbn [app map]. split.
      * apply NoDup_cons. split; [|assumption].
        intros Hin. destruct (IH2 _ Hin) as (loc' & Hloc' & E).
        rewrite Hid in E. apply lateral_id_inj in E. congruence.
      * intros i Hi. apply elem_of_cons in Hi as [->|Hi].
        -- exists loc. split; [apply elem_of_cons; now left|assumption].
        -- destruct (IH2 _ Hi) as (loc' & Hloc' & E). exists loc'.
           split; [apply elem_of_cons; now right|assumption].
    + subst scs. cbn [app]. split; [assumption|].
      intros i Hi. destruct (IH2 _ Hi) as (loc' & Hloc' & E). exists loc'.
      split; [apply elem_of_cons; now right|assumption].
Qed.

(** The lateral-movement pass, scenario by scenario. *)
Lemma identify_lateral_movement_full w :
  exists scs w',
    _identify_lateral_movement w = Some (scs, w') /\ self w' = self w /\
    let high location := high_risk_at location (Py.values (assets (self w))) in
    (forall sc, sc ∈ scs ->
       exists location,
         (2 <= length (high location))%nat /\
         lateral_post location (high location) sc) /\
    (forall location, (2 <= length (high location))%nat ->
       exists sc, sc ∈ scs /\ lateral_post location (high location) sc) /\
    NoDup (map RiskScenario.id scs).
Proof.
  unfold _identify_lateral_movement. rewrite bind_run. unfold gets. cbv zeta.
  set (l := Py.values (assets (self w))).
  destruct (group_by_location_spec l) as [Hnd Hget].
  destruct (mapM_lateral_full (group_by_location l) w) as (per & w' & Hrun & Hself & Hall).
  rewrite bind_run, Hrun, mret_run.
  eexists _, _. split; [reflexivity|]. split; [exact Hself|].
  assert (Hmem : forall loc ms, (loc, ms) ∈ group_by_location l ->
            List.filter is_high_risk ms = high_risk_at loc l).
  { intros loc ms Hin. apply (elem_of_dict_get _ _ _ Hnd) in Hin.
    rewrite Hget in Hin. unfold high_risk_at.
    destruct (List.filter _ l); [discriminate|]. now injection Hin as <-. }
  clear Hrun. split; [|split].
  - intros sc Hsc. apply elem_of_concat in Hsc as (scs & Hscs & Hsc).
    destruct (Forall2_elem_of_r _ _ _ _ Hall Hscs) as ([loc ms] & Hg & Hpost).
    cbn [fst snd] in Hpost. rewrite (Hmem loc ms Hg) in Hpost.
    destruct (2 <=? length (high_risk_at loc l))%nat eqn:E.
    + destruct Hpost as (sc' & -> & Hpost). apply list_elem_of_singleton in Hsc as ->.
      exists loc. split; [now apply Nat.leb_le|assumption].
    + subst scs. now apply elem_of_nil in Hsc.
  - intros location Hlen.
    assert (Hg : (location, List.filter (fun a => String.eqb (location_of a) location) l)
                 ∈ group_by_location l).
    { apply dict_get_elem_of. rewrite Hget. unfold high_risk_at in Hlen.
      destruct (List.filter (fun a => String.eqb (location_of a) location) l);
        [simpl in Hlen; lia|reflexivity]. }
    destruct (Forall2_elem_of_l _ _ _ _ Hall Hg) as (scs & Hscs & Hpost).
    cbn [fst snd] in Hpost. rewrite (Hmem _ _ Hg) in Hpost.
    apply Nat.leb_le in Hlen. rewrite Hlen in Hpost.
    destruct Hpost as (sc & -> & Hpost). exists sc. split; [|assumption].
    apply elem_of_concat. exists [sc]. split; [assumption|].
    apply elem_of_cons. now left.
  - apply (lateral_ids_NoDup _ _ Hnd Hall).
Qed.

(** X15.  A lateral-movement scenario is raised for a location exactly when
    at least two of its assets carry a stored score above 70; it lists
    those assets, and no location gets two scenarios.  The pass writes
    nothing to the engine. *)
Theorem lateral_movement_needs_two_high_risk_assets w :
  exists scs w',
    _identify_lateral_movement w = Some (scs, w') /\ self w' = self w /\
    let high location := high_risk_at location (Py.values (assets (self w))) in
    (forall sc, sc ∈ scs ->
       exists location,
         (2 <= length (high location))%nat /\
         lateral_post location (high location) sc) /\
    (forall location, (2 <= length (high location))%nat ->
       exists sc, sc ∈ scs /\ lateral_post location (high location) sc) /\
    NoDup (map RiskScenario.id scs).
Proof. exact (identify_lateral_movement_full w). Qed.

Lemma mapM_scenarios_shape w l :
  Forall (fun k => exists a, registered w k a) l ->
  forall w', same_inputs w w' ->
  exists per w'',
    mapM scenarios_of_asset l w' = Some (per, w'') /\ same_inputs w w'' /\
    Forall2 (fun k scs => exists a, registered w k a
                                    /\ asset_scenarios_shape (self w) a scs) l per.
Proof.
  induction 1 as [|k l [a Hreg] _ IH]; intros w' Hs.
  - eexists _, _. split; [reflexivity|]. split; [exact Hs|constructor].
  - destruct (scenarios_of_asset_shape w w' k a Hreg Hs) as (scs & w1 & Hrun & Hs1 & Hpost).
    destruct (IH w1 Hs1) as (per & w2 & Hrun2 & Hs2 & Hall).
    rewrite mapM_cons_run, bind_run, Hrun, bind_run, Hrun2, mret_run.
    eexists _, _. split; [reflexivity|]. split; [exact Hs2|].
    constructor; [eauto|assumption].
Qed.

Lemma shape_affects e a scs :
  asset_scenarios_shape e a scs ->
  Forall (fun sc => RiskScenario.affected_asset_ids sc = [Asset.id a]) scs.
Proof.
  intros (ex & br & -> & Hex & Hbr). apply Forall_app. split.
  - destruct (2 <=? _)%nat; [|subst; constructor].
    destruct Hex as (sc & -> & Hpost). repeat constructor. apply Hpost.
  - destruct (_ && _); [|subst; constructor].
    destruct Hbr as (sc & -> & Hpost). repeat constructor. apply Hpost.
Qed.

Lemma only_affects_other aid aid' sc :
  RiskScenario.affected_asset_ids sc = [aid'] -> aid' <> aid ->
  only_affects aid sc = false.
Proof.
  intros Ha Hne. unfold only_affects. rewrite Ha.
  apply bool_decide_eq_false_2. congruence.
Qed.

Lemma only_affects_same aid sc :
  RiskScenario.affected_asset_ids sc = [aid] -> only_affects aid sc = true.
Proof. intros Ha. unfold only_affects. now apply bool_decide_eq_true_2. Qed.

Lemma filter_concat_shape e k a l per :
  (forall k' a, Py.dict_get k' (assets e) = Some a -> Asset.id a = k') ->
  NoDup l -> k ∈ l -> Py.dict_get k (assets e) = Some a ->
  Forall2 (fun k' scs => exists a, Py.dict_get k' (assets e) = Some a
                                   /\ asset_scenarios_shape e a scs) l per ->
  asset_scenarios_shape e a (List.filter (only_affects (Asset.id a)) (concat per)).
Proof.
  intros Hid Hnd Hin Hget Hall.
  assert (Hother : forall l per, k ∉ l ->
            Forall2 (fun k' scs => exists a, Py.dict_get k' (assets e) = Some a
                                   /\ asset_scenarios_shape e a scs) l per ->
            List.filter (only_affects (Asset.id a)) (concat per) = []).
  { clear -Hid Hget. intros l per Hnin Hall.
    induction Hall as [|k' scs l per (a' & Hget' & Hshape) _ IH]; [reflexivity|].
    apply not_elem_of_cons in Hnin as [Hne Hnin].
    cbn [concat]. rewrite List.filter_app, (IH Hnin), app_nil_r.
    apply filter_none. eapply Forall_impl; [apply (shape_affects _ _ _ Hshape)|].
    intros sc Hsc. cbv beta in Hsc. apply (only_affects_other _ _ _ Hsc).
    rewrite (Hid k' a' Hget'), (Hid k a Hget). congruence. }
  induction Hall as [|k' scs l per (a' & Hget' & Hshape) Hrest IH];
    [now apply elem_of_nil in Hin|].
  apply NoDup_cons in Hnd as [Hnin Hnd].
  cbn [concat]. rewrite List.filter_app.
  destruct (decide (k' = k)) as [->|Hne].
  - assert (a' = a) by congruence. subst a'.
    rewrite (Hother l per Hnin Hrest), app_nil_r.
    rewrite filter_all; [assumption|].
    eapply Forall_impl; [apply (shape_affects _ _ _ Hshape)|].
    intros sc Hsc. now apply only_affects_same.
  - apply elem_of_cons in Hin as [->|Hin]; [congruence|].
    rewrite filter_none; [apply (IH Hnd Hin)|].
    eapply Forall_impl; [apply (shape_affects _ _ _ Hshape)|].
    intros sc Hsc. cbv beta in Hsc. apply (only_affects_other _ _ _ Hsc).
    rewrite (Hid k' a' Hget'), (Hid k a Hget). exact Hne.
Qed.

Lemma generate_risk_scenarios_shape k w asset :
  wf_engine (self w) -> registered w k asset ->
  exists scenarios w',
    generate_risk_scenarios w = Some (scenarios, w') /\
    risk_scenarios (self w') = scenarios /\
    same_inputs w w' /\
    asset_scenarios_shape (self w) asset
      (List.filter (only_affects (Asset.id asset)) scenarios).
Proof.
  intros (Hnd & Hid & Hvid) Hreg.
  assert (Hkeys : Forall (fun k => exists a, registered w k a)
                         (Py.keys (assets (self w)))).
  { apply Forall_forall. intros k' Hin. now apply dict_get_of_key. }
  destruct (mapM_scenarios_shape w _ Hkeys w (same_inputs_refl w))
    as (per & w1 & Hrun & Hs1 & Hall).
  destruct (identify_lateral_movement_full w1)
    as (lat & w2 & Hlat & Hself & Hsc & _ & _).
  unfold generate_risk_scenarios. rewrite bind_run. unfold gets.
  rewrite bind_run, Hrun. cbv zeta. rewrite bind_run, Hlat.
  rewrite bind_run. unfold modify. rewrite mret_run.
  eexists _, _. split; [reflexivity|]. split; [reflexivity|].
  split.
  { cbn [self]. rewrite Hself. exact Hs1. }
  rewrite List.filter_app.
  rewrite (filter_none (only_affects (Asset.id asset)) lat).
  - rewrite app_nil_r.
    apply (filter_concat_shape (self w) k asset _ per Hid Hnd); try assumption.
    eapply dict_get_key. exact Hreg.
  - apply Forall_forall. intros sc Hin.
    destruct (Hsc sc Hin) as (loc & Hlen & Hpost).
    unfold only_affects. apply bool_decide_eq_false_2.
    destruct Hpost as (_ & _ & _ & _ & _ & Haff & _). rewrite Haff.
    intros E. apply (f_equal (@length string)) in E. rewrite length_map in E.
    simpl in E. lia.
Qed.

(** X16.  Which scenarios name one asset alone: a multi-stage attack when the
    asset has two or more resolvable Critical vulnerabilities, then an
    internet breach when it is exposed and has at least one; nothing
    else, and nothing at all for an asset without a Critical one. *)
Theorem asset_scenarios_follow_critical_vulnerabilities k w asset :
  wf_engine (self w) -> registered w k asset ->
  exists scenarios w',
    generate_risk_scenarios w = Some (scenarios, w') /\
    let crit := critical_vulnerabilities (self w) asset in
    map RiskScenario.category
        (List.filter (only_affects (Asset.id asset)) scenarios)
    = ((if (2 <=? length crit)%nat then ["Multi-Stage Attack"] else [])
       ++ (if Asset.exposed_to_internet asset && Py.nonempty crit
           then ["Data Breach & Exfiltration"] else []))%list.
Proof.
  intros Hwf Hreg.
  destruct (generate_risk_scenarios_shape k w asset Hwf Hreg)
    as (scenarios & w' & Hrun & _ & _ & ex & br & Hsplit & Hex & Hbr).
  exists scenarios, w'. split; [exact Hrun|]. cbv zeta.
  rewrite Hsplit, map_app. f_equal.
  - destruct (2 <=? _)%nat; [|now subst].
    destruct Hex as (sc & -> & Hcat & _). cbn [map]. now rewrite Hcat.
  - destruct (_ && _); [|now subst].
    destruct Hbr as (sc & -> & _ & Hcat & _). cbn [map]. now rewrite Hcat.
Qed.

(** X17.  An asset exposed to the internet with a resolvable Critical
    vulnerability gets exactly one internet-breach scenario: severity
    Critical, likelihood Certain, impact Catastrophic, business risk
    score 95 and detection coverage 45 whatever the asset's own score,
    correlated with the asset's Critical vulnerabilities. *)
Theorem internet_breach_scenario_emitted k w asset :
  wf_engine (self w) -> registered w k asset ->
  Asset.exposed_to_internet asset = true ->
  critical_vulnerabilities (self w) asset <> [] ->
  exists scenarios w' sc,
    generate_risk_scenarios w = Some (scenarios, w') /\
    List.filter
      (fun s => only_affects (Asset.id asset) s
                && String.eqb (RiskScenario.category s) "Data Breach & Exfiltration")
      scenarios = [sc] /\
    RiskScenario.id sc = "rs_breach_" +:+ Asset.id asset /\
    RiskScenario.severity sc = CRITICAL /\
    RiskScenario.likelihood sc = "Certain" /\
    RiskScenario.impact sc = "Catastrophic" /\
    RiskScenario.business_risk_score sc == 95 /\
    RiskScenario.detection_coverage sc == 45 /\
    RiskScenario.correlated_vulnerability_ids sc
    = map Vulnerability.id (critical_vulnerabilities (self w) asset).
Proof.
  intros Hwf Hreg Hexp Hcrit.
  destruct (generate_risk_scenarios_shape k w asset Hwf Hreg)
    as (scenarios & w' & Hrun & _ & _ & ex & br & Hsplit & Hex & Hbr).
  rewrite Hexp, (nonempty_true _ Hcrit) in Hbr. cbn [andb] in Hbr.
  destruct Hbr as (sc & -> & Hid & Hcat & Hsev & Hlik & Himp & Haff & Hcor & Hbus & Hdet).
  exists scenarios, w', sc. split; [exact Hrun|].
  split.
  - rewrite filter_andb, Hsplit, List.filter_app. cbn [List.filter].
    rewrite Hcat. cbn [String.eqb Ascii.eqb Bool.eqb]. 
    rewrite filter_none; [reflexivity|].
    destruct (2 <=? _)%nat; [|subst; constructor].
    destruct Hex as (s0 & -> & Hc0 & _). repeat constructor. now rewrite Hc0.
  - rewrite Hbus, Hdet. repeat split; try assumption; reflexivity.
Qed.

(** ** The invariant of reachable engines *)






(** ** Report, full cycle and serialisation *)

Import RiskPlatformOrchestrator RiskCalculationResultDict.

(** X19.  [generate_report] does not get past the risk distribution of an
    engine without assets: the summary of such an engine has no entry
    for the medium bucket, and reading it fails.  With at least one
    asset the report is produced, and the engine is left as it was. *)
Theorem report_needs_an_asset strftime format_1f w :
  (assets (self w) = [] -> generate_report strftime format_1f w = None) /\
  (assets (self w) <> [] ->
   exists report w',
     generate_report strftime format_1f w = Some (report, w') /\
     self w' = self w).
Proof.
  split.
  - intros Hempty. unfold generate_report. rewrite bind_run. unfold gets.
    unfold get_risk_summary. rewrite Hempty. reflexivity.
  - intros Hne. unfold generate_report. rewrite bind_run. unfold gets.
    unfold get_risk_summary.
    destruct (assets (self w)) as [|kv d] eqn:Ha; [congruence|]. cbv zeta.
    rewrite div_Some.
    2:{ unfold Py.len. rewrite length_map. simpl length. rewrite of_nat_S.
        pose proof (of_nat_nonneg (length (Py.values d))). lra. }
    cbn [mbind option_bind].
    eexists _, _. split; [reflexivity|]. reflexivity.
Qed.

Lemma same_inputs_trans w1 w2 w3 :
  same_inputs w1 w2 -> same_inputs w2 w3 -> same_inputs w1 w3.
Proof.
  intros (Hv & Hti & Hk & Ha) (Hv' & Hti' & Hk' & Ha').
  split; [congruence|]. split; [congruence|]. split; [congruence|].
  intros k a Hget. destruct (Ha k a Hget) as (a' & Hget' & Hu).
  destruct (Ha' k a' Hget') as (a'' & Hget'' & Hu').
  exists a''. split; [assumption|congruence].
Qed.

Lemma calculate_all_assets_length w :
  exists results w',
    calculate_all_assets w = Some (results, w') /\ same_inputs w w' /\
    length results = length (assets (self w)).
Proof.
  destruct (mapM_calculate_spec w _ (registered_keys w) w (same_inputs_refl w))
    as (rs & w' & Hrun & Hs & Hall).
  unfold calculate_all_assets. rewrite bind_run. unfold gets.
  rewrite bind_run, Hrun, mret_run.
  eexists _, _. split; [reflexivity|]. split; [exact Hs|].
  rewrite sorted_desc_length. apply Forall2_length in Hall.
  unfold Py.keys in Hall. rewrite length_map in Hall. now symmetry.
Qed.

Lemma generate_risk_scenarios_stores w :
  exists scenarios w',
    generate_risk_scenarios w = Some (scenarios, w') /\ same_inputs w w' /\
    risk_scenarios (self w') = scenarios.
Proof.
  destruct (mapM_scenarios_shape w _ (registered_keys w) w (same_inputs_refl w))
    as (per & w1 & Hrun & Hs1 & _).
  destruct (identify_lateral_movement_full w1)
    as (lat & w2 & Hlat & Hself & _).
  unfold generate_risk_scenarios. rewrite bind_run. unfold gets.
  rewrite bind_run, Hrun. cbv zeta. rewrite bind_run, Hlat.
  rewrite bind_run. unfold modify. rewrite mret_run.
  eexists _, _. split; [reflexivity|]. cbn [self]. rewrite Hself.
  split; [exact Hs1|reflexivity].
Qed.

(** X20.  A full cycle (score every asset, correlate scenarios, summarise)
    always completes.  It returns one result per asset and the
    scenarios it stored in the engine, and for an engine with assets
    the summary counts exactly those results, scenarios and the
    engine's vulnerabilities.  Of the engine's inputs it changes only
    the scores stored on the assets. *)
Theorem full_cycle_summary_counts_what_it_returns w :
  exists out w',
    calculate_all_risks w = Some (out, w') /\
    same_inputs w w' /\
    risk_scenarios (self w') = scenarios out /\
    length (risk_results out) = length (assets (self w)) /\
    (assets (self w) <> [] ->
     Py.dict_get "total_assets" (summary out) = Some (Py.len (risk_results out)) /\
     Py.dict_get "risk_scenarios" (summary out) = Some (Py.len (scenarios out)) /\
     Py.dict_get "total_vulnerabilities" (summary out)
     = Some (Py.len (vulnerabilities (self w)))).
Proof.
  destruct (calculate_all_assets_length w) as (results & w1 & Hrun1 & Hs1 & Hlen).
  destruct (generate_risk_scenarios_stores w1) as (scs & w2 & Hrun2 & Hs2 & Hsc).
  pose proof (same_inputs_trans w w1 w2 Hs1 Hs2) as Hs.
  unfold calculate_all_risks. rewrite bind_run, Hrun1, bind_run, Hrun2.
  rewrite bind_run. unfold gets.
  assert (Hk : length (assets (self w2)) = length (assets (self w))).
  { destruct Hs as (_ & _ & Hkeys & _). apply (f_equal (@length string)) in Hkeys.
    unfold Py.keys in Hkeys. now rewrite !length_map in Hkeys. }
  assert (Hv : vulnerabilities (self w2) = vulnerabilities (self w)) by apply Hs.
  unfold get_risk_summary.
  destruct (assets (self w2)) as [|kv d] eqn:Ha.
  - cbn [lift]. rewrite bind_run. cbn [lift]. rewrite mret_run.
    eexists _, _. split; [reflexivity|]. cbn [summary risk_results scenarios].
    split; [exact Hs|]. split; [exact Hsc|]. split; [exact Hlen|].
    intros Hne. exfalso. apply Hne. simpl in Hk.
    destruct (assets (self w)); [reflexivity|discriminate].
  - cbv zeta. rewrite div_Some.
    2:{ unfold Py.len. rewrite length_map. simpl length. rewrite of_nat_S.
        pose proof (of_nat_nonneg (length (Py.values d))). lra. }
    cbn [mbind option_bind]. rewrite bind_run. cbn [lift]. rewrite mret_run.
    eexists _, _. split; [reflexivity|]. cbn [summary risk_results scenarios].
    split; [exact Hs|]. split; [exact Hsc|]. split; [exact Hlen|].
    intros _. cbn [Py.dict_get String.eqb Ascii.eqb Bool.eqb].
    rewrite Hsc, Hv. unfold Py.len. rewrite Hlen, <- Hk. repeat split.
Qed.



(** ** The further properties at the example estate *)

Lemma vuln_001_cvss_nonneg : 0 <= Vulnerability.cvss_score vuln_001.
Proof. cbn. lra. Qed.

Lemma gateway_wf : wf_engine (self gateway_world).
Proof. apply wf_add_asset, example_wf. Qed.

Lemma gateway_registered : registered gateway_world "web-gw-01" web_gw_01.
Proof. reflexivity. Qed.

Lemma gateway_critical : critical_vulnerabilities (self gateway_world) web_gw_01 <> [].
Proof. vm_compute. discriminate. Qed.




Lemma example_unrelated_cve :
  Forall (fun v => Vulnerability.cve_id v <> Some "CVE-2099-0001")
         (resolve (self example_world) (Asset.vulnerability_ids srv_prod_db_01)).
Proof. repeat constructor; discriminate. Qed.


Lemma example_assets_nonempty : assets example_engine <> [].
Proof. vm_compute. discriminate. Qed.

Lemma patch_lowers_and_exploit_raises_witness :
  threat_intel_valid example_engine /\
  0 <= Vulnerability.cvss_score vuln_001 /\
  let score ea ep pa :=
    calculate_vulnerability_risk example_engine (with_flags ea ep pa vuln_001) in
  score true false true <= score true false false /\
  score false false false <= score true false false /\
  score true false false <= score true true false.
Proof.
  split; [exact example_threat_intel_valid|].
  split; [exact vuln_001_cvss_nonneg|].
  destruct (patch_lowers_and_exploit_raises example_engine vuln_001
              example_threat_intel_valid vuln_001_cvss_nonneg) as (H1 & H2 & H3).
  cbv zeta. split; [apply H1|]. split; [apply H2|apply H3].
Defined.

Lemma threat_intelligence_raises_score_witness :
  threat_intel_valid example_engine /\
  0 <= Vulnerability.cvss_score vuln_001 /\
  calculate_vulnerability_risk (without_threat_intel example_engine) vuln_001
  <= calculate_vulnerability_risk example_engine vuln_001 /\
  calculate_vulnerability_risk example_engine vuln_001
  <= 1.5 * calculate_vulnerability_risk (without_threat_intel example_engine) vuln_001.
Proof.
  split; [exact example_threat_intel_valid|].
  split; [exact vuln_001_cvss_nonneg|].
  destruct (threat_intelligence_raises_score example_engine vuln_001
              example_threat_intel_valid vuln_001_cvss_nonneg) as (H1 & H2 & _).
  split; [exact H1|exact H2].
Defined.



Lemma unrelated_threat_intelligence_changes_nothing_witness :
  registered example_world "srv-prod-db-01" srv_prod_db_01 /\
  Forall (fun v => Vulnerability.cve_id v <> Some "CVE-2099-0001")
         (resolve (self example_world) (Asset.vulnerability_ids srv_prod_db_01)) /\
  exists r w1 w2,
    calculate_asset_risk "srv-prod-db-01" example_world = Some (r, w1) /\
    calculate_asset_risk "srv-prod-db-01"
      (World (add_threat_intelligence "CVE-2099-0001" 1 (self example_world))
             (clock example_world))
    = Some (r, w2).
Proof.
  split; [exact example_registered|]. split; [exact example_unrelated_cve|].
  exact (unrelated_threat_intelligence_changes_nothing "srv-prod-db-01"
           example_world srv_prod_db_01 "CVE-2099-0001" 1 example_registered
           example_unrelated_cve).
Defined.

Lemma calculate_all_assets_sorted_by_risk_witness :
  wf_engine (self example_world) /\
  exists results w',
    calculate_all_assets example_world = Some (results, w') /\
    Permutation (map RiskCalculationResult.asset_id results)
                ["srv-prod-db-01"; "wkst-exec-01"; "printer-01"].
Proof.
  split; [exact example_wf|].
  destruct (calculate_all_assets_sorted_by_risk example_world example_wf)
    as (results & w' & Hrun & Hperm & _).
  exists results, w'. split; [exact Hrun|exact Hperm].
Defined.

Lemma calculate_all_assets_stores_scores_witness :
  wf_engine (self example_world) /\
  registered example_world "srv-prod-db-01" srv_prod_db_01 /\
  exists results w' r asset',
    calculate_all_assets example_world = Some (results, w') /\
    r ∈ results /\
    registered w' "srv-prod-db-01" asset' /\
    Asset.risk_score asset' = RiskCalculationResult.total_risk_score r.
Proof.
  split; [exact example_wf|]. split; [exact example_registered|].
  destruct (calculate_all_assets_stores_scores "srv-prod-db-01" example_world
              srv_prod_db_01 example_wf example_registered)
    as (results & w' & r & Hrun & Hin & _ & Hyes & _).
  destruct (Hyes example_has_resolvable) as (asset' & Hreg & Hscore).
  exists results, w', r, asset'. repeat split; assumption.
Defined.

Lemma risk_summary_high_medium_low_partition_witness :
  assets example_engine <> [] /\
  exists summary high medium low,
    get_risk_summary example_engine = Some summary /\
    Py.dict_get "high_risk_assets" summary = Some high /\
    Py.dict_get "medium_risk_assets" summary = Some medium /\
    Py.dict_get "low_risk_assets" summary = Some low /\
    high + medium + low == 3.
Proof.
  split; [exact example_assets_nonempty|].
  destruct (risk_summary_high_medium_low_partition example_engine
              example_assets_nonempty)
    as (summary & total & critical & high & medium & low
        & Hrun & _ & _ & Hh & Hm & Hl & Ht & Hsum & _).
  exists summary, high, medium, low.
  split; [exact Hrun|]. split; [exact Hh|]. split; [exact Hm|]. split; [exact Hl|].
  rewrite Hsum, Ht. reflexivity.
Defined.

Lemma asset_scenarios_follow_critical_vulnerabilities_witness :
  wf_engine (self example_world) /\
  registered example_world "srv-prod-db-01" srv_prod_db_01 /\
  exists scenarios w',
    generate_risk_scenarios example_world = Some (scenarios, w') /\
    map RiskScenario.category
        (List.filter (only_affects "srv-prod-db-01") scenarios)
    = ["Multi-Stage Attack"].
Proof.
  split; [exact example_wf|]. split; [exact example_registered|].
  destruct (asset_scenarios_follow_critical_vulnerabilities "srv-prod-db-01"
              example_world srv_prod_db_01 example_wf example_registered)
    as (scenarios & w' & Hrun & Hcat).
  exists scenarios, w'. split; [exact Hrun|]. exact Hcat.
Defined.

Lemma internet_breach_scenario_emitted_witness :
  wf_engine (self gateway_world) /\
  registered gateway_world "web-gw-01" web_gw_01 /\
  Asset.exposed_to_internet web_gw_01 = true /\
  critical_vulnerabilities (self gateway_world) web_gw_01 <> [] /\
  exists scenarios w' sc,
    generate_risk_scenarios gateway_world = Some (scenarios, w') /\
    sc ∈ scenarios /\
    RiskScenario.id sc = "rs_breach_web-gw-01" /\
    RiskScenario.business_risk_score sc == 95 /\
    RiskScenario.correlated_vulnerability_ids sc = ["VULN-003"].
Proof.
  split; [exact gateway_wf|]. split; [exact gateway_registered|].
  split; [reflexivity|]. split; [exact gateway_critical|].
  destruct (internet_breach_scenario_emitted "web-gw-01" gateway_world web_gw_01
              gateway_wf gateway_registered eq_refl gateway_critical)
    as (scenarios & w' & sc & Hrun & Hone & Hid & _ & _ & _ & Hbus & _ & Hcor).
  exists scenarios, w', sc. split; [exact Hrun|].
  split.
  - assert (Hin : sc ∈ [sc]) by (apply elem_of_cons; now left).
    rewrite <- Hone in Hin. apply list_elem_of_In, List.filter_In in Hin as [Hin _].
    now apply list_elem_of_In.
  - split; [exact Hid|]. split; [exact Hbus|exact Hcor].
Defined.



End RiskEngineTheory.

(** * The ensemble confidence engine *)

Module EnsembleTheory.
Import UltraPreciseRiskEngine EnsembleSpec.

(** * numpy reductions *)











(** * Ascending sort, median and percentiles are defined on non-empty data *)






(** * Running the monad *)

(** * Feature extraction *)



Section Skewness.
Variable np_sqrt : Q -> Q.



End Skewness.

Section Extraction.
Variable np_sqrt : Q -> Q.



End Extraction.

(** * Comparisons *)




(** * The five estimates *)












(** * Bounds of the extracted features *)






(** * Agreement, uncertainty, confidence, interval *)

Section Gates.
Variable np_sqrt : Q -> Q.



End Gates.




(** * Running [calculate_ultra_precise_risk] *)

Section Run.
Variable np_sqrt : Q -> Q.



End Run.



(** * The low-agreement early return *)




(** * Ranges of what the ensemble engine returns *)




(** * Degenerate inputs *)






(** * The claims at the example inputs *)


Lemma disputed_cvss_in_range : cvss_in_range disputed_vulnerabilities.
Proof. repeat constructor; cbn; lra. Qed.


(** The two example inputs take the two paths. *)
Example disputed_is_uncertain :
  option_map (fun p => UltraPreciseRiskScore.risk_level (fst p))
    (calculate_ultra_precise_risk sqrt_6dp RiskEngineSpec.srv_prod_db_01
       disputed_vulnerabilities None None example_world)
  = Some "Uncertain".
Proof. vm_compute. reflexivity. Qed.

Example agreed_is_classified :
  option_map (fun p => (UltraPreciseRiskScore.risk_level (fst p),
                        UltraPreciseRiskScore.precision_level (fst p)))
    (calculate_ultra_precise_risk sqrt_6dp RiskEngineSpec.srv_prod_db_01
       agreed_vulnerabilities None None example_world)
  = Some ("Medium", "standard").
Proof. vm_compute. reflexivity. Qed.



(** * Defined values in their ranges *)





(** * Further properties of the ensemble engine *)

(** ** The paths through the engine *)


(** ** Ratings and precision *)




(** ** Interval, validation and history *)







(** ** Features and aggregation *)






(** ** The further properties at the example inputs *)












End EnsembleTheory.
